(** * VPS plan loaders: a shallow embedding of the provider adapters,
      the aggregating collection loader and the plan schema.

    The TypeScript sources embedded here are the six provider loaders
    (DigitalOcean, Hetzner, Linode, Vultr, UpCloud, Scaleway), the
    [vpsPlans] collection loader and [vpsSchema] of [content.config.ts].

    Modelling conventions.
    - A JavaScript [number] read from JSON is a rational ([Q]); computed
      numbers live in [number], which adds [NaN] and the two infinities
      (both can come out of [parseFloat]).  Rounding of binary floating
      point is not modelled: arithmetic is exact, so that a price the
      code rounds to cents can come out one cent off where the exact
      product falls on half a cent.
    - Strings are byte strings (UTF-8).  [toLowerCase] and [toUpperCase]
      are those of the engine ([Str.CaseMapping]): the model only fixes
      what they do on ASCII text, and every general property holds for
      whatever they do on other letters.
    - An [async] function is a computation in the monad [M], which
      threads the trace of observable events (requests issued, console
      output) and either resolves with a value or rejects with an
      exception.  Requests of one [Promise.all] are issued in array
      order.  A promise of the model is settled and carries no time: the
      order in which the inputs of one [Promise.all] settle is part of
      what the network answers ([arrival]), and the rejection reported
      is the first one in that order. *)

From Stdlib Require Import QArith Qround Lia Lqa Ascii String.
From stdpp Require Import base strings list gmap pretty.

(** ** JavaScript numbers *)

Inductive number : Type :=
  | NaN
  | NegInf
  | Fin (q : Q)
  | PosInf.

Definition Qlt_bool (x y : Q) : bool := negb (Qle_bool y x).

Module Num.

(** [a < b] *)
Definition lt (a b : number) : bool :=
  match a, b with
  | NaN, _ | _, NaN => false
  | NegInf, NegInf => false
  | NegInf, _ => true
  | Fin _, NegInf => false
  | Fin x, Fin y => Qlt_bool x y
  | Fin _, PosInf => true
  | PosInf, _ => false
  end.

(** [a <= b] *)
Definition le (a b : number) : bool :=
  match a, b with
  | NaN, _ | _, NaN => false
  | NegInf, _ => true
  | Fin _, NegInf => false
  | Fin x, Fin y => Qle_bool x y
  | Fin _, PosInf => true
  | PosInf, PosInf => true
  | PosInf, _ => false
  end.

(** [a >= b] and [a > b] *)
Definition ge (a b : number) : bool := le b a.
Definition gt (a b : number) : bool := lt b a.

(** [a === b] on numbers *)
Definition eqb (a b : number) : bool :=
  match a, b with
  | NegInf, NegInf | PosInf, PosInf => true
  | Fin x, Fin y => Qeq_bool x y
  | _, _ => false
  end.

Definition inf (negative : bool) : number :=
  if negative then NegInf else PosInf.

Definition Qneg (q : Q) : bool := Qlt_bool q 0.

(** [a * b] *)
Definition mul (a b : number) : number :=
  match a, b with
  | NaN, _ | _, NaN => NaN
  | Fin x, Fin y => Fin (x * y)
  | Fin x, PosInf | PosInf, Fin x =>
      if Qeq_bool x 0 then NaN else inf (Qneg x)
  | Fin x, NegInf | NegInf, Fin x =>
      if Qeq_bool x 0 then NaN else inf (negb (Qneg x))
  | PosInf, PosInf | NegInf, NegInf => PosInf
  | PosInf, NegInf | NegInf, PosInf => NegInf
  end.

(** [a / b] *)
Definition div (a b : number) : number :=
  match a, b with
  | NaN, _ | _, NaN => NaN
  | Fin x, Fin y =>
      if Qeq_bool y 0
      then (if Qeq_bool x 0 then NaN else inf (Qneg x))
      else Fin (x / y)
  | Fin _, (PosInf | NegInf) => Fin 0
  | PosInf, Fin y => inf (Qneg y)
  | NegInf, Fin y => inf (negb (Qneg y))
  | (PosInf | NegInf), (PosInf | NegInf) => NaN
  end.

(** [a + b] *)
Definition add (a b : number) : number :=
  match a, b with
  | NaN, _ | _, NaN => NaN
  | Fin x, Fin y => Fin (x + y)
  | PosInf, NegInf | NegInf, PosInf => NaN
  | PosInf, _ | _, PosInf => PosInf
  | NegInf, _ | _, NegInf => NegInf
  end.

(** [Math.round]: the nearest integer, halves towards plus infinity *)
Definition round (a : number) : number :=
  match a with
  | Fin x => Fin (inject_Z (Qfloor (x + (1 # 2))%Q))
  | _ => a
  end.

(** [Number.isInteger] *)
Definition isInteger (a : number) : bool :=
  match a with
  | Fin x => Qeq_bool (inject_Z (Qfloor x)) x
  | _ => false
  end.

Definition isNaN (a : number) : bool :=
  match a with NaN => true | _ => false end.

(** Numeric equality as a proposition: both finite and equal as
    rationals, or the same infinity. *)
Definition equiv (a b : number) : Prop := eqb a b = true.

End Num.

(** ** Strings *)

Module Str.

Definition code (c : ascii) : N := Ascii.N_of_ascii c.

Definition lower_char (c : ascii) : ascii :=
  if ((65 <=? code c) && (code c <=? 90))%N
  then Ascii.ascii_of_N (code c + 32) else c.

Definition upper_char (c : ascii) : ascii :=
  if ((97 <=? code c) && (code c <=? 122))%N
  then Ascii.ascii_of_N (code c - 32) else c.

Fixpoint map_chars (f : ascii -> ascii) (s : string) : string :=
  match s with
  | EmptyString => EmptyString
  | String c t => String (f c) (map_chars f t)
  end.

(** A string of ASCII characters only. *)
Fixpoint is_ascii (s : string) : bool :=
  match s with
  | EmptyString => true
  | String c t => (code c <? 128)%N && is_ascii t
  end.

(** [toLowerCase] and [toUpperCase] apply the case mappings of Unicode
    that the engine carries.  They are taken as given.  What is fixed
    is what every engine does: on ASCII text the letters [A] to [Z] and
    [a] to [z] are mapped onto each other and nothing else changes; and
    only the empty string has an empty image. *)
Class CaseMapping : Type := {
  toLowerCase : string -> string;
  toUpperCase : string -> string;
  toLowerCase_ascii :
    forall s, is_ascii s = true -> toLowerCase s = map_chars lower_char s;
  toUpperCase_ascii :
    forall s, is_ascii s = true -> toUpperCase s = map_chars upper_char s;
  toLowerCase_empty : forall s, toLowerCase s = EmptyString -> s = EmptyString;
  toUpperCase_empty : forall s, toUpperCase s = EmptyString -> s = EmptyString
}.

Lemma map_chars_empty (f : ascii -> ascii) (s : string) :
  map_chars f s = EmptyString -> s = EmptyString.
Proof. destruct s; [reflexivity | discriminate]. Qed.

(** The mapping of an engine that knows the ASCII letters only.  The
    worked examples, whose texts are ASCII, are run with it. *)
#[global] Instance ascii_letters : CaseMapping :=
  {| toLowerCase := map_chars lower_char;
     toUpperCase := map_chars upper_char;
     toLowerCase_ascii := fun _ _ => eq_refl;
     toUpperCase_ascii := fun _ _ => eq_refl;
     toLowerCase_empty := map_chars_empty lower_char;
     toUpperCase_empty := map_chars_empty upper_char |}.

(** [hay.includes(needle)] *)
Fixpoint includes (hay needle : string) : bool :=
  String.prefix needle hay ||
  match hay with
  | EmptyString => false
  | String _ t => includes t needle
  end.

(** a string is truthy when it is not empty *)
Definition truthy (s : string) : bool :=
  match s with EmptyString => false | _ => true end.

(** How many bytes the character that starts with [c] takes. *)
Definition char_width (c : ascii) : nat :=
  if (code c <? 192)%N then 1
  else if (code c <? 224)%N then 2
  else if (code c <? 240)%N then 3
  else 4.

(** [s.charAt(0).toUpperCase() + s.slice(1)].  A character of four
    bytes is a pair of code units: [charAt(0)] is the first of them
    alone, which has no upper case, and the text is left as it is. *)
Definition capitalize {cm : CaseMapping} (s : string) : string :=
  match s with
  | EmptyString => EmptyString
  | String c _ =>
      let w := char_width c in
      if (w =? 4)%nat then s
      else toUpperCase (String.substring 0 w s)
           +:+ String.substring w (String.length s - w) s
  end.

Definition is_digit (c : ascii) : bool :=
  ((48 <=? code c) && (code c <=? 57))%N.

Definition digit (c : ascii) : Z := Z.of_N (code c) - 48.

Definition is_space (c : ascii) : bool :=
  let n := code c in
  ((n =? 32) || ((9 <=? n) && (n <=? 13)))%N.

Fixpoint skip_spaces (s : string) : string :=
  match s with
  | String c t => if is_space c then skip_spaces t else s
  | EmptyString => s
  end.

(** Reads the longest run of decimal digits: its value on top of
    [acc], how many digits were read, and what follows. *)
Fixpoint read_digits (s : string) (acc : Z) (n : nat) : Z * nat * string :=
  match s with
  | String c t =>
      if is_digit c then read_digits t (acc * 10 + digit c)%Z (S n)
      else (acc, n, s)
  | EmptyString => (acc, n, s)
  end.

Definition read_sign (s : string) : bool * string :=
  match s with
  | String "-" t => (true, t)
  | String "+" t => (false, t)
  | _ => (false, s)
  end.

(** The exponent part [e], [e+] or [e-] followed by digits; 0 when
    there is none. *)
Definition read_exponent (s : string) : Z :=
  match s with
  | String c t =>
      if (Ascii.eqb c "e" || Ascii.eqb c "E")%char then
        let '(neg, t') := read_sign t in
        let '(e, n, _) := read_digits t' 0%Z 0%nat in
        match n with
        | O => 0%Z
        | S _ => if neg then (- e)%Z else e
        end
      else 0%Z
  | EmptyString => 0%Z
  end.

End Str.

(** [parseFloat]: leading white space is skipped, then the longest prefix
    that is a decimal literal is read; [NaN] when there is none. *)
Definition parseFloat (s : string) : number :=
  let '(neg, s0) := Str.read_sign (Str.skip_spaces s) in
  if String.prefix "Infinity" s0 then Num.inf neg else
  let '(ip, ni, s1) := Str.read_digits s0 0%Z 0%nat in
  let '(fp, nf, s2) :=
    match s1 with
    | String "." t => Str.read_digits t ip 0%nat
    | _ => (ip, 0%nat, s1)
    end in
  match (ni + nf)%nat with
  | O => NaN
  | S _ =>
      let e := Str.read_exponent s2 in
      let m := if neg then (- fp)%Z else fp in
      Fin (Qred (inject_Z m * Qpower 10 (e - Z.of_nat nf)))
  end.

(** [Number.prototype.toString] for the values that occur in plan names:
    integers print in decimal; other rationals print their integer part
    and up to 20 fractional digits. *)
Fixpoint frac_digits (fuel : nat) (num den : Z) : string :=
  match fuel with
  | O => ""
  | S fuel' =>
      if (num =? 0)%Z then ""
      else pretty (num * 10 / den)%Z +:+ frac_digits fuel' ((num * 10) mod den)%Z den
  end.

Definition Number_toString (q : Q) : string :=
  let n := Qnum q in
  let d := Z.pos (Qden q) in
  let a := Z.abs n in
  let sign := if (n <? 0)%Z then "-" else "" in
  if (a mod d =? 0)%Z then sign +:+ pretty (a / d)%Z
  else sign +:+ pretty (a / d)%Z +:+ "." +:+ frac_digits 20 (a mod d)%Z d.

(** ** Exceptions, observable events and the promise monad *)

Inductive exn : Type :=
  | Error (message : string)         (* [new Error(...)] thrown by a loader *)
  | TypeError (message : string)     (* raised by the runtime *)
  | SyntaxError (message : string)   (* [response.json()] on a malformed body *)
  | FetchError (message : string).   (* [fetch] rejecting: transport failure *)

Inductive event : Type :=
  | Request (url : string)
  | ConsoleWarn (message : string)
  | ConsoleError (message : string) (e : exn)
  | ConsoleLog (message : string).

(** A settled promise. *)
Definition Promise (A : Type) : Type := (exn + A)%type.

(** An [async] computation: from the trace so far to the extended trace
    and the way the computation settles. *)
Definition M (A : Type) : Type := list event -> list event * Promise A.

Definition ret {A} (a : A) : M A := fun tr => (tr, inr a).

Definition throw {A} (e : exn) : M A := fun tr => (tr, inl e).

Definition bind {A B} (c : M A) (k : A -> M B) : M B :=
  fun tr =>
    match c tr with
    | (tr', inr a) => k a tr'
    | (tr', inl e) => (tr', inl e)
    end.

Notation "'let*' x ':=' c 'in' k" := (bind c (fun x => k))
  (at level 10, x pattern, c at level 100, k at level 200).
Notation "c ';;' k" := (bind c (fun _ => k))
  (at level 100, k at level 200, right associativity).

Definition emit (e : event) : M unit := fun tr => (tr ++ [e], inr tt).

Definition console_warn (m : string) : M unit := emit (ConsoleWarn m).
Definition console_error (m : string) (e : exn) : M unit := emit (ConsoleError m e).
Definition console_log (m : string) : M unit := emit (ConsoleLog m).

(** [try { body } catch (error) { handler }] *)
Definition try_catch {A} (body : M A) (handler : exn -> M A) : M A :=
  fun tr =>
    match body tr with
    | (tr', inl e) => handler e tr'
    | r => r
    end.

(** [await p] *)
Definition await {A} (p : Promise A) : M A :=
  match p with
  | inr a => ret a
  | inl e => throw e
  end.

(** Calling an [async] function: it runs and hands back its promise. *)
Definition spawn {A} (c : M A) : M (Promise A) :=
  fun tr => let '(tr', r) := c tr in (tr', inr r).

(** [Promise.all] resolves to all the values, or rejects as soon as one
    input rejects, with the reason of that input: of several rejected
    inputs, the one that rejected first in time.  [arrival] gives the
    positions of the inputs in the order in which they settle, earliest
    first.  An input it does not list had settled before the call: its
    reaction runs ahead of those of the listed ones, in array order. *)
Definition settling_order (arrival : list nat) (n : nat) : list nat :=
  List.filter (fun i => negb (existsb (Nat.eqb i) arrival)) (seq 0 n) ++ arrival.

Definition rejection {A} (p : Promise A) : option exn :=
  match p with
  | inl e => Some e
  | inr _ => None
  end.

Definition resolution {A} (p : Promise A) : option A :=
  match p with
  | inr a => Some a
  | inl _ => None
  end.

(** The reason of the first rejected input along [order]. *)
Fixpoint first_rejection (order : list nat) (rs : list (option exn)) : option exn :=
  match order with
  | [] => None
  | i :: order' =>
      match rs !! i with
      | Some (Some e) => Some e
      | _ => first_rejection order' rs
      end
  end.

Definition Promise_all {A} (arrival : list nat) (ps : list (Promise A))
  : Promise (list A) :=
  match first_rejection (settling_order arrival (length ps)) (map rejection ps) with
  | Some e => inl e
  | None => inr (omap resolution ps)
  end.

(** [Promise.all] on an array of two and of three promises of different
    types.  With a single rejected input there is nothing to order. *)
Definition Promise_all2 {A B} (arrival : list nat) (p : Promise A) (q : Promise B)
  : Promise (A * B) :=
  match p, q with
  | inr a, inr b => inr (a, b)
  | inl e, inr _ => inl e
  | inr _, inl e => inl e
  | inl e1, inl e2 =>
      inl (default e1 (first_rejection (settling_order arrival 2) [Some e1; Some e2]))
  end.

Definition Promise_all3 {A B C} (arrival : list nat)
  (p : Promise A) (q : Promise B) (r : Promise C) : Promise (A * B * C) :=
  match p, q, r with
  | inr a, inr b, inr c => inr (a, b, c)
  | inl e, inr _, inr _ => inl e
  | inr _, inl e, inr _ => inl e
  | inr _, inr _, inl e => inl e
  | inl e, _, _ | inr _, inl e, _ =>
      inl (default e (first_rejection (settling_order arrival 3)
                        [rejection p; rejection q; rejection r]))
  end.

(** An HTTP response: the status line and how [response.json()] settles. *)
Record Response (A : Type) : Type := mkResponse {
  ok : bool;
  status : N;
  statusText : string;
  json : Promise A
}.
Arguments mkResponse {A}.
Arguments ok {A}.
Arguments status {A}.
Arguments statusText {A}.
Arguments json {A}.

(** [fetch(url, ...)]: the request is issued and a promise handed back;
    [upstream] is how the network settles it. *)
Definition fetch {A} (url : string) (upstream : Promise (Response A))
  : M (Promise (Response A)) :=
  emit (Request url);; ret upstream.

(** [process.env] *)
Abbreviation Env := (gmap string string).

(** [!process.env.X]: unset or empty *)
Definition unset (env : Env) (x : string) : bool :=
  match env !! x with
  | Some v => negb (Str.truthy v)
  | None => true
  end.

(** How many times [console.error] and [console.warn] were called, and
    the requests issued. *)
Definition is_error (e : event) : bool :=
  match e with ConsoleError _ _ => true | _ => false end.
Definition is_warn (e : event) : bool :=
  match e with ConsoleWarn _ => true | _ => false end.
Definition is_request (e : event) : bool :=
  match e with Request _ => true | _ => false end.

Definition errors (tr : list event) : nat := length (List.filter is_error tr).
Definition warnings (tr : list event) : nat := length (List.filter is_warn tr).
Definition requests (tr : list event) : list event := List.filter is_request tr.

(** ** The plan record the adapters build *)

Record Price : Type := mkPrice {
  monthly : number;
  currency : string
}.

Record Cpu : Type := mkCpu {
  cores : number;
  cpu_type : string
}.

Record Ram : Type := mkRam {
  ram_amount : number;
  ram_unit : string
}.

Record Storage : Type := mkStorage {
  storage_amount : number;
  storage_unit : string;
  storage_type : string
}.

Record Bandwidth : Type := mkBandwidth {
  bandwidth_amount : number;
  bandwidth_unit : string;
  unlimited : bool
}.

Record Specs : Type := mkSpecs {
  cpu : Cpu;
  ram : Ram;
  storage : Storage;
  bandwidth : Bandwidth
}.

Record Uptime : Type := mkUptime {
  percentage : number;
  sla : bool
}.

Record Plan : Type := mkPlan {
  id : string;
  provider : string;
  name : string;
  description : option string;
  price : Price;
  specs : Specs;
  features : list string;
  locations : list string;
  uptime : Uptime;
  support : string;
  website : string;
  featured : bool;
  tags : list string
}.

(** [arr.slice(0, n)] *)
Definition slice0 {A} (n : nat) (l : list A) : list A := take n l.

(** [arr.includes(x)] on strings *)
Definition includes (l : list string) (x : string) : bool :=
  existsb (String.eqb x) l.

(** [tags.push(...)] when the condition holds *)
Definition push_if (c : bool) (extra : list string) (tags : list string) : list string :=
  if c then tags ++ extra else tags.

(** ** [vpsSchema]: the canonical plan schema *)

Module vpsSchema.

(** The kinds of issue the validation library reports. *)
Inductive code : Type :=
  | invalid_type
  | too_small
  | too_big
  | invalid_enum_value
  | invalid_string.

(** An issue: its kind, the path of the field and the message the
    schema attaches to the constraint, when it gives one. *)
Record issue : Type := mkIssue {
  issue_code : code;
  path : list string;
  message : option string
}.

Definition check (holds : bool) (c : code) (p : list string) (m : option string)
  : list issue :=
  if holds then [] else [mkIssue c p m].

(** [z.string().min(1, m)] *)
Definition string_min1 (p : list string) (m : string) (s : string) : list issue :=
  check (Str.truthy s) too_small p (Some m).

(** [z.number()] followed by the checks [cs]: [NaN] is not a number,
    and then no check is run. *)
Definition a_number (p : list string) (cs : list (number -> list issue)) (a : number)
  : list issue :=
  if Num.isNaN a then [mkIssue invalid_type p None]
  else concat (map (fun c => c a) cs).

(** [.positive(m)], [.nonnegative(m)], [.int()], [.min(0)], [.max(100, m)] *)
Definition positive (p : list string) (m : string) (a : number) : list issue :=
  check (Num.gt a (Fin 0)) too_small p (Some m).
Definition nonnegative (p : list string) (m : string) (a : number) : list issue :=
  check (Num.ge a (Fin 0)) too_small p (Some m).
Definition int (p : list string) (a : number) : list issue :=
  check (Num.isInteger a) invalid_type p None.
Definition min0 (p : list string) (a : number) : list issue :=
  check (Num.ge a (Fin 0)) too_small p None.
Definition max100 (p : list string) (m : string) (a : number) : list issue :=
  check (Num.le a (Fin 100)) too_big p (Some m).

(** [z.enum(values)] *)
Definition enum (p : list string) (values : list string) (m : option string) (s : string)
  : list issue :=
  check (includes values s) invalid_enum_value p m.

(** [z.array(z.string()).min(1, m)] *)
Definition array_min1 (p : list string) (m : string) (l : list string) : list issue :=
  check (negb (length l =? 0)%nat) too_small p (Some m).

(** [z.string().url(m)] accepts what the [URL] constructor parses.  The
    adapters only ever emit constant [https] addresses, so the check
    is modelled for [http] and [https] addresses: the scheme, [//] and
    a host that is not empty. *)
Definition after_prefix (pre s : string) : option string :=
  if String.prefix pre s
  then Some (String.substring (String.length pre) (String.length s - String.length pre) s)
  else None.

Definition host_start (s : string) : bool :=
  match s with
  | String c _ => negb (Ascii.eqb c "/") && negb (Str.is_space c)
  | EmptyString => false
  end.

Definition is_url (s : string) : bool :=
  match after_prefix "https://" s, after_prefix "http://" s with
  | Some r, _ | None, Some r => host_start r
  | None, None => false
  end.

Definition url (p : list string) (m : string) (s : string) : list issue :=
  check (is_url s) invalid_string p (Some m).

(** [vpsSchema.safeParse(plan)]: the issues, in the order of the
    schema.  The optional fields [yearly], [createdAt] and [updatedAt]
    are never set by an adapter; [tags], [description] and [featured]
    carry no constraint beyond their type. *)
Definition validate (c : Plan) : list issue :=
  string_min1 ["id"] "ID is required" (id c) ++
  string_min1 ["provider"] "Provider name is required" (provider c) ++
  string_min1 ["name"] "Plan name is required" (name c) ++
  a_number ["price"; "monthly"]
    [positive ["price"; "monthly"] "Monthly price must be positive"]
    (monthly (price c)) ++
  enum ["price"; "currency"] ["USD"; "EUR"; "GBP"]
    (Some "Currency must be USD, EUR, or GBP") (currency (price c)) ++
  a_number ["specs"; "cpu"; "cores"]
    [int ["specs"; "cpu"; "cores"];
     positive ["specs"; "cpu"; "cores"] "CPU cores must be a positive integer"]
    (cores (cpu (specs c))) ++
  enum ["specs"; "cpu"; "type"] ["vCPU"; "CPU"; "Core"] None
    (cpu_type (cpu (specs c))) ++
  a_number ["specs"; "ram"; "amount"]
    [positive ["specs"; "ram"; "amount"] "RAM amount must be positive"]
    (ram_amount (ram (specs c))) ++
  enum ["specs"; "ram"; "unit"] ["MB"; "GB"; "TB"] None
    (ram_unit (ram (specs c))) ++
  a_number ["specs"; "storage"; "amount"]
    [positive ["specs"; "storage"; "amount"] "Storage amount must be positive"]
    (storage_amount (storage (specs c))) ++
  enum ["specs"; "storage"; "unit"] ["GB"; "TB"] None
    (storage_unit (storage (specs c))) ++
  enum ["specs"; "storage"; "type"] ["SSD"; "NVMe"; "HDD"; "EBS"] None
    (storage_type (storage (specs c))) ++
  a_number ["specs"; "bandwidth"; "amount"]
    [nonnegative ["specs"; "bandwidth"; "amount"] "Bandwidth amount must be non-negative"]
    (bandwidth_amount (bandwidth (specs c))) ++
  enum ["specs"; "bandwidth"; "unit"] ["GB"; "TB"] None
    (bandwidth_unit (bandwidth (specs c))) ++
  array_min1 ["features"] "At least one feature is required" (features c) ++
  array_min1 ["locations"] "At least one location is required" (locations c) ++
  a_number ["uptime"; "percentage"]
    [min0 ["uptime"; "percentage"];
     max100 ["uptime"; "percentage"] "Uptime percentage must be between 0 and 100"]
    (percentage (uptime c)) ++
  string_min1 ["support"] "Support information is required" (support c) ++
  url ["website"] "Website must be a valid URL" (website c).

End vpsSchema.

(** ** DigitalOcean *)

Module DOSize.
Record t : Type := mk {
  slug : string;
  available : bool;
  memory : Q;
  vcpus : Q;
  disk : Q;
  transfer : Q;
  price_monthly : Q;
  regions : list string;
  description : option string
}.
End DOSize.

Module DORegion.
Record t : Type := mk {
  slug : string;
  name : string;
  available : bool
}.
End DORegion.

(** The loader reads [sizesData.sizes || []], so the array may be missing. *)
Module DOSizesResponse.
Record t : Type := mk { sizes : option (list DOSize.t) }.
End DOSizesResponse.

Module DORegionsResponse.
Record t : Type := mk { regions : option (list DORegion.t) }.
End DORegionsResponse.

(** What the two endpoints answer, and in which order: the positions of
    the two responses, and of the two bodies, in the order in which they
    arrive. *)
Module DOUpstream.
Record t : Type := mk {
  arrival : list nat;
  body_arrival : list nat;
  sizes : Promise (Response DOSizesResponse.t);
  regions : Promise (Response DORegionsResponse.t)
}.
End DOUpstream.

Module DigitalOcean.

(** [size.available && size.memory >= 512] *)
Definition keep (size : DOSize.t) : bool :=
  DOSize.available size && Num.ge (Fin (DOSize.memory size)) (Fin 512).

Definition availableRegions (regions : list DORegion.t) (size : DOSize.t)
  : list string :=
  map DORegion.name
    (List.filter (fun region =>
               DORegion.available region
               && includes (DOSize.regions size) (DORegion.slug region))
            regions).

Definition fallback_name (size : DOSize.t) : string :=
  Number_toString (DOSize.memory size) +:+ "MB / "
  +:+ Number_toString (DOSize.vcpus size) +:+ " vCPU".

Definition tags_of (size : DOSize.t) : list string :=
  let tags := ["cloud"; "scalable"; "developer-friendly"; "popular"] in
  let tags := push_if (Num.le (Fin (DOSize.price_monthly size)) (Fin 10)) ["budget"] tags in
  let tags := push_if (Num.ge (Fin (DOSize.vcpus size)) (Fin 4)) ["high-performance"] tags in
  let tags := push_if (Num.ge (Fin (DOSize.memory size)) (Fin 8192)) ["high-memory"] tags in
  tags.

Definition transform (regions : list DORegion.t) (size : DOSize.t) : Plan :=
  let memory := Fin (DOSize.memory size) in
  {| id := "digitalocean-" +:+ DOSize.slug size;
     provider := "DigitalOcean";
     name := match DOSize.description size with
             | Some d => if Str.truthy d then d else fallback_name size
             | None => fallback_name size
             end;
     description := None;
     price := {| monthly := Fin (DOSize.price_monthly size); currency := "USD" |};
     specs :=
       {| cpu := {| cores := Fin (DOSize.vcpus size); cpu_type := "vCPU" |};
          ram := {| ram_amount := if Num.ge memory (Fin 1024)
                                  then Num.div memory (Fin 1024) else memory;
                    ram_unit := if Num.ge memory (Fin 1024) then "GB" else "MB" |};
          storage := {| storage_amount := Fin (DOSize.disk size);
                        storage_unit := "GB";
                        storage_type := "SSD" |};
          bandwidth := {| bandwidth_amount := Fin (DOSize.transfer size);
                          bandwidth_unit := "TB";
                          unlimited := false |} |};
     features := ["SSD Storage"; "IPv6"; "Monitoring"; "Firewalls";
                  "Private Networking"; "Load Balancers"; "Snapshots"; "Backups"];
     locations := slice0 10 (availableRegions regions size);
     uptime := {| percentage := Fin (9999 # 100); sla := false |};
     support := "24/7 Community & Ticket Support";
     website := "https://digitalocean.com";
     featured := includes ["s-1vcpu-1gb"; "s-2vcpu-2gb"] (DOSize.slug size);
     tags := tags_of size |}.

(** The plans built from the two decoded bodies. *)
Definition plans_of (sizesData : DOSizesResponse.t) (regionsData : DORegionsResponse.t)
  : list Plan :=
  let sizes := default [] (DOSizesResponse.sizes sizesData) in
  let regions := default [] (DORegionsResponse.regions regionsData) in
  map (transform regions) (List.filter keep sizes).

(** The [try] block. *)
Definition body (up : DOUpstream.t) : M (list Plan) :=
  let* p1 := fetch "https://api.digitalocean.com/v2/sizes" (DOUpstream.sizes up) in
  let* p2 := fetch "https://api.digitalocean.com/v2/regions" (DOUpstream.regions up) in
  let* (sizesResponse, regionsResponse) :=
    await (Promise_all2 (DOUpstream.arrival up) p1 p2) in
  if negb (ok sizesResponse) || negb (ok regionsResponse)
  then throw (Error "Failed to fetch DigitalOcean data")
  else
    let* (sizesData, regionsData) :=
      await (Promise_all2 (DOUpstream.body_arrival up)
               (json sizesResponse) (json regionsResponse)) in
    ret (plans_of sizesData regionsData).

Definition warning : string :=
  "DIGITALOCEAN_API_KEY not set, skipping DigitalOcean plans".

End DigitalOcean.

Definition fetchDigitalOceanPlans (env : Env) (up : DOUpstream.t) : M (list Plan) :=
  if unset env "DIGITALOCEAN_API_KEY"
  then console_warn DigitalOcean.warning;; ret []
  else
    try_catch (DigitalOcean.body up)
      (fun error => console_error "Failed to fetch DigitalOcean plans:" error;; ret []).

(** ** Linode *)

Module LinodeType.
Record t : Type := mk {
  id : string;
  label : string;
  class : string;
  vcpus : Q;
  memory : Q;
  disk : Q;
  transfer : Q;
  price_monthly : Q      (* [price.monthly] *)
}.
End LinodeType.

Module LinodeRegion.
Record t : Type := mk {
  status : string;
  label : string
}.
End LinodeRegion.

(** The loader reads [typesData.data || []] and [regionsData.data || []]. *)
Module LinodeTypesResponse.
Record t : Type := mk { data : option (list LinodeType.t) }.
End LinodeTypesResponse.

Module LinodeRegionsResponse.
Record t : Type := mk { data : option (list LinodeRegion.t) }.
End LinodeRegionsResponse.

Module LinodeUpstream.
Record t : Type := mk {
  arrival : list nat;
  body_arrival : list nat;
  types : Promise (Response LinodeTypesResponse.t);
  regions : Promise (Response LinodeRegionsResponse.t)
}.
End LinodeUpstream.

Module Linode.

Section WithCaseMapping.
Context {cm : Str.CaseMapping}.

(** [type.class !== 'gpu' && type.class !== 'accelerated'] *)
Definition keep (type : LinodeType.t) : bool :=
  negb (String.eqb (LinodeType.class type) "gpu")
  && negb (String.eqb (LinodeType.class type) "accelerated").

Definition availableRegions (regions : list LinodeRegion.t) : list string :=
  slice0 10
    (map LinodeRegion.label
       (List.filter (fun region => String.eqb (LinodeRegion.status region) "ok") regions)).

Definition baseFeatures : list string :=
  ["SSD Storage"; "IPv6"; "Private Networking"; "DDoS Protection";
   "Monitoring"; "Backup Service"; "API Access"; "Cloud Firewall"].

Definition getClassFeatures (planClass : string) : list string :=
  if String.eqb planClass "nanode" then baseFeatures ++ ["Shared CPU"]
  else if String.eqb planClass "standard"
    then baseFeatures ++ ["Shared CPU"; "Burstable Performance"]
  else if String.eqb planClass "dedicated"
    then baseFeatures ++ ["Dedicated CPU"; "Sustained Performance"]
  else if String.eqb planClass "highmem"
    then baseFeatures ++ ["High Memory"; "Optimized for Memory-Intensive Applications"]
  else if String.eqb planClass "premium"
    then baseFeatures ++ ["Premium Hardware"; "Enhanced Performance"; "Advanced Networking"]
  else baseFeatures.

Definition getTypeName (planClass : string) : string :=
  if String.eqb planClass "nanode" then "Nanode"
  else if String.eqb planClass "standard" then "Standard"
  else if String.eqb planClass "dedicated" then "Dedicated CPU"
  else if String.eqb planClass "highmem" then "High Memory"
  else if String.eqb planClass "premium" then "Premium"
  else Str.capitalize planClass.

Definition tags_of (type : LinodeType.t) : list string :=
  let class := LinodeType.class type in
  let tags := ["reliable"; "developer-friendly"] in
  let tags := push_if (Num.le (Fin (LinodeType.price_monthly type)) (Fin 10)) ["budget"] tags in
  let tags := push_if (String.eqb class "dedicated") ["high-performance"; "dedicated"] tags in
  let tags := push_if (String.eqb class "highmem") ["high-memory"] tags in
  let tags := push_if (String.eqb class "premium") ["premium"; "enhanced"] tags in
  let tags := push_if (String.eqb class "nanode") ["entry-level"] tags in
  tags.

Definition transform (regions : list LinodeRegion.t) (type : LinodeType.t) : Plan :=
  let memory := Fin (LinodeType.memory type) in
  let disk := Fin (LinodeType.disk type) in
  let transfer := Fin (LinodeType.transfer type) in
  {| id := "linode-" +:+ LinodeType.id type;
     provider := "Linode";
     name := getTypeName (LinodeType.class type) +:+ " " +:+ LinodeType.label type;
     description := None;
     price := {| monthly := Fin (LinodeType.price_monthly type); currency := "USD" |};
     specs :=
       {| cpu := {| cores := Fin (LinodeType.vcpus type);
                    cpu_type := if String.eqb (LinodeType.class type) "dedicated"
                                then "CPU" else "vCPU" |};
          ram := {| ram_amount := if Num.ge memory (Fin 1024)
                                  then Num.div memory (Fin 1024) else memory;
                    ram_unit := if Num.ge memory (Fin 1024) then "GB" else "MB" |};
          storage := {| storage_amount := if Num.ge disk (Fin 1024)
                                          then Num.div disk (Fin 1024) else disk;
                        storage_unit := if Num.ge disk (Fin 1024) then "GB" else "MB";
                        storage_type := "SSD" |};
          bandwidth := {| bandwidth_amount := if Num.ge transfer (Fin 1024)
                                              then Num.div transfer (Fin 1024) else transfer;
                          bandwidth_unit := if Num.ge transfer (Fin 1024) then "TB" else "GB";
                          unlimited := false |} |};
     features := getClassFeatures (LinodeType.class type);
     locations := availableRegions regions;
     uptime := {| percentage := Fin (999 # 10); sla := true |};
     support := "24/7 Support";
     website := "https://linode.com";
     featured := includes ["g6-nanode-1"; "g6-standard-1"; "g6-standard-2"]
                   (LinodeType.id type);
     tags := tags_of type |}.

Definition plans_of (typesData : LinodeTypesResponse.t)
  (regionsData : LinodeRegionsResponse.t) : list Plan :=
  let types := default [] (LinodeTypesResponse.data typesData) in
  let regions := default [] (LinodeRegionsResponse.data regionsData) in
  map (transform regions) (List.filter keep types).

Definition body (up : LinodeUpstream.t) : M (list Plan) :=
  let* p1 := fetch "https://api.linode.com/v4/linode/types" (LinodeUpstream.types up) in
  let* p2 := fetch "https://api.linode.com/v4/regions" (LinodeUpstream.regions up) in
  let* (typesResponse, regionsResponse) :=
    await (Promise_all2 (LinodeUpstream.arrival up) p1 p2) in
  if negb (ok typesResponse) || negb (ok regionsResponse)
  then throw (Error "Failed to fetch Linode data")
  else
    let* (typesData, regionsData) :=
      await (Promise_all2 (LinodeUpstream.body_arrival up)
               (json typesResponse) (json regionsResponse)) in
    ret (plans_of typesData regionsData).

End WithCaseMapping.

End Linode.

(** Linode's endpoints need no key: there is no credential check. *)
Definition fetchLinodePlans {cm : Str.CaseMapping} (up : LinodeUpstream.t) : M (list Plan) :=
  try_catch (Linode.body up)
    (fun error => console_error "Failed to fetch Linode plans:" error;; ret []).

(** ** Synchronous completions inside a [try] block *)

(** A callback that may throw, and [arr.map] with such a callback: the
    first exception ends the loop. *)
Definition Result (A : Type) : Type := (exn + A)%type.

Fixpoint map_result {A B} (f : A -> Result B) (l : list A) : Result (list B) :=
  match l with
  | [] => inr []
  | x :: l' =>
      match f x with
      | inl e => inl e
      | inr y =>
          match map_result f l' with
          | inl e => inl e
          | inr ys => inr (y :: ys)
          end
      end
  end.

(** [arr.reduce(f)] without an initial value *)
Definition reduce {A} (f : A -> A -> A) (l : list A) : Result A :=
  match l with
  | [] => inl (TypeError "Reduce of empty array with no initial value")
  | x :: l' => inr (fold_left f l' x)
  end.

Definition settle {A} (r : Result A) : M A := await r.

(** ** Hetzner *)

Module HetznerPrice.
Record t : Type := mk {
  gross : string       (* [price_monthly.gross] *)
}.
End HetznerPrice.

Module HetznerServerType.
Record t : Type := mk {
  name : string;
  description : option string;
  cores : Q;
  memory : Q;
  disk : Q;
  deprecated : bool;
  architecture : string;
  cpu_type : string;
  storage_type : string;
  prices : list HetznerPrice.t
}.
End HetznerServerType.

Module HetznerLocation.
Record t : Type := mk {
  city : string;
  country : string
}.
End HetznerLocation.

Module HetznerServerTypesResponse.
Record t : Type := mk { server_types : option (list HetznerServerType.t) }.
End HetznerServerTypesResponse.

Module HetznerLocationsResponse.
Record t : Type := mk { locations : option (list HetznerLocation.t) }.
End HetznerLocationsResponse.

Module HetznerUpstream.
Record t : Type := mk {
  arrival : list nat;
  body_arrival : list nat;
  server_types : Promise (Response HetznerServerTypesResponse.t);
  locations : Promise (Response HetznerLocationsResponse.t)
}.
End HetznerUpstream.

Module Hetzner.

Section WithCaseMapping.
Context {cm : Str.CaseMapping}.

(** [!serverType.deprecated], then
    [architecture === 'x86' || process.env.HETZNER_INCLUDE_ARM === 'true'] *)
Definition not_deprecated (serverType : HetznerServerType.t) : bool :=
  negb (HetznerServerType.deprecated serverType).

Definition include_arm (env : Env) : bool :=
  match env !! "HETZNER_INCLUDE_ARM" with
  | Some v => String.eqb v "true"
  | None => false
  end.

Definition wanted_arch (env : Env) (serverType : HetznerServerType.t) : bool :=
  String.eqb (HetznerServerType.architecture serverType) "x86" || include_arm env.

Definition value (p : HetznerPrice.t) : number := parseFloat (HetznerPrice.gross p).

(** the callback of [prices.reduce] *)
Definition cheaper (min current : HetznerPrice.t) : HetznerPrice.t :=
  let currentPrice := value current in
  let minPrice := value min in
  if Num.lt currentPrice minPrice then current else min.

Definition cheapestPrice (prices : list HetznerPrice.t) : Result HetznerPrice.t :=
  reduce cheaper prices.

Definition tags_of (monthlyPrice : number) (serverType : HetznerServerType.t)
  : list string :=
  let tags := ["europe"; "budget"; "high-bandwidth"] in
  let tags := push_if (Num.le monthlyPrice (Fin 5)) ["ultra-budget"] tags in
  let tags := push_if (Num.ge (Fin (HetznerServerType.cores serverType)) (Fin 4))
                ["high-performance"] tags in
  let tags := push_if (Num.ge (Fin (HetznerServerType.memory serverType)) (Fin 16))
                ["high-memory"] tags in
  let tags := push_if (String.eqb (HetznerServerType.architecture serverType) "arm64")
                ["arm"; "energy-efficient"] tags in
  tags.

Definition format_location (loc : HetznerLocation.t) : string :=
  HetznerLocation.city loc +:+ ", " +:+ HetznerLocation.country loc.

Definition transform (locations : list HetznerLocation.t)
  (serverType : HetznerServerType.t) : Result Plan :=
  match cheapestPrice (HetznerServerType.prices serverType) with
  | inl e => inl e
  | inr cheapest =>
      let monthlyPrice := value cheapest in
      let lname := Str.toLowerCase (HetznerServerType.name serverType) in
      inr
        {| id := "hetzner-" +:+ lname;
           provider := "Hetzner";
           name := HetznerServerType.name serverType;
           description := HetznerServerType.description serverType;
           price := {| monthly := monthlyPrice; currency := "EUR" |};
           specs :=
             {| cpu := {| cores := Fin (HetznerServerType.cores serverType);
                          cpu_type :=
                            if String.eqb (HetznerServerType.cpu_type serverType) "shared"
                            then "vCPU" else "CPU" |};
                ram := {| ram_amount := Fin (HetznerServerType.memory serverType);
                          ram_unit := "GB" |};
                storage :=
                  {| storage_amount := Fin (HetznerServerType.disk serverType);
                     storage_unit := "GB";
                     storage_type :=
                       if String.eqb (HetznerServerType.storage_type serverType) "local"
                       then "SSD" else "NVMe" |};
                bandwidth := {| bandwidth_amount := Fin 20;
                                bandwidth_unit := "TB";
                                unlimited := false |} |};
           features := ["SSD Storage"; "IPv6"; "Private Networking"; "Snapshots";
                        "Backups"; "Load Balancers"; "Floating IPs"; "DDoS Protection"];
           locations := map format_location locations;
           uptime := {| percentage := Fin (999 # 10); sla := false |};
           support := "Business Hours Support";
           website := "https://hetzner.com";
           featured := includes ["cx11"; "cx21"; "cx31"] lname;
           tags := tags_of monthlyPrice serverType |}
  end.

Definition selected (env : Env) (serverTypes : list HetznerServerType.t)
  : list HetznerServerType.t :=
  List.filter (wanted_arch env) (List.filter not_deprecated serverTypes).

Definition plans_of (env : Env) (serverTypesData : HetznerServerTypesResponse.t)
  (locationsData : HetznerLocationsResponse.t) : Result (list Plan) :=
  let serverTypes :=
    default [] (HetznerServerTypesResponse.server_types serverTypesData) in
  let locations := default [] (HetznerLocationsResponse.locations locationsData) in
  map_result (transform locations) (selected env serverTypes).

Definition body (env : Env) (up : HetznerUpstream.t) : M (list Plan) :=
  let* p1 := fetch "https://api.hetzner.cloud/v1/server_types"
               (HetznerUpstream.server_types up) in
  let* p2 := fetch "https://api.hetzner.cloud/v1/locations"
               (HetznerUpstream.locations up) in
  let* (serverTypesResponse, locationsResponse) :=
    await (Promise_all2 (HetznerUpstream.arrival up) p1 p2) in
  if negb (ok serverTypesResponse) || negb (ok locationsResponse)
  then throw (Error "Failed to fetch Hetzner data")
  else
    let* (serverTypesData, locationsData) :=
      await (Promise_all2 (HetznerUpstream.body_arrival up)
               (json serverTypesResponse) (json locationsResponse)) in
    settle (plans_of env serverTypesData locationsData).

Definition warning : string := "HETZNER_API_KEY not set, skipping Hetzner plans".

End WithCaseMapping.

End Hetzner.

Definition fetchHetznerPlans {cm : Str.CaseMapping} (env : Env) (up : HetznerUpstream.t) : M (list Plan) :=
  if unset env "HETZNER_API_KEY"
  then console_warn Hetzner.warning;; ret []
  else
    try_catch (Hetzner.body env up)
      (fun error => console_error "Failed to fetch Hetzner plans:" error;; ret []).

(** ** Vultr *)

Module VultrPlan.
Record t : Type := mk {
  id : string;
  vcpu_count : Q;
  ram : Q;               (* in MB *)
  disk : Q;              (* in GB *)
  bandwidth : Q;         (* in GB *)
  monthly_cost : Q;      (* in USD *)
  type : string;
  locations : list string
}.
End VultrPlan.

Module VultrRegion.
Record t : Type := mk {
  id : string;
  city : string;
  country : string;
  continent : string;
  options : list string
}.
End VultrRegion.

Module VultrPlansResponse.
Record t : Type := mk {
  plans : list VultrPlan.t;
  meta_total : option Q   (* [meta?.total] *)
}.
End VultrPlansResponse.

Module VultrRegionsResponse.
Record t : Type := mk { regions : list VultrRegion.t }.
End VultrRegionsResponse.

(** The bodies are awaited one after the other: only the order of the
    responses matters. *)
Module VultrUpstream.
Record t : Type := mk {
  arrival : list nat;
  plans : Promise (Response VultrPlansResponse.t);
  regions : Promise (Response VultrRegionsResponse.t)
}.
End VultrUpstream.

(** The text of [`${response.status} ${response.statusText}`]. *)
Definition status_line {A} (r : Response A) : string :=
  pretty (status r) +:+ " " +:+ statusText r.

Module Vultr.

Section WithCaseMapping.
Context {cm : Str.CaseMapping}.

(** [regionsData.regions.forEach(region => regionMap.set(...))] *)
Definition regionMap (regions : list VultrRegion.t) : gmap string string :=
  fold_left
    (fun m region =>
       <[ VultrRegion.id region :=
            VultrRegion.city region +:+ ", " +:+ VultrRegion.country region ]> m)
    regions ∅.

(** [regionMap.get(locId) || locId] *)
Definition location_name (m : gmap string string) (locId : string) : string :=
  match m !! locId with
  | Some n => if Str.truthy n then n else locId
  | None => locId
  end.

Definition keep (plan : VultrPlan.t) : bool :=
  includes ["vc2"; "vhf"; "vhp"; "vdc"] (VultrPlan.type plan).

Definition features_of (type : string) : list string :=
  let features :=
    if String.eqb type "vc2"
    then ["Cloud Compute"; "DDoS Protection"; "100% SSD Storage"]
    else if String.eqb type "vhf"
    then ["High Frequency"; "3 GHz+ CPU"; "NVMe Storage"; "DDoS Protection"]
    else if String.eqb type "vhp"
    then ["High Performance"; "Latest CPU"; "NVMe Storage"; "DDoS Protection"]
    else if String.eqb type "vdc"
    then ["Dedicated CPU"; "100% Dedicated Resources"; "NVMe Storage"]
    else [] in
  features ++ ["Full Root Access"; "IPv6 Support"].

Definition tags_of (ramInGB : number) (plan : VultrPlan.t) : list string :=
  let type := VultrPlan.type plan in
  let cost := Fin (VultrPlan.monthly_cost plan) in
  let tags := ["global"] in
  let tags :=
    if Num.le cost (Fin 6) then tags ++ ["budget"; "ultra-budget"]
    else if Num.le cost (Fin 12) then tags ++ ["budget"]
    else tags in
  let tags := push_if (String.eqb type "vhf" || String.eqb type "vhp")
                ["high-performance"] tags in
  let tags := push_if (String.eqb type "vdc") ["dedicated"; "high-performance"] tags in
  let tags := push_if (Num.ge ramInGB (Fin 8)) ["high-memory"] tags in
  let tags := push_if (Num.ge (Fin (VultrPlan.bandwidth plan)) (Fin 2048))
                ["high-bandwidth"] tags in
  tags.

Definition transform (m : gmap string string) (plan : VultrPlan.t) : Plan :=
  let type := VultrPlan.type plan in
  let ramInGB := Num.div (Fin (VultrPlan.ram plan)) (Fin 1024) in
  let locations := map (location_name m) (slice0 10 (VultrPlan.locations plan)) in
  let storageType :=
    if String.eqb type "vhf" || String.eqb type "vhp" || String.eqb type "vdc"
    then "NVMe" else "SSD" in
  let cpuType := if String.eqb type "vdc" then "CPU" else "vCPU" in
  {| id := "vultr-" +:+ VultrPlan.id plan;
     provider := "Vultr";
     name := Str.toUpperCase (VultrPlan.id plan);
     description := None;
     price := {| monthly := Fin (VultrPlan.monthly_cost plan); currency := "USD" |};
     specs :=
       {| cpu := {| cores := Fin (VultrPlan.vcpu_count plan); cpu_type := cpuType |};
          ram := {| ram_amount := ramInGB; ram_unit := "GB" |};
          storage := {| storage_amount := Fin (VultrPlan.disk plan);
                        storage_unit := "GB";
                        storage_type := storageType |};
          bandwidth :=
            {| bandwidth_amount := Num.div (Fin (VultrPlan.bandwidth plan)) (Fin 1024);
               bandwidth_unit := "TB";
               unlimited := false |} |};
     features := features_of type;
     locations := locations;
     uptime := {| percentage := Fin (9999 # 100); sla := true |};
     support := "24/7 Support";
     website := "https://www.vultr.com";
     featured := includes ["vc2-1c-1gb"; "vc2-1c-2gb"; "vc2-2c-4gb"] (VultrPlan.id plan);
     tags := tags_of ramInGB plan |}.

Definition plans_of (plansData : VultrPlansResponse.t)
  (regionsData : VultrRegionsResponse.t) : list Plan :=
  let m := regionMap (VultrRegionsResponse.regions regionsData) in
  map (transform m) (List.filter keep (VultrPlansResponse.plans plansData)).

Definition body (up : VultrUpstream.t) : M (list Plan) :=
  let* p1 := fetch "https://api.vultr.com/v2/plans" (VultrUpstream.plans up) in
  let* p2 := fetch "https://api.vultr.com/v2/regions" (VultrUpstream.regions up) in
  let* (plansResponse, regionsResponse) :=
    await (Promise_all2 (VultrUpstream.arrival up) p1 p2) in
  if negb (ok plansResponse)
  then throw (Error ("Failed to fetch Vultr plans: " +:+ status_line plansResponse))
  else if negb (ok regionsResponse)
  then throw (Error ("Failed to fetch Vultr regions: " +:+ status_line regionsResponse))
  else
    let* plansData := await (json plansResponse) in
    let* regionsData := await (json regionsResponse) in
    let transformedPlans := plans_of plansData regionsData in
    console_log ("✅ Fetched " +:+ pretty (length transformedPlans)
                 +:+ " plans from Vultr");;
    ret transformedPlans.

Definition warning : string := "⚠️  VULTR_API_KEY not set, skipping Vultr plans".

End WithCaseMapping.

End Vultr.

Definition fetchVultrPlans {cm : Str.CaseMapping} (env : Env) (up : VultrUpstream.t) : M (list Plan) :=
  if unset env "VULTR_API_KEY"
  then console_warn Vultr.warning;; ret []
  else
    try_catch (Vultr.body up)
      (fun error => console_error "❌ Failed to fetch Vultr plans:" error;; ret []).

(** ** UpCloud *)

Module UpCloudPlan.
Record t : Type := mk {
  core_number : Q;
  memory_amount : Q;        (* in MB *)
  name : string;
  public_traffic_out : Q;   (* in GB *)
  storage_size : Q;         (* in GB *)
  storage_tier : string
}.
End UpCloudPlan.

Module UpCloudPlansResponse.
Record t : Type := mk { plan : list UpCloudPlan.t }.   (* [plans.plan] *)
End UpCloudPlansResponse.

(** [prices.zone]: an object from zone names to objects from item names
    to hourly prices; the entries are kept in key order. *)
Module UpCloudPricing.
Record t : Type := mk { zone : list (string * list (string * string)) }.
End UpCloudPricing.

Module UpCloudZone.
Record t : Type := mk {
  id : string;
  description : string
}.
End UpCloudZone.

Module UpCloudZonesResponse.
Record t : Type := mk { zone : list UpCloudZone.t }.   (* [zones.zone] *)
End UpCloudZonesResponse.

Module UpCloudUpstream.
Record t : Type := mk {
  arrival : list nat;
  plan : Promise (Response UpCloudPlansResponse.t);
  price : Promise (Response UpCloudPricing.t);
  zone : Promise (Response UpCloudZonesResponse.t)
}.
End UpCloudUpstream.

(** [obj[key]] on an object kept as its entries *)
Fixpoint property {A} (obj : list (string * A)) (key : string) : option A :=
  match obj with
  | [] => None
  | (k, v) :: obj' => if String.eqb k key then Some v else property obj' key
  end.

Module UpCloud.

Section WithCaseMapping.
Context {cm : Str.CaseMapping}.

(** [pricingData.prices.zone[firstZone]?.[`server_plan_${plan.name}`]]
    with [firstZone = Object.keys(pricingData.prices.zone)[0]] *)
Definition planPricing (pricingData : UpCloudPricing.t) (plan : UpCloudPlan.t)
  : option string :=
  match head (map fst (UpCloudPricing.zone pricingData)) with
  | None => None
  | Some firstZone =>
      match property (UpCloudPricing.zone pricingData) firstZone with
      | None => None
      | Some items => property items ("server_plan_" +:+ UpCloudPlan.name plan)
      end
  end.

Definition hourlyPrice (pricingData : UpCloudPricing.t) (plan : UpCloudPlan.t) : number :=
  match planPricing pricingData plan with
  | Some price => parseFloat price
  | None => Fin 0
  end.

(** [Math.round(hourlyPrice * 730 * 100) / 100].  The products are
    exact here.  In binary floating point they carry a rounding error,
    so that a product that falls on half a cent can be rounded the
    other way by the code: for the hourly price 0.0045 the product is
    328.5 here and 328.49999999999994 there, 3.29 against 3.28.  What
    is proved of this price does not rest on its last cent. *)
Definition monthlyPrice (hourly : number) : number :=
  Num.div (Num.round (Num.mul (Num.mul hourly (Fin 730)) (Fin 100))) (Fin 100).

Definition features_of (plan : UpCloudPlan.t) : list string :=
  let features :=
    ["MaxIOPS Storage"; "Full Root Access"; "DDoS Protection"; "100% Uptime SLA";
     "Private Networking"; "Firewall"; "IPv6 Support"] in
  push_if (String.eqb (UpCloudPlan.storage_tier plan) "maxiops") ["NVMe Storage"] features.

Definition tags_of (monthly ramInGB : number) (plan : UpCloudPlan.t) : list string :=
  let tags := ["europe"; "high-performance"] in
  let tags :=
    if Num.le monthly (Fin 6) then tags ++ ["budget"; "ultra-budget"]
    else if Num.le monthly (Fin 12) then tags ++ ["budget"]
    else tags in
  let tags := push_if (Num.ge ramInGB (Fin 8)) ["high-memory"] tags in
  let tags := push_if (Num.ge (Fin (UpCloudPlan.public_traffic_out plan)) (Fin 2048))
                ["high-bandwidth"] tags in
  let tags := push_if (String.eqb (UpCloudPlan.storage_tier plan) "maxiops")
                ["nvme-storage"] tags in
  tags.

(** The record built for [plan] once its monthly price is known. *)
Definition record (zones : list string) (monthly : number) (plan : UpCloudPlan.t) : Plan :=
  let ramInGB := Num.div (Fin (UpCloudPlan.memory_amount plan)) (Fin 1024) in
  {| id := "upcloud-" +:+ Str.toLowerCase (UpCloudPlan.name plan);
     provider := "UpCloud";
     name := UpCloudPlan.name plan;
     description := None;
     price := {| monthly := monthly; currency := "USD" |};
     specs :=
       {| cpu := {| cores := Fin (UpCloudPlan.core_number plan); cpu_type := "vCPU" |};
          ram := {| ram_amount := ramInGB; ram_unit := "GB" |};
          storage :=
            {| storage_amount := Fin (UpCloudPlan.storage_size plan);
               storage_unit := "GB";
               storage_type :=
                 if String.eqb (UpCloudPlan.storage_tier plan) "maxiops"
                 then "NVMe" else "SSD" |};
          bandwidth :=
            {| bandwidth_amount :=
                 Num.div (Fin (UpCloudPlan.public_traffic_out plan)) (Fin 1024);
               bandwidth_unit := "TB";
               unlimited := false |} |};
     features := features_of plan;
     locations := slice0 10 zones;
     uptime := {| percentage := Fin 100; sla := true |};
     support := "24/7 Support";
     website := "https://upcloud.com";
     featured := includes ["1xCPU-2GB"; "2xCPU-4GB"; "4xCPU-8GB"] (UpCloudPlan.name plan);
     tags := tags_of monthly ramInGB plan |}.

Definition transform (pricingData : UpCloudPricing.t) (zones : list string)
  (plan : UpCloudPlan.t) : Plan :=
  record zones (monthlyPrice (hourlyPrice pricingData plan)) plan.

Definition plans_of (plansData : UpCloudPlansResponse.t) (pricingData : UpCloudPricing.t)
  (zonesData : UpCloudZonesResponse.t) : list Plan :=
  let zones := map UpCloudZone.description (UpCloudZonesResponse.zone zonesData) in
  map (transform pricingData zones) (UpCloudPlansResponse.plan plansData).

Definition body (up : UpCloudUpstream.t) : M (list Plan) :=
  let* p1 := fetch "https://api.upcloud.com/1.3/plan" (UpCloudUpstream.plan up) in
  let* p2 := fetch "https://api.upcloud.com/1.3/price" (UpCloudUpstream.price up) in
  let* p3 := fetch "https://api.upcloud.com/1.3/zone" (UpCloudUpstream.zone up) in
  let* (plansResponse, pricingResponse, zonesResponse) :=
    await (Promise_all3 (UpCloudUpstream.arrival up) p1 p2 p3) in
  if negb (ok plansResponse)
  then throw (Error ("Failed to fetch UpCloud plans: " +:+ status_line plansResponse))
  else if negb (ok pricingResponse)
  then throw (Error ("Failed to fetch UpCloud pricing: " +:+ status_line pricingResponse))
  else if negb (ok zonesResponse)
  then throw (Error ("Failed to fetch UpCloud zones: " +:+ status_line zonesResponse))
  else
    let* plansData := await (json plansResponse) in
    let* pricingData := await (json pricingResponse) in
    let* zonesData := await (json zonesResponse) in
    let transformedPlans := plans_of plansData pricingData zonesData in
    console_log ("✅ Fetched " +:+ pretty (length transformedPlans)
                 +:+ " plans from UpCloud");;
    ret transformedPlans.

Definition warning : string :=
  "⚠️  UPCLOUD_USERNAME or UPCLOUD_PASSWORD not set, skipping UpCloud plans".

End WithCaseMapping.

End UpCloud.

Definition fetchUpCloudPlans {cm : Str.CaseMapping} (env : Env) (up : UpCloudUpstream.t) : M (list Plan) :=
  if unset env "UPCLOUD_USERNAME" || unset env "UPCLOUD_PASSWORD"
  then console_warn UpCloud.warning;; ret []
  else
    try_catch (UpCloud.body up)
      (fun error => console_error "❌ Failed to fetch UpCloud plans:" error;; ret []).

(** ** Scaleway *)

Module VolumesConstraint.
Record t : Type := mk {
  min_size : Q;
  max_size : Q
}.
End VolumesConstraint.

(** The optional fields the loader never reads ([per_volume_constraint],
    [scratch_storage_max_size]) are left out. *)
Module ScalewayServerType.
Record t : Type := mk {
  name : string;
  arch : string;
  ncpus : Q;
  ram : Q;                               (* in bytes *)
  volumes_constraint : VolumesConstraint.t;
  monthly_price : option Q;
  hourly_price : option Q;
  baremetal : option bool;
  gpu : option Q
}.
End ScalewayServerType.

(** [servers]: an object from names to server types, as its entries. *)
Module ScalewayServersResponse.
Record t : Type := mk { servers : list (string * ScalewayServerType.t) }.
End ScalewayServersResponse.

Module ScalewayUpstream.
Record t : Type := mk {
  servers : Promise (Response ScalewayServersResponse.t)
}.
End ScalewayUpstream.

Module Scaleway.

Section WithCaseMapping.
Context {cm : Str.CaseMapping}.

Definition zone : string := "fr-par-1".

Definition zones : list string :=
  ["Paris, France"; "Amsterdam, Netherlands"; "Warsaw, Poland"].

Definition GiB : Q := 1024 * 1024 * 1024.

(** [!server.baremetal && (!server.gpu || server.gpu === 0)] *)
Definition keep (entry : string * ScalewayServerType.t) : bool :=
  let server := entry.2 in
  negb (default false (ScalewayServerType.baremetal server))
  && match ScalewayServerType.gpu server with
     | None => true
     | Some g => Qeq_bool g 0 || Num.eqb (Fin g) (Fin 0)
     end.

Definition tags_of (name : string) (monthlyPrice ramInGB : number) : list string :=
  let tags := ["europe"] in
  let tags :=
    if Num.le monthlyPrice (Fin 6) then tags ++ ["budget"; "ultra-budget"]
    else if Num.le monthlyPrice (Fin 12) then tags ++ ["budget"]
    else tags in
  let tags := push_if (Str.includes name "DEV1" || Str.includes name "PLAY2")
                ["development"] tags in
  let tags := push_if (Str.includes name "GP1" || Str.includes name "PRO")
                ["high-performance"] tags in
  let tags := push_if (Num.ge ramInGB (Fin 8)) ["high-memory"] tags in
  tags.

Definition transform (entry : string * ScalewayServerType.t) : Plan :=
  let '(name, server) := entry in
  let ramInGB := Num.div (Fin (ScalewayServerType.ram server)) (Fin GiB) in
  let storageGB :=
    Num.div (Fin (VolumesConstraint.max_size (ScalewayServerType.volumes_constraint server)))
            (Fin GiB) in
  let basePrice :=
    Num.add (Num.mul (Fin (ScalewayServerType.ncpus server)) (Fin (35 # 10)))
            (Num.mul ramInGB (Fin (25 # 10))) in
  let monthlyPrice := Num.div (Num.round (Num.mul basePrice (Fin 100))) (Fin 100) in
  let nvme := Str.includes name "GP1" || Str.includes name "PRO" in
  let storageType := if nvme then "NVMe" else "SSD" in
  let features :=
    ["Full Root Access"; "Fast Local Storage"; "Private Networks";
     "Security Groups"; "IPv6 Support"; "Block Storage Compatible"] in
  let features := push_if (String.eqb storageType "NVMe") ["NVMe Storage"] features in
  {| id := "scaleway-" +:+ Str.toLowerCase name;
     provider := "Scaleway";
     name := name;
     description := None;
     price := {| monthly := monthlyPrice; currency := "EUR" |};
     specs :=
       {| cpu := {| cores := Fin (ScalewayServerType.ncpus server); cpu_type := "vCPU" |};
          ram := {| ram_amount := ramInGB; ram_unit := "GB" |};
          storage := {| storage_amount := Num.round storageGB;
                        storage_unit := "GB";
                        storage_type := storageType |};
          bandwidth := {| bandwidth_amount := Fin 100;
                          bandwidth_unit := "TB";
                          unlimited := true |} |};
     features := features;
     locations := slice0 10 zones;
     uptime := {| percentage := Fin (999 # 10); sla := true |};
     support := "24/7 Support";
     website := "https://www.scaleway.com";
     featured := includes ["DEV1-S"; "DEV1-M"; "GP1-S"] name;
     tags := tags_of name monthlyPrice ramInGB |}.

Definition plans_of (serversData : ScalewayServersResponse.t) : list Plan :=
  map transform (List.filter keep (ScalewayServersResponse.servers serversData)).

Definition body (up : ScalewayUpstream.t) : M (list Plan) :=
  let* p1 := fetch ("https://api.scaleway.com/instance/v1/zones/" +:+ zone
                    +:+ "/products/servers") (ScalewayUpstream.servers up) in
  let* responses := await (Promise_all [0%nat] [p1]) in
  match responses with
  | serversResponse :: _ =>
      if negb (ok serversResponse)
      then throw (Error ("Failed to fetch Scaleway servers: "
                         +:+ status_line serversResponse))
      else
        let* serversData := await (json serversResponse) in
        let transformedPlans := plans_of serversData in
        console_log ("✅ Fetched " +:+ pretty (length transformedPlans)
                     +:+ " plans from Scaleway");;
        ret transformedPlans
  | [] => throw (TypeError "Cannot read properties of undefined (reading 'ok')")
  end.

Definition warning : string := "⚠️  SCALEWAY_API_KEY not set, skipping Scaleway plans".

End WithCaseMapping.

End Scaleway.

Definition fetchScalewayPlans {cm : Str.CaseMapping} (env : Env) (up : ScalewayUpstream.t) : M (list Plan) :=
  if unset env "SCALEWAY_API_KEY"
  then console_warn Scaleway.warning;; ret []
  else
    try_catch (Scaleway.body up)
      (fun error => console_error "❌ Failed to fetch Scaleway plans:" error;; ret []).

(** ** The collection loader *)

(** What every endpoint of every provider answers, and the positions of
    the six adapters in the order in which their promises settle. *)
Record Network : Type := mkNetwork {
  arrival : list nat;
  digitalocean : DOUpstream.t;
  hetzner : HetznerUpstream.t;
  linode : LinodeUpstream.t;
  vultr : VultrUpstream.t;
  upcloud : UpCloudUpstream.t;
  scaleway : ScalewayUpstream.t
}.

Definition count_line (provider : string) (plans : list Plan) : string :=
  "   - " +:+ provider +:+ ": " +:+ pretty (length plans) +:+ " plans".

(** What the [loader] of the [vpsPlans] collection does once the six
    adapters have been called: [await Promise.all([...])], the
    concatenation in registration order and the summary. *)
Definition aggregate (arrival : list nat) (promises : list (Promise (list Plan)))
  : M (list Plan) :=
  let* results := await (Promise_all arrival promises) in
  match results with
  | [digitalOceanPlans; hetznerPlans; linodePlans; vultrPlans; upCloudPlans; scalewayPlans] =>
      let allPlans :=
        digitalOceanPlans ++ hetznerPlans ++ linodePlans ++ vultrPlans
        ++ upCloudPlans ++ scalewayPlans in
      console_log ("✅ Fetched " +:+ pretty (length allPlans) +:+ " VPS plans total");;
      console_log (count_line "DigitalOcean" digitalOceanPlans);;
      console_log (count_line "Hetzner" hetznerPlans);;
      console_log (count_line "Linode" linodePlans);;
      console_log (count_line "Vultr" vultrPlans);;
      console_log (count_line "UpCloud" upCloudPlans);;
      console_log (count_line "Scaleway" scalewayPlans);;
      ret allPlans
  | _ => throw (TypeError "undefined is not iterable")
  end.

(** The [loader] itself.  The adapters are called one after the other;
    in the source their requests interleave, which changes the order of
    the events of different adapters in the trace but not how their
    promises settle. *)
Definition vpsPlans_loader {cm : Str.CaseMapping} (env : Env) (net : Network) : M (list Plan) :=
  console_log "🚀 Fetching VPS plans from providers...";;
  let* p1 := spawn (fetchDigitalOceanPlans env (digitalocean net)) in
  let* p2 := spawn (fetchHetznerPlans env (hetzner net)) in
  let* p3 := spawn (fetchLinodePlans (linode net)) in
  let* p4 := spawn (fetchVultrPlans env (vultr net)) in
  let* p5 := spawn (fetchUpCloudPlans env (upcloud net)) in
  let* p6 := spawn (fetchScalewayPlans env (scaleway net)) in
  aggregate (arrival net) [p1; p2; p3; p4; p5; p6].

(** Running a computation from the empty trace. *)
Definition run {A} (c : M A) : list event * Promise A := c [].
Definition outcome {A} (c : M A) : Promise A := (run c).2.
Definition trace {A} (c : M A) : list event := (run c).1.

(** ** Notions used to state the properties *)

Section Notions.
Context {cm : Str.CaseMapping}.

(** An [async] call rejects. *)
Definition rejects {A} (c : M A) : Prop := exists e, outcome c = inl e.

(** The request was answered, with a status outside 2xx. *)
Definition unsuccessful {A} (p : Promise (Response A)) : bool :=
  match p with
  | inr r => negb (ok r)
  | inl _ => false
  end.

(** The body of a response that arrived, was successful and decoded. *)
Definition decoded {A} (p : Promise (Response A)) : option A :=
  match p with
  | inr r => if ok r then match json r with inr d => Some d | inl _ => None end else None
  | inl _ => None
  end.

(** A failure is contained: the call resolves to the empty sequence and
    [console.error] was called exactly once. *)
Definition contained (c : M (list Plan)) : Prop :=
  outcome c = inr [] /\ errors (trace c) = 1%nat.

(** One adapter call of an aggregation run: the environment variables it
    requires, whether one of its responses is unsuccessful, its [try]
    block and the call itself. *)
Record Run : Type := mkRun {
  required : list string;
  response_unsuccessful : bool;
  try_block : M (list Plan);
  call : M (list Plan)
}.

Definition configured (env : Env) (r : Run) : bool :=
  forallb (fun v => negb (unset env v)) (required r).

Definition failing (r : Run) : Prop :=
  response_unsuccessful r = true \/ rejects (try_block r).

Definition adapter_runs (env : Env) (net : Network) : list Run :=
  [ mkRun ["DIGITALOCEAN_API_KEY"]
      (unsuccessful (DOUpstream.sizes (digitalocean net))
       || unsuccessful (DOUpstream.regions (digitalocean net)))
      (DigitalOcean.body (digitalocean net))
      (fetchDigitalOceanPlans env (digitalocean net));
    mkRun ["HETZNER_API_KEY"]
      (unsuccessful (HetznerUpstream.server_types (hetzner net))
       || unsuccessful (HetznerUpstream.locations (hetzner net)))
      (Hetzner.body env (hetzner net))
      (fetchHetznerPlans env (hetzner net));
    mkRun []
      (unsuccessful (LinodeUpstream.types (linode net))
       || unsuccessful (LinodeUpstream.regions (linode net)))
      (Linode.body (linode net))
      (fetchLinodePlans (linode net));
    mkRun ["VULTR_API_KEY"]
      (unsuccessful (VultrUpstream.plans (vultr net))
       || unsuccessful (VultrUpstream.regions (vultr net)))
      (Vultr.body (vultr net))
      (fetchVultrPlans env (vultr net));
    mkRun ["UPCLOUD_USERNAME"; "UPCLOUD_PASSWORD"]
      (unsuccessful (UpCloudUpstream.plan (upcloud net))
       || unsuccessful (UpCloudUpstream.price (upcloud net))
       || unsuccessful (UpCloudUpstream.zone (upcloud net)))
      (UpCloud.body (upcloud net))
      (fetchUpCloudPlans env (upcloud net));
    mkRun ["SCALEWAY_API_KEY"]
      (unsuccessful (ScalewayUpstream.servers (scaleway net)))
      (Scaleway.body (scaleway net))
      (fetchScalewayPlans env (scaleway net)) ].

(** A response with status 200 and the given body, and one with another
    status. *)
Definition ok_response {A} (body : A) : Promise (Response A) :=
  inr (mkResponse true 200 "OK" (inr body)).

Definition failed_response {A} (code : N) (text : string) : Promise (Response A) :=
  inr (mkResponse false code text (inl (SyntaxError "Unexpected end of JSON input"))).

(** A network on which every provider answers with an empty listing. *)
Definition quiet_network : Network :=
  {| arrival := [0; 1; 2; 3; 4; 5]%nat;
     digitalocean :=
       DOUpstream.mk [0; 1]%nat [0; 1]%nat (ok_response (DOSizesResponse.mk (Some [])))
                     (ok_response (DORegionsResponse.mk (Some [])));
     hetzner :=
       HetznerUpstream.mk [0; 1]%nat [0; 1]%nat (ok_response (HetznerServerTypesResponse.mk (Some [])))
                          (ok_response (HetznerLocationsResponse.mk (Some [])));
     linode :=
       LinodeUpstream.mk [0; 1]%nat [0; 1]%nat (ok_response (LinodeTypesResponse.mk (Some [])))
                         (ok_response (LinodeRegionsResponse.mk (Some [])));
     vultr :=
       VultrUpstream.mk [0; 1]%nat (ok_response (VultrPlansResponse.mk [] None))
                        (ok_response (VultrRegionsResponse.mk []));
     upcloud :=
       UpCloudUpstream.mk [0; 1; 2]%nat (ok_response (UpCloudPlansResponse.mk []))
                          (ok_response (UpCloudPricing.mk []))
                          (ok_response (UpCloudZonesResponse.mk []));
     scaleway := ScalewayUpstream.mk (ok_response (ScalewayServersResponse.mk [])) |}.

(** An environment with every credential set. *)
Definition full_env : Env :=
  <[ "DIGITALOCEAN_API_KEY" := "do-key" ]>
  (<[ "HETZNER_API_KEY" := "hetzner-key" ]>
  (<[ "VULTR_API_KEY" := "vultr-key" ]>
  (<[ "UPCLOUD_USERNAME" := "user" ]>
  (<[ "UPCLOUD_PASSWORD" := "secret" ]>
  (<[ "SCALEWAY_API_KEY" := "scw-key" ]> ∅))))).

(** Inputs of the worked examples. *)

Definition vultr_unauthorized : Network :=
  {| arrival := [0; 1; 2; 3; 4; 5]%nat;
     digitalocean := digitalocean quiet_network;
     hetzner := hetzner quiet_network;
     linode := linode quiet_network;
     vultr := VultrUpstream.mk [0; 1]%nat (failed_response 401 "Unauthorized")
                               (ok_response (VultrRegionsResponse.mk []));
     upcloud := upcloud quiet_network;
     scaleway := scaleway quiet_network |}.

(** The server types a Hetzner response lists. *)
Definition hetzner_listed (up : HetznerUpstream.t) : list HetznerServerType.t :=
  match decoded (HetznerUpstream.server_types up) with
  | Some d => default [] (HetznerServerTypesResponse.server_types d)
  | None => []
  end.

(** The text of a tier's price reads as a number. *)
Definition numeric (t : HetznerPrice.t) : Prop := Num.isNaN (Hetzner.value t) = false.

(** The text of a tier's price reads as a number. *)
Definition readable (t : HetznerPrice.t) : Prop :=
  Num.isNaN (parseFloat (HetznerPrice.gross t)) = false.

(** Among the tiers of [prices] whose text reads as a number, [m] is
    the cheapest, and the earliest of the cheapest ones: every readable
    tier before it is strictly dearer, no readable tier after it is
    cheaper. *)
Definition first_cheapest (m : HetznerPrice.t) (prices : list HetznerPrice.t) : Prop :=
  exists before after,
    prices = before ++ m :: after
    /\ readable m
    /\ (forall t, In t before -> readable t ->
          Num.lt (parseFloat (HetznerPrice.gross m)) (parseFloat (HetznerPrice.gross t)) = true)
    /\ (forall t, In t after -> readable t ->
          Num.le (parseFloat (HetznerPrice.gross m)) (parseFloat (HetznerPrice.gross t)) = true).

(** A server type whose first tier is not priced yet. *)
Definition unreadable_first : HetznerServerType.t :=
  HetznerServerType.mk "cx21" None 2 4 40 false "x86" "shared" "local"
    [HetznerPrice.mk "n/a"; HetznerPrice.mk "4.15"].

Definition unreadable_first_upstream : HetznerUpstream.t :=
  HetznerUpstream.mk [0; 1]%nat [0; 1]%nat
    (ok_response (HetznerServerTypesResponse.mk (Some [unreadable_first])))
    (ok_response (HetznerLocationsResponse.mk
                    (Some [HetznerLocation.mk "Falkenstein" "Germany"]))).

(** The scenario of three tiers. *)
Definition three_tiers : HetznerServerType.t :=
  HetznerServerType.mk "cx11" None 1 2 20 false "x86" "shared" "local"
    [HetznerPrice.mk "5.00"; HetznerPrice.mk "4.15"; HetznerPrice.mk "4.50"].

Definition three_tiers_upstream : HetznerUpstream.t :=
  HetznerUpstream.mk [0; 1]%nat [0; 1]%nat
    (ok_response (HetznerServerTypesResponse.mk (Some [three_tiers])))
    (ok_response (HetznerLocationsResponse.mk
                    (Some [HetznerLocation.mk "Falkenstein" "Germany"]))).

(** The record the adapter builds for it. *)
Definition three_tiers_plan : Plan :=
  {| id := "hetzner-cx11";
     provider := "Hetzner";
     name := "cx11";
     description := None;
     price := {| monthly := Fin (83 # 20); currency := "EUR" |};
     specs :=
       {| cpu := {| cores := Fin 1; cpu_type := "vCPU" |};
          ram := {| ram_amount := Fin 2; ram_unit := "GB" |};
          storage := {| storage_amount := Fin 20; storage_unit := "GB";
                        storage_type := "SSD" |};
          bandwidth := {| bandwidth_amount := Fin 20; bandwidth_unit := "TB";
                          unlimited := false |} |};
     features := ["SSD Storage"; "IPv6"; "Private Networking"; "Snapshots";
                  "Backups"; "Load Balancers"; "Floating IPs"; "DDoS Protection"];
     locations := ["Falkenstein, Germany"];
     uptime := {| percentage := Fin (999 # 10); sla := false |};
     support := "Business Hours Support";
     website := "https://hetzner.com";
     featured := true;
     tags := ["europe"; "budget"; "high-bandwidth"; "ultra-budget"] |}.

(** What the other providers' responses list. *)
Definition do_listed (up : DOUpstream.t) : list DOSize.t :=
  match decoded (DOUpstream.sizes up) with
  | Some d => default [] (DOSizesResponse.sizes d)
  | None => []
  end.

Definition linode_listed (up : LinodeUpstream.t) : list LinodeType.t :=
  match decoded (LinodeUpstream.types up) with
  | Some d => default [] (LinodeTypesResponse.data d)
  | None => []
  end.

Definition vultr_listed (up : VultrUpstream.t) : list VultrPlan.t :=
  match decoded (VultrUpstream.plans up) with
  | Some d => VultrPlansResponse.plans d
  | None => []
  end.

Definition upcloud_listed (up : UpCloudUpstream.t) : list UpCloudPlan.t :=
  match decoded (UpCloudUpstream.plan up) with
  | Some d => UpCloudPlansResponse.plan d
  | None => []
  end.

Definition scaleway_listed (up : ScalewayUpstream.t) : list (string * ScalewayServerType.t) :=
  match decoded (ScalewayUpstream.servers up) with
  | Some d => ScalewayServersResponse.servers d
  | None => []
  end.

(** The rule for [specs.ram] on a raw memory value in MB: the unit is MB
    or GB; it is GB exactly from 1024 MB on; the amount is the raw value
    divided by 1024 in GB and the raw value itself in MB. *)
Definition ram_rule (raw : Q) (p : Plan) : Prop :=
  let r := ram (specs p) in
  (ram_unit r = "MB" \/ ram_unit r = "GB")
  /\ (ram_unit r = "GB" <-> (1024 <= raw)%Q)
  /\ (ram_unit r = "GB" -> ram_amount r = Fin (raw / 1024))
  /\ (ram_unit r = "MB" -> ram_amount r = Fin raw).

(** A Vultr plan of 512 MB. *)
Definition half_gigabyte : VultrPlan.t :=
  VultrPlan.mk "vc2-1c-0.5gb" 1 512 10 512 (5 # 2) "vc2" ["ewr"].

Definition half_gigabyte_upstream : VultrUpstream.t :=
  VultrUpstream.mk [0; 1]%nat
    (ok_response (VultrPlansResponse.mk [half_gigabyte] None))
    (ok_response (VultrRegionsResponse.mk
                    [VultrRegion.mk "ewr" "New Jersey" "US" "North America" []])).

Definition half_gigabyte_network : Network :=
  {| arrival := [0; 1; 2; 3; 4; 5]%nat;
     digitalocean := digitalocean quiet_network;
     hetzner := hetzner quiet_network;
     linode := linode quiet_network;
     vultr := half_gigabyte_upstream;
     upcloud := upcloud quiet_network;
     scaleway := scaleway quiet_network |}.

Definition half_gigabyte_plan : Plan :=
  Vultr.transform
    (Vultr.regionMap [VultrRegion.mk "ewr" "New Jersey" "US" "North America" []])
    half_gigabyte.

(** Hetzner answering with eleven locations. *)
Definition eleven_locations : list HetznerLocation.t :=
  map (fun city => HetznerLocation.mk city "DE")
    ["A"; "B"; "C"; "D"; "E"; "F"; "G"; "H"; "I"; "J"; "K"].

Definition eleven_locations_upstream : HetznerUpstream.t :=
  HetznerUpstream.mk [0; 1]%nat [0; 1]%nat
    (ok_response (HetznerServerTypesResponse.mk (Some [three_tiers])))
    (ok_response (HetznerLocationsResponse.mk (Some eleven_locations))).

(** The DigitalOcean scenario: an available size with [memory: 1024],
    [disk: 51200], [transfer: 2000]. *)
Definition one_gigabyte : DOSize.t :=
  DOSize.mk "s-1vcpu-1gb" true 1024 1 51200 2000 6 ["nyc1"] None.

Definition one_gigabyte_upstream : DOUpstream.t :=
  DOUpstream.mk [0; 1]%nat [0; 1]%nat
    (ok_response (DOSizesResponse.mk (Some [one_gigabyte])))
    (ok_response (DORegionsResponse.mk (Some [DORegion.mk "nyc1" "New York 1" true]))).

(** The first zone of the pricing response has no entry for the plan
    (there may be no zone at all). *)
Definition no_price_entry (pricingData : UpCloudPricing.t) (plan : UpCloudPlan.t) : Prop :=
  forall zone items,
    head (UpCloudPricing.zone pricingData) = Some (zone, items) ->
    property items ("server_plan_" +:+ UpCloudPlan.name plan) = None.

(** An UpCloud answer whose price list does not cover the plan. *)
Definition unpriced : UpCloudPlan.t :=
  UpCloudPlan.mk 1 2048 "1xCPU-2GB" 2048 50 "maxiops".

Definition unpriced_pricing : UpCloudPricing.t :=
  UpCloudPricing.mk [("us-nyc1", [("server_plan_2xCPU-4GB", "0.0137")])].

Definition unpriced_upstream : UpCloudUpstream.t :=
  UpCloudUpstream.mk [0; 1; 2]%nat
    (ok_response (UpCloudPlansResponse.mk [unpriced]))
    (ok_response unpriced_pricing)
    (ok_response (UpCloudZonesResponse.mk [UpCloudZone.mk "us-nyc1" "New York, USA"])).


(** Six adapter promises of which the second and the fourth reject. *)
Definition two_rejecting : list (Promise (list Plan)) :=
  [inr [half_gigabyte_plan];
   inl (TypeError "Cannot read properties of undefined (reading 'map')");
   inr []; inl (Error "bypassed"); inr []; inr []].

(** Each provider's plan identifiers are unique within the provider. *)
Definition provider_ids_unique (net : Network) : Prop :=
  NoDup (map DOSize.slug (do_listed (digitalocean net)))
  /\ NoDup (map HetznerServerType.name (hetzner_listed (hetzner net)))
  /\ NoDup (map LinodeType.id (linode_listed (linode net)))
  /\ NoDup (map VultrPlan.id (vultr_listed (vultr net)))
  /\ NoDup (map UpCloudPlan.name (upcloud_listed (upcloud net)))
  /\ NoDup (map fst (scaleway_listed (scaleway net))).

(** The same, where the identifiers of Hetzner, UpCloud and Scaleway
    stay distinct under [toLowerCase]: no two of them differ only in
    the case of their letters. *)
Definition provider_ids_unique_up_to_case (net : Network) : Prop :=
  NoDup (map DOSize.slug (do_listed (digitalocean net)))
  /\ NoDup (map (fun s => Str.toLowerCase (HetznerServerType.name s))
              (hetzner_listed (hetzner net)))
  /\ NoDup (map LinodeType.id (linode_listed (linode net)))
  /\ NoDup (map VultrPlan.id (vultr_listed (vultr net)))
  /\ NoDup (map (fun p => Str.toLowerCase (UpCloudPlan.name p))
              (upcloud_listed (upcloud net)))
  /\ NoDup (map (fun e => Str.toLowerCase (fst e)) (scaleway_listed (scaleway net))).

(** Hetzner listing two server types whose names differ in case only. *)
Definition mixed_case_network : Network :=
  {| arrival := [0; 1; 2; 3; 4; 5]%nat;
     digitalocean := digitalocean quiet_network;
     hetzner :=
       HetznerUpstream.mk [0; 1]%nat [0; 1]%nat
         (ok_response
            (HetznerServerTypesResponse.mk
               (Some [three_tiers;
                      HetznerServerType.mk "CX11" None 2 4 40 false "x86" "shared" "local"
                        [HetznerPrice.mk "6.00"]])))
         (ok_response (HetznerLocationsResponse.mk
                         (Some [HetznerLocation.mk "Falkenstein" "Germany"])));
     linode := linode quiet_network;
     vultr := vultr quiet_network;
     upcloud := upcloud quiet_network;
     scaleway := scaleway quiet_network |}.

(** The first character of a string. *)
Definition head_char (s : string) : option ascii := String.get 0 s.

(** Every plan of [l] has an id that starts with one of [cs]. *)
Definition tagged (cs : list ascii) (l : list Plan) : Prop :=
  forall p, In p l -> exists c, In c cs /\ head_char (id p) = Some c.

(** The constraints of the schema on the fields an adapter fills from
    the provider's data ... *)
Definition data_fields_ok (c : Plan) : bool :=
  Str.truthy (id c)
  && Str.truthy (name c)
  && Num.gt (monthly (price c)) (Fin 0)
  && Num.isInteger (cores (cpu (specs c)))
  && Num.gt (cores (cpu (specs c))) (Fin 0)
  && Num.gt (ram_amount (ram (specs c))) (Fin 0)
  && Num.gt (storage_amount (storage (specs c))) (Fin 0)
  && includes ["GB"; "TB"] (storage_unit (storage (specs c)))
  && Num.ge (bandwidth_amount (bandwidth (specs c))) (Fin 0)
  && negb (length (locations c) =? 0)%nat.

(** ... and on the fields it fills with its own constants. *)
Definition fixed_fields_ok (c : Plan) : bool :=
  Str.truthy (provider c)
  && includes ["USD"; "EUR"; "GBP"] (currency (price c))
  && includes ["vCPU"; "CPU"; "Core"] (cpu_type (cpu (specs c)))
  && includes ["MB"; "GB"; "TB"] (ram_unit (ram (specs c)))
  && includes ["SSD"; "NVMe"; "HDD"; "EBS"] (storage_type (storage (specs c)))
  && includes ["GB"; "TB"] (bandwidth_unit (bandwidth (specs c)))
  && negb (length (features c) =? 0)%nat
  && Num.ge (percentage (uptime c)) (Fin 0)
  && Num.le (percentage (uptime c)) (Fin 100)
  && Str.truthy (support c)
  && vpsSchema.is_url (website c).

(** [plans] is what one of the six adapters resolved to. *)
Definition emitted_by_an_adapter (env : Env) (net : Network) (plans : list Plan) : Prop :=
  outcome (fetchDigitalOceanPlans env (digitalocean net)) = inr plans
  \/ outcome (fetchHetznerPlans env (hetzner net)) = inr plans
  \/ outcome (fetchLinodePlans (linode net)) = inr plans
  \/ outcome (fetchVultrPlans env (vultr net)) = inr plans
  \/ outcome (fetchUpCloudPlans env (upcloud net)) = inr plans
  \/ outcome (fetchScalewayPlans env (scaleway net)) = inr plans.

Definition three_tiers_network : Network :=
  {| arrival := [0; 1; 2; 3; 4; 5]%nat;
     digitalocean := digitalocean quiet_network;
     hetzner := three_tiers_upstream;
     linode := linode quiet_network;
     vultr := vultr quiet_network;
     upcloud := upcloud quiet_network;
     scaleway := scaleway quiet_network |}.

(** Inputs of unit tests of the repository, replayed below. *)
Definition scaleway_test_upstream : ScalewayUpstream.t :=
  ScalewayUpstream.mk
    (ok_response
       (ScalewayServersResponse.mk
          [("DEV1-S",
            ScalewayServerType.mk "DEV1-S" "x86_64" 2 2147483648
              (VolumesConstraint.mk 20000000000 100000000000)
              None None (Some false) (Some 0%Q));
           ("GP1-S",
            ScalewayServerType.mk "GP1-S" "x86_64" 4 8589934592
              (VolumesConstraint.mk 50000000000 300000000000)
              None None (Some false) (Some 0%Q))])).

Definition upcloud_test_upstream (price : string) : UpCloudUpstream.t :=
  UpCloudUpstream.mk [0; 1; 2]%nat
    (ok_response (UpCloudPlansResponse.mk [unpriced]))
    (ok_response (UpCloudPricing.mk [("us-nyc1", [("server_plan_1xCPU-2GB", price)])]))
    (ok_response (UpCloudZonesResponse.mk [UpCloudZone.mk "us-nyc1" "New York, USA"])).

Definition linode_test_upstream : LinodeUpstream.t :=
  LinodeUpstream.mk [0; 1]%nat [0; 1]%nat
    (ok_response
       (LinodeTypesResponse.mk
          (Some [LinodeType.mk "g6-standard-1" "Standard" "standard" 1 2048 51200 2000 10])))
    (ok_response
       (LinodeRegionsResponse.mk
          (Some (map (fun i => LinodeRegion.mk "ok" ("Region " +:+ pretty i)) (seq 1 15))))).

(** Listings in which an entry comes twice and others are to be left
    out. *)
Definition crowded_sizes : list DOSize.t :=
  [one_gigabyte;
   DOSize.mk "s-tiny" true 256 1 10 1 2 ["nyc1"] None;
   DOSize.mk "s-retired" false 2048 1 50 2 12 ["nyc1"] None;
   one_gigabyte].

Definition crowded_sizes_upstream : DOUpstream.t :=
  DOUpstream.mk [1; 0]%nat [0; 1]%nat
    (ok_response (DOSizesResponse.mk (Some crowded_sizes)))
    (ok_response (DORegionsResponse.mk (Some [DORegion.mk "nyc1" "New York 1" true]))).

Definition crowded_types : list LinodeType.t :=
  [LinodeType.mk "g6-standard-1" "Standard" "standard" 1 2048 51200 2000 10;
   LinodeType.mk "g1-gpu-rtx6000-1" "GPU" "gpu" 8 32768 655360 16000 1000;
   LinodeType.mk "g6-standard-1" "Standard" "standard" 1 2048 51200 2000 10;
   LinodeType.mk "g6-dedicated-2" "Dedicated" "dedicated" 2 4096 81920 4000 30].

Definition crowded_types_upstream : LinodeUpstream.t :=
  LinodeUpstream.mk [0; 1]%nat [1; 0]%nat
    (ok_response (LinodeTypesResponse.mk (Some crowded_types)))
    (ok_response (LinodeRegionsResponse.mk (Some [LinodeRegion.mk "ok" "Newark, NJ"]))).

Definition crowded_plans : list VultrPlan.t :=
  [half_gigabyte;
   VultrPlan.mk "vbm-4c-32gb" 4 32768 512 5120 120 "vbm" ["ewr"];
   half_gigabyte;
   VultrPlan.mk "vhf-1c-1gb" 1 1024 32 1024 6 "vhf" ["ewr"]].

Definition crowded_plans_upstream : VultrUpstream.t :=
  VultrUpstream.mk [1; 0]%nat
    (ok_response (VultrPlansResponse.mk crowded_plans None))
    (ok_response (VultrRegionsResponse.mk
                    [VultrRegion.mk "ewr" "New Jersey" "US" "North America" []])).

Definition crowded_servers : list (string * ScalewayServerType.t) :=
  [("DEV1-S",
    ScalewayServerType.mk "DEV1-S" "x86_64" 2 2147483648
      (VolumesConstraint.mk 20000000000 100000000000) None None (Some false) (Some 0%Q));
   ("EM-A210R-HDD",
    ScalewayServerType.mk "EM-A210R-HDD" "x86_64" 8 17179869184
      (VolumesConstraint.mk 0 0) None None (Some true) None);
   ("RENDER-S",
    ScalewayServerType.mk "RENDER-S" "x86_64" 10 45097156608
      (VolumesConstraint.mk 50000000000 400000000000) None None (Some false) (Some 1%Q));
   ("GP1-S",
    ScalewayServerType.mk "GP1-S" "x86_64" 4 8589934592
      (VolumesConstraint.mk 50000000000 300000000000) None None None None)].

Definition crowded_servers_upstream : ScalewayUpstream.t :=
  ScalewayUpstream.mk (ok_response (ScalewayServersResponse.mk crowded_servers)).

(** Every provider answering, with seven plans between them. *)
Definition busy_network : Network :=
  {| arrival := [5; 2; 0; 4; 1; 3]%nat;
     digitalocean := one_gigabyte_upstream;
     hetzner := three_tiers_upstream;
     linode := linode_test_upstream;
     vultr := half_gigabyte_upstream;
     upcloud := unpriced_upstream;
     scaleway := scaleway_test_upstream |}.

(** What a call resolved to, projected through [f]. *)
Definition resolved {A} (f : Plan -> A) (c : M (list Plan)) : option (list A) :=
  match outcome c with
  | inr plans => Some (map f plans)
  | inl _ => None
  end.

(** ** Notions used in the further properties *)

(** The requests an adapter issues, by URL. *)
Definition urls (tr : list event) : list string :=
  flat_map (fun e => match e with Request u => [u] | _ => [] end) tr.

(** The Hetzner locations a response lists. *)
Definition hetzner_locations (up : HetznerUpstream.t) : list HetznerLocation.t :=
  match decoded (HetznerUpstream.locations up) with
  | Some d => default [] (HetznerLocationsResponse.locations d)
  | None => []
  end.

(** Hetzner listing a server type without any price next to a priced
    one. *)
Definition unpriced_type_upstream : HetznerUpstream.t :=
  HetznerUpstream.mk [0; 1]%nat [0; 1]%nat
    (ok_response
       (HetznerServerTypesResponse.mk
          (Some [three_tiers;
                 HetznerServerType.mk "cx21" None 2 4 40 false "x86" "shared" "local" []])))
    (ok_response (HetznerLocationsResponse.mk
                    (Some [HetznerLocation.mk "Falkenstein" "Germany"]))).

(** A record is built by one of the six transformations. *)
Definition built_by_an_adapter (p : Plan) : Prop :=
  (exists regions size, DigitalOcean.keep size = true
                        /\ p = DigitalOcean.transform regions size)
  \/ (exists locations serverType, Hetzner.transform locations serverType = inr p)
  \/ (exists regions type, Linode.keep type = true /\ p = Linode.transform regions type)
  \/ (exists m plan, Vultr.keep plan = true /\ p = Vultr.transform m plan)
  \/ (exists pricingData zones plan, p = UpCloud.transform pricingData zones plan)
  \/ (exists entry, Scaleway.keep entry = true /\ p = Scaleway.transform entry).

(** The name of the last region of [regions] whose id is [locId], as
    the Vultr adapter formats it; [locId] itself when there is none. *)
Definition vultr_region_name (regions : list VultrRegion.t) (locId : string) : string :=
  match last (List.filter (fun r => String.eqb (VultrRegion.id r) locId) regions) with
  | Some r => VultrRegion.city r +:+ ", " +:+ VultrRegion.country r
  | None => locId
  end.

(** The ids an adapter can mark as featured. *)
Definition featured_ids : list string :=
  ["digitalocean-s-1vcpu-1gb"; "digitalocean-s-2vcpu-2gb";
   "hetzner-cx11"; "hetzner-cx21"; "hetzner-cx31";
   "linode-g6-nanode-1"; "linode-g6-standard-1"; "linode-g6-standard-2";
   "vultr-vc2-1c-1gb"; "vultr-vc2-1c-2gb"; "vultr-vc2-2c-4gb";
   "upcloud-1xcpu-2gb"; "upcloud-2xcpu-4gb"; "upcloud-4xcpu-8gb";
   "scaleway-dev1-s"; "scaleway-dev1-m"; "scaleway-gp1-s"].

(** A Linode type with a disk below 1024 MB. *)
Definition small_disk : LinodeType.t :=
  LinodeType.mk "g6-tiny" "Tiny" "standard" 1 1024 512 1000 3.

Definition is_log (e : event) : bool :=
  match e with ConsoleLog _ => true | _ => false end.

(** The requests of a run in which every adapter has its credentials. *)
Definition all_urls : list string :=
  ["https://api.digitalocean.com/v2/sizes";
   "https://api.digitalocean.com/v2/regions";
   "https://api.hetzner.cloud/v1/server_types";
   "https://api.hetzner.cloud/v1/locations";
   "https://api.linode.com/v4/linode/types";
   "https://api.linode.com/v4/regions";
   "https://api.vultr.com/v2/plans";
   "https://api.vultr.com/v2/regions";
   "https://api.upcloud.com/1.3/plan";
   "https://api.upcloud.com/1.3/price";
   "https://api.upcloud.com/1.3/zone";
   "https://api.scaleway.com/instance/v1/zones/fr-par-1/products/servers"].

(** A network on which no request gets through. *)
Definition unreachable {A} : Promise (Response A) := inl (FetchError "fetch failed").

Definition dead_network : Network :=
  {| arrival := [0; 1; 2; 3; 4; 5]%nat;
     digitalocean := DOUpstream.mk [0; 1]%nat [0; 1]%nat unreachable unreachable;
     hetzner := HetznerUpstream.mk [0; 1]%nat [0; 1]%nat unreachable unreachable;
     linode := LinodeUpstream.mk [0; 1]%nat [0; 1]%nat unreachable unreachable;
     vultr := VultrUpstream.mk [0; 1]%nat unreachable unreachable;
     upcloud := UpCloudUpstream.mk [0; 1; 2]%nat unreachable unreachable unreachable;
     scaleway := ScalewayUpstream.mk unreachable |}.

(** A DigitalOcean size offered in no available region. *)
Definition stranded_size : DOSize.t :=
  DOSize.mk "s-1vcpu-2gb" true 2048 1 50 2 12 ["ams9"] None.

(** The provider's data behind one candidate record: the listed item
    and what the adapter reads beside it. *)
Inductive Offer : Type :=
  | DigitalOceanOffer (regions : list DORegion.t) (size : DOSize.t)
  | HetznerOffer (locations : list HetznerLocation.t) (serverType : HetznerServerType.t)
  | LinodeOffer (regions : list LinodeRegion.t) (type : LinodeType.t)
  | VultrOffer (regions : list VultrRegion.t) (plan : VultrPlan.t)
  | UpCloudOffer (pricing : UpCloudPricing.t) (zones : list UpCloudZone.t)
                 (plan : UpCloudPlan.t)
  | ScalewayOffer (name : string) (server : ScalewayServerType.t).

(** The record the adapter builds from it. *)
Definition candidate (o : Offer) : Result Plan :=
  match o with
  | DigitalOceanOffer regions size => inr (DigitalOcean.transform regions size)
  | HetznerOffer locations serverType => Hetzner.transform locations serverType
  | LinodeOffer regions type => inr (Linode.transform regions type)
  | VultrOffer regions plan => inr (Vultr.transform (Vultr.regionMap regions) plan)
  | UpCloudOffer pricing zones plan =>
      inr (UpCloud.transform pricing (map UpCloudZone.description zones) plan)
  | ScalewayOffer name server => inr (Scaleway.transform (name, server))
  end.

(** The offer is read from what the network answers. *)
Definition offered (net : Network) (o : Offer) : Prop :=
  match o with
  | DigitalOceanOffer regions size =>
      exists d1 d2,
        decoded (DOUpstream.sizes (digitalocean net)) = Some d1
        /\ decoded (DOUpstream.regions (digitalocean net)) = Some d2
        /\ In size (default [] (DOSizesResponse.sizes d1))
        /\ regions = default [] (DORegionsResponse.regions d2)
  | HetznerOffer locations serverType =>
      exists d1 d2,
        decoded (HetznerUpstream.server_types (hetzner net)) = Some d1
        /\ decoded (HetznerUpstream.locations (hetzner net)) = Some d2
        /\ In serverType (default [] (HetznerServerTypesResponse.server_types d1))
        /\ locations = default [] (HetznerLocationsResponse.locations d2)
  | LinodeOffer regions type =>
      exists d1 d2,
        decoded (LinodeUpstream.types (linode net)) = Some d1
        /\ decoded (LinodeUpstream.regions (linode net)) = Some d2
        /\ In type (default [] (LinodeTypesResponse.data d1))
        /\ regions = default [] (LinodeRegionsResponse.data d2)
  | VultrOffer regions plan =>
      exists d1 d2,
        decoded (VultrUpstream.plans (vultr net)) = Some d1
        /\ decoded (VultrUpstream.regions (vultr net)) = Some d2
        /\ In plan (VultrPlansResponse.plans d1)
        /\ regions = VultrRegionsResponse.regions d2
  | UpCloudOffer pricing zones plan =>
      exists d1 d3,
        decoded (UpCloudUpstream.plan (upcloud net)) = Some d1
        /\ decoded (UpCloudUpstream.price (upcloud net)) = Some pricing
        /\ decoded (UpCloudUpstream.zone (upcloud net)) = Some d3
        /\ In plan (UpCloudPlansResponse.plan d1)
        /\ zones = UpCloudZonesResponse.zone d3
  | ScalewayOffer name server =>
      exists d1,
        decoded (ScalewayUpstream.servers (scaleway net)) = Some d1
        /\ In (name, server) (ScalewayServersResponse.servers d1)
  end.

(** A positive whole number. *)
Definition whole_positive (q : Q) : Prop :=
  (0 < q)%Q /\ exists n : Z, q == inject_Z n.

(** The text of an hourly price reads as a number that is at least
    [least], or as [Infinity]. *)
Definition priced_from (least : Q) (text : string) : Prop :=
  parseFloat text = PosInf \/ exists h, parseFloat text = Fin h /\ (least <= h)%Q.

(** The provider's data is well-formed: the figures a record needs are
    there and in range.  For UpCloud the hourly price of the plan, in
    the first pricing zone, is at least [least]. *)
Definition well_formed (least : Q) (o : Offer) : Prop :=
  match o with
  | DigitalOceanOffer regions size =>
      (0 < DOSize.price_monthly size)%Q
      /\ whole_positive (DOSize.vcpus size)
      /\ (0 < DOSize.memory size)%Q
      /\ (0 < DOSize.disk size)%Q
      /\ (0 <= DOSize.transfer size)%Q
      /\ exists region,
           In region regions /\ DORegion.available region = true
           /\ In (DORegion.slug region) (DOSize.regions size)
  | HetznerOffer locations serverType =>
      HetznerServerType.name serverType <> ""
      /\ (exists first rest,
            HetznerServerType.prices serverType = first :: rest
            /\ readable first
            /\ forall t, In t (first :: rest) -> readable t ->
                         Num.gt (parseFloat (HetznerPrice.gross t)) (Fin 0) = true)
      /\ whole_positive (HetznerServerType.cores serverType)
      /\ (0 < HetznerServerType.memory serverType)%Q
      /\ (0 < HetznerServerType.disk serverType)%Q
      /\ locations <> []
  | LinodeOffer regions type =>
      (0 < LinodeType.price_monthly type)%Q
      /\ whole_positive (LinodeType.vcpus type)
      /\ (0 < LinodeType.memory type)%Q
      /\ (1024 <= LinodeType.disk type)%Q
      /\ (0 <= LinodeType.transfer type)%Q
      /\ exists region, In region regions /\ LinodeRegion.status region = "ok"
  | VultrOffer regions plan =>
      VultrPlan.id plan <> ""
      /\ (0 < VultrPlan.monthly_cost plan)%Q
      /\ whole_positive (VultrPlan.vcpu_count plan)
      /\ (0 < VultrPlan.ram plan)%Q
      /\ (0 < VultrPlan.disk plan)%Q
      /\ (0 <= VultrPlan.bandwidth plan)%Q
      /\ VultrPlan.locations plan <> []
  | UpCloudOffer pricing zones plan =>
      UpCloudPlan.name plan <> ""
      /\ (exists zone items others text,
            UpCloudPricing.zone pricing = (zone, items) :: others
            /\ property items ("server_plan_" +:+ UpCloudPlan.name plan) = Some text
            /\ priced_from least text)
      /\ whole_positive (UpCloudPlan.core_number plan)
      /\ (0 < UpCloudPlan.memory_amount plan)%Q
      /\ (0 < UpCloudPlan.storage_size plan)%Q
      /\ (0 <= UpCloudPlan.public_traffic_out plan)%Q
      /\ zones <> []
  | ScalewayOffer name server =>
      name <> ""
      /\ whole_positive (ScalewayServerType.ncpus server)
      /\ (0 < ScalewayServerType.ram server)%Q
      /\ (Scaleway.GiB / 2
          <= VolumesConstraint.max_size (ScalewayServerType.volumes_constraint server))%Q
  end.

End Notions.

(** ** The custom loader of [lib/loaders/vps-loader.ts] *)

(** What [response.json()] yields there is untyped: a JSON value, with
    [undefined] for what is absent.  An object is kept as its entries. *)
#[warnings="-register-all"]
Inductive value : Type :=
  | VUndefined
  | VNull
  | VBool (b : bool)
  | VNum (n : Q)
  | VStr (s : string)
  | VArr (items : list value)
  | VObj (fields : list (string * value)).

Module Js.

(** Truthiness: [undefined], [null], [false], [0] and [""] are falsy. *)
Definition truthy (v : value) : bool :=
  match v with
  | VUndefined | VNull => false
  | VBool b => b
  | VNum n => negb (Qeq_bool n 0)
  | VStr s => Str.truthy s
  | VArr _ | VObj _ => true
  end.

(** [a || b] *)
Definition or (a b : value) : value := if truthy a then a else b.


(** [v.key], for the keys the loader reads (none of them is a property
    of a string, a number, a boolean or an array): a [TypeError] on
    [undefined] and [null]. *)
Definition get (v : value) (key : string) : Result value :=
  match v with
  | VUndefined | VNull =>
      inl (TypeError ("Cannot read properties of undefined (reading '" +:+ key +:+ "')"))
  | VObj fields => inr (default VUndefined (property fields key))
  | _ => inr VUndefined
  end.

(** [v?.key] *)
Definition get_opt (v : value) (key : string) : value :=
  match get v key with
  | inr x => x
  | inl _ => VUndefined
  end.

End Js.

Module VPSLoaderConfig.
Record t : Type := mk {
  apiUrl : string;
  apiKey : option string;
  cacheDuration : option Q      (* in minutes *)
}.
End VPSLoaderConfig.

(** A [Date]: built from a value of the item, or the time of the call. *)
Inductive stamp : Type :=
  | DateOf (v : value)
  | DateNow.

Module LoadedPrice.
Record t : Type := mk {
  monthly : value;
  yearly : value;
  currency : value
}.
End LoadedPrice.

Module LoadedSpecs.
Record t : Type := mk {
  cpu : value;
  ram : value;
  storage : value;
  bandwidth : value
}.
End LoadedSpecs.

(** The object the loader builds for one item. *)
Module Loaded.
Record t : Type := mk {
  id : value;
  provider : value;
  name : value;
  price : LoadedPrice.t;
  specs : LoadedSpecs.t;
  features : value;
  locations : value;
  uptime : value;
  support : value;
  website : value;
  tags : value;
  description : value;
  featured : value;
  createdAt : stamp;
  updatedAt : stamp
}.
End Loaded.

(** [arr.map((item, index) => ...)] with a callback that may throw. *)
Fixpoint mapi_result {A B} (f : A -> nat -> Result B) (index : nat) (l : list A)
  : Result (list B) :=
  match l with
  | [] => inr []
  | x :: l' =>
      match f x index with
      | inl e => inl e
      | inr y =>
          match mapi_result f (S index) l' with
          | inl e => inl e
          | inr ys => inr (y :: ys)
          end
      end
  end.

Module VPSLoader.

(** The callback of [data.map].  Its first step reads [item.id], which
    throws on [null] and [undefined]; after it every read of [item]
    succeeds. *)
Definition load (item : value) (index : nat) : Result Loaded.t :=
  match Js.get item "id" with
  | inl e => inl e
  | inr item_id =>
      let field := Js.get_opt item in
      let price := field "price" in
      let specs := field "specs" in
      inr
        {| Loaded.id := Js.or item_id (VStr ("vps-" +:+ pretty index));
           Loaded.provider := field "provider";
           Loaded.name := field "name";
           Loaded.price :=
             {| LoadedPrice.monthly :=
                  Js.or (Js.get_opt price "monthly") (field "monthlyPrice");
                LoadedPrice.yearly :=
                  Js.or (Js.get_opt price "yearly") (field "yearlyPrice");
                LoadedPrice.currency :=
                  Js.or (Js.or (Js.get_opt price "currency") (field "currency"))
                        (VStr "USD") |};
           Loaded.specs :=
             {| LoadedSpecs.cpu := Js.or (Js.get_opt specs "cpu") (field "cpu");
                LoadedSpecs.ram := Js.or (Js.get_opt specs "ram") (field "ram");
                LoadedSpecs.storage := Js.or (Js.get_opt specs "storage") (field "storage");
                LoadedSpecs.bandwidth :=
                  Js.or (Js.get_opt specs "bandwidth") (field "bandwidth") |};
           Loaded.features := Js.or (field "features") (VArr []);
           Loaded.locations := Js.or (field "locations") (VArr []);
           Loaded.uptime := Js.or (field "uptime") (VStr "99.9%");
           Loaded.support := Js.or (field "support") (VStr "24/7 Support");
           Loaded.website := Js.or (field "website") (field "url");
           Loaded.tags := Js.or (field "tags") (VArr []);
           Loaded.description := field "description";
           Loaded.featured := Js.or (field "featured") (VBool false);
           Loaded.createdAt :=
             if Js.truthy (field "createdAt") then DateOf (field "createdAt") else DateNow;
           Loaded.updatedAt :=
             if Js.truthy (field "updatedAt") then DateOf (field "updatedAt") else DateNow |}
  end.

(** [data.map(...)]: only an array has [map]. *)
Definition load_all (data : value) : Result (list Loaded.t) :=
  match data with
  | VArr items => mapi_result load 0 items
  | VUndefined | VNull =>
      inl (TypeError "Cannot read properties of undefined (reading 'map')")
  | _ => inl (TypeError "data.map is not a function")
  end.

Definition body (config : VPSLoaderConfig.t) (upstream : Promise (Response value))
  : M (list Loaded.t) :=
  let* p := fetch (VPSLoaderConfig.apiUrl config) upstream in
  let* response := await p in
  if negb (ok response)
  then throw (Error ("Failed to fetch VPS data: " +:+ status_line response))
  else
    let* data := await (json response) in
    settle (load_all data).

End VPSLoader.

(** [createVPSLoader(config)]: the loader it returns, run against what
    the endpoint answers. *)
Definition createVPSLoader (config : VPSLoaderConfig.t)
  (upstream : Promise (Response value)) : M (list Loaded.t) :=
  try_catch (VPSLoader.body config upstream)
    (fun error => console_error "VPS Loader Error:" error;; ret []).

(** Inputs for the custom loader. *)
Definition example_config : VPSLoaderConfig.t :=
  VPSLoaderConfig.mk "https://api.example.com/vps-plans" (Some "key") (Some 60%Q).

Definition two_items : list value :=
  [VObj [("provider", VStr "Acme"); ("name", VStr "Small")];
   VObj [("id", VStr ""); ("provider", VStr "Acme"); ("name", VStr "Large")]].

(** ** Checks of the model on concrete values *)

Example parseFloat_415 : parseFloat "4.15" = Fin (83 # 20).
Proof. vm_compute. reflexivity. Qed.
Example parseFloat_e : parseFloat "  -1.5e2xyz" = Fin (-150 # 1).
Proof. vm_compute. reflexivity. Qed.
Example parseFloat_nan : parseFloat "abc" = NaN.
Proof. vm_compute. reflexivity. Qed.
Example parseFloat_dot : parseFloat ".5" = Fin (1 # 2).
Proof. vm_compute. reflexivity. Qed.
Example toString_1024 : Number_toString 1024 = "1024".
Proof. vm_compute. reflexivity. Qed.
Example toString_half : Number_toString (-5 # 2) = "-2.5".
Proof. vm_compute. reflexivity. Qed.
Example lower_ex : Str.toLowerCase "CX11-a" = "cx11-a".
Proof. vm_compute. reflexivity. Qed.

(** From the unit tests of the loaders. *)
Example scaleway_test_storage :
  resolved (fun p => (id p, ram_amount (ram (specs p)),
                      storage_amount (storage (specs p))))
           (fetchScalewayPlans full_env scaleway_test_upstream)
  = Some [("scaleway-dev1-s", Fin (2147483648 / Scaleway.GiB), Fin 93);
          ("scaleway-gp1-s", Fin (8589934592 / Scaleway.GiB), Fin 279)].
Proof. vm_compute. reflexivity. Qed.
Example upcloud_test_monthly_1 :
  resolved (fun p => monthly (price p)) (fetchUpCloudPlans full_env (upcloud_test_upstream "0.0068"))
  = Some [Fin 4.96].
Proof. vm_compute. reflexivity. Qed.
Example upcloud_test_monthly_2 :
  resolved (fun p => Num.eqb (monthly (price p)) (Fin 7.3))
           (fetchUpCloudPlans full_env (upcloud_test_upstream "0.0100"))
  = Some [true].
Proof. vm_compute. reflexivity. Qed.
Example linode_test_regions :
  resolved (fun p => (length (locations p), storage_unit (storage (specs p)),
                      Num.eqb (storage_amount (storage (specs p))) (Fin 50)))
           (fetchLinodePlans linode_test_upstream)
  = Some [(10%nat, "GB", true)].
Proof. vm_compute. reflexivity. Qed.
Example hetzner_test_plan :
  outcome (fetchHetznerPlans full_env three_tiers_upstream) = inr [three_tiers_plan].
Proof. vm_compute. reflexivity. Qed.

(** A first tier whose text is not a number stays selected: every
    comparison with [NaN] is false. *)
Example hetzner_unreadable_first_tier :
  Hetzner.cheapestPrice [HetznerPrice.mk "n/a"; HetznerPrice.mk "4.15"]
  = inr (HetznerPrice.mk "n/a").
Proof. vm_compute. reflexivity. Qed.
Example hetzner_unreadable_later_tier :
  Hetzner.cheapestPrice [HetznerPrice.mk "5.00"; HetznerPrice.mk "n/a"; HetznerPrice.mk "4.15"]
  = inr (HetznerPrice.mk "4.15").
Proof. vm_compute. reflexivity. Qed.

(** Of two rejected inputs of [Promise.all], the one that rejected
    first is reported, wherever it stands in the array. *)
Example promise_all_reports_the_earliest :
  Promise_all [3; 1; 0; 2; 4; 5]%nat two_rejecting = inl (Error "bypassed")
  /\ Promise_all [1; 3; 0; 2; 4; 5]%nat two_rejecting
     = inl (TypeError "Cannot read properties of undefined (reading 'map')")
  /\ Promise_all []%nat two_rejecting
     = inl (TypeError "Cannot read properties of undefined (reading 'map')").
Proof. vm_compute. repeat split. Qed.

(** * Proofs *)

(** ** Tactics *)

Arguments Hetzner.plans_of : simpl never.

Arguments DigitalOcean.plans_of : simpl never.

Arguments Linode.plans_of : simpl never.

Arguments Vultr.plans_of : simpl never.

Arguments UpCloud.plans_of : simpl never.

Arguments Scaleway.plans_of : simpl never.

Arguments status_line : simpl never.

Arguments String.append : simpl never.

Arguments pretty : simpl never.

(** The cases of one endpoint: the request fails, the status is not
    2xx, or it is and the body decodes or does not. *)
Ltac split_promise p :=
  let e := fresh "e" in
  let o := fresh "ok" in
  let j := fresh "body" in
  destruct p as [e | [o ? ? [e | j]]]; [| destruct o | destruct o].

Ltac unfold_monad :=
  unfold run, outcome, trace, try_catch, bind, fetch, emit, settle, await, ret, throw,
    console_error, console_warn, console_log, spawn,
    Promise_all3, Promise_all2 in *.

Ltac step_run := unfold_monad; cbn in *; rewrite <- ?app_assoc.

Ltac contain Hf :=
  step_run; try (split; reflexivity);
  destruct Hf as [Hf | [? Hf]]; discriminate.

Ltac split_ifs :=
  repeat match goal with
         | |- context [if ?c then _ else _] => destruct c
         end.

Lemma includes_In (l : list string) (x : string) : includes l x = true <-> In x l.
Proof.
  unfold includes. rewrite existsb_exists. split.
  - intros (y & Hy & E). apply String.eqb_eq in E. now subst.
  - intros H. exists x. split; [exact H | apply String.eqb_refl].
Qed.

Ltac decide_labels :=
  cbn; repeat split; intros; repeat match goal with
                                    | H : _ \/ _ |- _ => destruct H
                                    | H : False |- _ => destruct H
                                    end;
  try discriminate; try congruence; auto 20.

Ltac case_eqb s t :=
  let E := fresh "E" in
  destruct (String.eqb_spec s t) as [E | E];
  [try rewrite E; cbn [String.eqb Ascii.eqb Bool.eqb andb orb] | idtac].

Ltac decide_NoDup := apply (bool_decide_unpack _); vm_compute; reflexivity.

Ltac decide_tag_implication :=
  split_ifs; cbn; intros; repeat match goal with
                                 | H : _ \/ _ |- _ => destruct H
                                 | H : False |- _ => destruct H
                                 end;
  try discriminate; auto 20.

Ltac pick_featured H :=
  first [apply includes_In in H; cbn in H
        | rewrite ?orb_true_iff, ?String.eqb_eq in H];
  repeat match goal with
         | H : _ \/ _ |- _ => destruct H as [H | H]
         | H : False |- _ => destruct H
         | H : false = true |- _ => discriminate H
         end;
  first [rewrite <- H | rewrite H];
  rewrite ?Str.toLowerCase_ascii by reflexivity; vm_compute; auto 30.

Ltac all_cases := step_run; try reflexivity.

Section Properties.
Context {cm : Str.CaseMapping}.

(** ** Every adapter: its events extend the trace it starts from *)

Lemma DO_frame env up tr :
  fetchDigitalOceanPlans env up tr
  = (tr ++ trace (fetchDigitalOceanPlans env up), outcome (fetchDigitalOceanPlans env up)).
Proof.
  unfold fetchDigitalOceanPlans, DigitalOcean.body.
  destruct up as [? ? s r]. destruct (unset env _); [step_run; reflexivity |].
  split_promise s; split_promise r; step_run; reflexivity.
Qed.

Lemma Linode_frame up tr :
  fetchLinodePlans up tr
  = (tr ++ trace (fetchLinodePlans up), outcome (fetchLinodePlans up)).
Proof.
  unfold fetchLinodePlans, Linode.body. destruct up as [? ? s r].
  split_promise s; split_promise r; step_run; reflexivity.
Qed.

Lemma Hetzner_frame env up tr :
  fetchHetznerPlans env up tr
  = (tr ++ trace (fetchHetznerPlans env up), outcome (fetchHetznerPlans env up)).
Proof.
  unfold fetchHetznerPlans, Hetzner.body.
  destruct up as [? ? s r]. destruct (unset env _); [step_run; reflexivity |].
  split_promise s; split_promise r; step_run; try reflexivity.
  destruct (Hetzner.plans_of env body body0); cbn; rewrite <- ?app_assoc; reflexivity.
Qed.

Lemma Vultr_frame env up tr :
  fetchVultrPlans env up tr
  = (tr ++ trace (fetchVultrPlans env up), outcome (fetchVultrPlans env up)).
Proof.
  unfold fetchVultrPlans, Vultr.body.
  destruct up as [? s r]. destruct (unset env _); [step_run; reflexivity |].
  split_promise s; split_promise r; step_run; reflexivity.
Qed.

Lemma UpCloud_frame env up tr :
  fetchUpCloudPlans env up tr
  = (tr ++ trace (fetchUpCloudPlans env up), outcome (fetchUpCloudPlans env up)).
Proof.
  unfold fetchUpCloudPlans, UpCloud.body.
  destruct up as [? s r z]. destruct (_ || _); [step_run; reflexivity |].
  split_promise s; split_promise r; split_promise z; step_run; reflexivity.
Qed.

Lemma Scaleway_frame env up tr :
  fetchScalewayPlans env up tr
  = (tr ++ trace (fetchScalewayPlans env up), outcome (fetchScalewayPlans env up)).
Proof.
  unfold fetchScalewayPlans, Scaleway.body.
  destruct up as [s]. destruct (unset env _); [step_run; reflexivity |].
  split_promise s; step_run; reflexivity.
Qed.

(** ** Every adapter: a failure inside the [try] block is contained *)

Lemma DO_contained env up :
  unset env "DIGITALOCEAN_API_KEY" = false ->
  unsuccessful (DOUpstream.sizes up) || unsuccessful (DOUpstream.regions up) = true
  \/ rejects (DigitalOcean.body up) ->
  contained (fetchDigitalOceanPlans env up).
Proof.
  intros Hk Hf. unfold contained, rejects, fetchDigitalOceanPlans, DigitalOcean.body in *.
  rewrite Hk. destruct up as [? ? s r].
  split_promise s; split_promise r; contain Hf.
Qed.

Lemma Linode_contained up :
  unsuccessful (LinodeUpstream.types up) || unsuccessful (LinodeUpstream.regions up) = true
  \/ rejects (Linode.body up) ->
  contained (fetchLinodePlans up).
Proof.
  intros Hf. unfold contained, rejects, fetchLinodePlans, Linode.body in *.
  destruct up as [? ? s r].
  split_promise s; split_promise r; contain Hf.
Qed.

Lemma Hetzner_contained env up :
  unset env "HETZNER_API_KEY" = false ->
  unsuccessful (HetznerUpstream.server_types up)
  || unsuccessful (HetznerUpstream.locations up) = true
  \/ rejects (Hetzner.body env up) ->
  contained (fetchHetznerPlans env up).
Proof.
  intros Hk Hf. unfold contained, rejects, fetchHetznerPlans, Hetzner.body in *.
  rewrite Hk. destruct up as [? ? s r].
  split_promise s; split_promise r; step_run;
    try (destruct (Hetzner.plans_of env body body0)); contain Hf.
Qed.

Lemma Vultr_contained env up :
  unset env "VULTR_API_KEY" = false ->
  unsuccessful (VultrUpstream.plans up) || unsuccessful (VultrUpstream.regions up) = true
  \/ rejects (Vultr.body up) ->
  contained (fetchVultrPlans env up).
Proof.
  intros Hk Hf. unfold contained, rejects, fetchVultrPlans, Vultr.body in *.
  rewrite Hk. destruct up as [? s r].
  split_promise s; split_promise r; contain Hf.
Qed.

Lemma UpCloud_contained env up :
  unset env "UPCLOUD_USERNAME" || unset env "UPCLOUD_PASSWORD" = false ->
  unsuccessful (UpCloudUpstream.plan up) || unsuccessful (UpCloudUpstream.price up)
  || unsuccessful (UpCloudUpstream.zone up) = true
  \/ rejects (UpCloud.body up) ->
  contained (fetchUpCloudPlans env up).
Proof.
  intros Hk Hf. unfold contained, rejects, fetchUpCloudPlans, UpCloud.body in *.
  rewrite Hk. destruct up as [? s r z].
  split_promise s; split_promise r; split_promise z; contain Hf.
Qed.

Lemma Scaleway_contained env up :
  unset env "SCALEWAY_API_KEY" = false ->
  unsuccessful (ScalewayUpstream.servers up) = true \/ rejects (Scaleway.body up) ->
  contained (fetchScalewayPlans env up).
Proof.
  intros Hk Hf. unfold contained, rejects, fetchScalewayPlans, Scaleway.body in *.
  rewrite Hk. destruct up as [s].
  split_promise s; contain Hf.
Qed.

(** The reason is the shape every adapter shares: whatever the [try]
    block does, as long as it logs no error itself, its rejection is
    turned into one [console.error] and the empty sequence. *)
Lemma try_catch_contains (body : M (list Plan)) (msg : string) :
  errors (trace body) = 0%nat -> rejects body ->
  contained (try_catch body (fun error => console_error msg error;; ret [])).
Proof.
  unfold contained, rejects, errors, outcome, trace, run, try_catch.
  destruct (body []) as [tr [e | plans]]; cbn; intros Hz [e' He]; [| discriminate].
  split; [reflexivity |].
  unfold bind, console_error, emit, ret. cbn.
  rewrite List.filter_app, length_app, Hz. reflexivity.
Qed.

(** ** Every adapter: what it resolves to *)

(** The call resolves, either to the empty sequence or to the plans
    built from the decoded bodies. *)
Lemma DO_outcome env up :
  outcome (fetchDigitalOceanPlans env up) = inr []
  \/ exists d1 d2,
       decoded (DOUpstream.sizes up) = Some d1
       /\ decoded (DOUpstream.regions up) = Some d2
       /\ outcome (fetchDigitalOceanPlans env up) = inr (DigitalOcean.plans_of d1 d2).
Proof.
  unfold fetchDigitalOceanPlans, DigitalOcean.body.
  destruct up as [? ? s r]. destruct (unset env _); [left; reflexivity |].
  split_promise s; split_promise r; step_run; eauto 6.
Qed.

Lemma Linode_outcome up :
  outcome (fetchLinodePlans up) = inr []
  \/ exists d1 d2,
       decoded (LinodeUpstream.types up) = Some d1
       /\ decoded (LinodeUpstream.regions up) = Some d2
       /\ outcome (fetchLinodePlans up) = inr (Linode.plans_of d1 d2).
Proof.
  unfold fetchLinodePlans, Linode.body. destruct up as [? ? s r].
  split_promise s; split_promise r; step_run; eauto 6.
Qed.

Lemma Hetzner_outcome env up :
  outcome (fetchHetznerPlans env up) = inr []
  \/ exists d1 d2 plans,
       decoded (HetznerUpstream.server_types up) = Some d1
       /\ decoded (HetznerUpstream.locations up) = Some d2
       /\ Hetzner.plans_of env d1 d2 = inr plans
       /\ outcome (fetchHetznerPlans env up) = inr plans.
Proof.
  unfold fetchHetznerPlans, Hetzner.body.
  destruct up as [? ? s r]. destruct (unset env _); [left; reflexivity |].
  split_promise s; split_promise r; step_run; eauto.
  destruct (Hetzner.plans_of env body body0) eqn:E; cbn; eauto 8.
Qed.

Lemma Vultr_outcome env up :
  outcome (fetchVultrPlans env up) = inr []
  \/ exists d1 d2,
       decoded (VultrUpstream.plans up) = Some d1
       /\ decoded (VultrUpstream.regions up) = Some d2
       /\ outcome (fetchVultrPlans env up) = inr (Vultr.plans_of d1 d2).
Proof.
  unfold fetchVultrPlans, Vultr.body.
  destruct up as [? s r]. destruct (unset env _); [left; reflexivity |].
  split_promise s; split_promise r; step_run; eauto 6.
Qed.

Lemma UpCloud_outcome env up :
  outcome (fetchUpCloudPlans env up) = inr []
  \/ exists d1 d2 d3,
       decoded (UpCloudUpstream.plan up) = Some d1
       /\ decoded (UpCloudUpstream.price up) = Some d2
       /\ decoded (UpCloudUpstream.zone up) = Some d3
       /\ outcome (fetchUpCloudPlans env up) = inr (UpCloud.plans_of d1 d2 d3).
Proof.
  unfold fetchUpCloudPlans, UpCloud.body.
  destruct up as [? s r z]. destruct (_ || _); [left; reflexivity |].
  split_promise s; split_promise r; split_promise z; step_run; eauto 8.
Qed.

Lemma Scaleway_outcome env up :
  outcome (fetchScalewayPlans env up) = inr []
  \/ exists d1,
       decoded (ScalewayUpstream.servers up) = Some d1
       /\ outcome (fetchScalewayPlans env up) = inr (Scaleway.plans_of d1).
Proof.
  unfold fetchScalewayPlans, Scaleway.body.
  destruct up as [s]. destruct (unset env _); [left; reflexivity |].
  split_promise s; step_run; eauto 6.
Qed.

(** ** Missing credentials *)

Lemma unset_configured env v : negb (unset env v) && true = true -> unset env v = false.
Proof. destruct (unset env v); [discriminate | reflexivity]. Qed.

(** C1. For every provider adapter: the call never rejects; and when its
    credentials are set and one of its HTTP responses is unsuccessful, or
    anything in its [try] block (request, status check, decoding,
    transformation) raises an exception, it resolves to the empty
    sequence, having logged exactly one error. *)
Theorem adapter_failures_are_contained (env : Env) (net : Network) (r : Run) :
  In r (adapter_runs env net) ->
  (exists plans, outcome (call r) = inr plans)
  /\ (configured env r = true -> failing r -> contained (call r)).
Proof.
  intros Hr. simpl in Hr.
  destruct Hr as [<- | [<- | [<- | [<- | [<- | [<- | []]]]]]];
    unfold configured, failing; cbn [required response_unsuccessful try_block call forallb].
  - split.
    + destruct (DO_outcome env (digitalocean net)) as [H | (? & ? & _ & _ & H)]; eauto.
    + intros Hc%unset_configured. now apply DO_contained.
  - split.
    + destruct (Hetzner_outcome env (hetzner net)) as [H | (? & ? & ? & _ & _ & _ & H)]; eauto.
    + intros Hc%unset_configured. now apply Hetzner_contained.
  - split.
    + destruct (Linode_outcome (linode net)) as [H | (? & ? & _ & _ & H)]; eauto.
    + intros _. now apply Linode_contained.
  - split.
    + destruct (Vultr_outcome env (vultr net)) as [H | (? & ? & _ & _ & H)]; eauto.
    + intros Hc%unset_configured. now apply Vultr_contained.
  - split.
    + destruct (UpCloud_outcome env (upcloud net)) as [H | (? & ? & ? & _ & _ & _ & H)]; eauto.
    + intros Hc. apply UpCloud_contained.
      destruct (unset env "UPCLOUD_USERNAME"), (unset env "UPCLOUD_PASSWORD");
        try discriminate; reflexivity.
  - split.
    + destruct (Scaleway_outcome env (scaleway net)) as [H | (? & _ & H)]; eauto.
    + intros Hc%unset_configured. now apply Scaleway_contained.
Qed.

(** C6. For every adapter that requires credentials: when one of the
    environment variables it requires is absent (or empty), the call
    resolves to the empty sequence, issues no request, and its only
    event is one warning, whose text mentions the missing variable. *)
Theorem missing_credentials_skip_provider
  (env : Env) (net : Network) (r : Run) (v : string) :
  In r (adapter_runs env net) -> In v (required r) -> unset env v = true ->
  outcome (call r) = inr []
  /\ requests (trace (call r)) = []
  /\ warnings (trace (call r)) = 1%nat
  /\ exists w, trace (call r) = [ConsoleWarn w] /\ Str.includes w v = true.
Proof.
  intros Hr Hv Hu. simpl in Hr.
  destruct Hr as [<- | [<- | [<- | [<- | [<- | [<- | []]]]]]]; simpl in Hv;
    repeat match goal with
           | H : _ \/ _ |- _ => destruct H
           | H : False |- _ => destruct H
           end; subst v; cbn [call];
    unfold fetchDigitalOceanPlans, fetchHetznerPlans, fetchVultrPlans,
      fetchUpCloudPlans, fetchScalewayPlans;
    rewrite Hu, ?orb_true_r; cbn [orb];
    (repeat split; [eexists; split; [reflexivity | vm_compute; reflexivity]]).
Qed.

(** ** Order on numbers *)

Lemma Qlt_bool_iff x y : Qlt_bool x y = true <-> (x < y)%Q.
Proof.
  unfold Qlt_bool. rewrite negb_true_iff.
  destruct (Qle_bool y x) eqn:E.
  - apply Qle_bool_iff in E. split; [discriminate | intros H; exfalso; lra].
  - split; [intros _ | reflexivity].
    apply Qnot_le_lt. intros H. apply Qle_bool_iff in H. congruence.
Qed.

Lemma Num_lt_trans a b c : Num.lt a b = true -> Num.lt b c = true -> Num.lt a c = true.
Proof.
  destruct a, b, c; cbn; try congruence.
  rewrite !Qlt_bool_iff. lra.
Qed.

Lemma Num_lt_le_trans a b c : Num.lt a b = true -> Num.le b c = true -> Num.lt a c = true.
Proof.
  destruct a, b, c; cbn; try congruence.
  rewrite !Qlt_bool_iff, Qle_bool_iff. lra.
Qed.

Lemma Num_not_lt_le a b :
  Num.isNaN a = false -> Num.isNaN b = false -> Num.lt a b = false -> Num.le b a = true.
Proof.
  destruct a, b; cbn; try congruence.
  intros _ _ H. apply Qle_bool_iff. apply Qnot_lt_le. intros H'.
  apply Qlt_bool_iff in H'. congruence.
Qed.

Lemma Num_le_refl a : Num.isNaN a = false -> Num.le a a = true.
Proof. destruct a; cbn; try congruence. intros _. apply Qle_bool_iff, Qle_refl. Qed.

Lemma Num_le_trans a b c : Num.le a b = true -> Num.le b c = true -> Num.le a c = true.
Proof.
  destruct a, b, c; cbn; try congruence.
  rewrite !Qle_bool_iff. apply Qle_trans.
Qed.

Lemma Num_lt_le a b : Num.lt a b = true -> Num.le a b = true.
Proof.
  destruct a, b; cbn; try congruence.
  rewrite Qlt_bool_iff, Qle_bool_iff. lra.
Qed.

Lemma Num_lt_numeric a b : Num.lt a b = true -> Num.isNaN a = false.
Proof. destruct a, b; cbn; congruence. Qed.

(** ** The cheapest tier *)

Lemma cheaper_eq (min current : HetznerPrice.t) :
  Hetzner.cheaper min current
  = if Num.lt (Hetzner.value current) (Hetzner.value min) then current else min.
Proof. reflexivity. Qed.

Lemma fold_cheaper_numeric (rest : list HetznerPrice.t) (acc : HetznerPrice.t) :
  numeric acc ->
  let m := fold_left Hetzner.cheaper rest acc in
  numeric m
  /\ Num.le (Hetzner.value m) (Hetzner.value acc) = true
  /\ forall t, In t rest -> numeric t -> Num.le (Hetzner.value m) (Hetzner.value t) = true.
Proof.
  revert acc. induction rest as [| y rest IH]; intros acc Hacc; cbn zeta.
  - cbn. repeat split; [exact Hacc | now apply Num_le_refl | intros t []].
  - cbn [fold_left]. rewrite cheaper_eq.
    destruct (Num.lt (Hetzner.value y) (Hetzner.value acc)) eqn:E.
    + assert (Hy : numeric y) by (eapply Num_lt_numeric; eauto).
      destruct (IH y Hy) as (Hm & Hle & Hall). split; [exact Hm |]. split.
      * eapply Num_le_trans; [exact Hle | now apply Num_lt_le].
      * intros t [<- | Ht] Hn; auto.
    + destruct (IH acc Hacc) as (Hm & Hle & Hall). split; [exact Hm |]. split; [exact Hle |].
      intros t [<- | Ht] Hn; auto.
      eapply Num_le_trans; [exact Hle |]. now apply Num_not_lt_le.
Qed.

Lemma fold_cheaper_unreadable (rest : list HetznerPrice.t) (acc : HetznerPrice.t) :
  Hetzner.value acc = NaN -> fold_left Hetzner.cheaper rest acc = acc.
Proof.
  intros Hacc. induction rest as [| y rest IH]; [reflexivity |].
  cbn [fold_left]. rewrite cheaper_eq, Hacc.
  destruct (Hetzner.value y); cbn; exact IH.
Qed.

Lemma fold_cheaper_first_cheapest (rest : list HetznerPrice.t) (t0 : HetznerPrice.t) :
  readable t0 ->
  first_cheapest (fold_left Hetzner.cheaper rest t0) (t0 :: rest).
Proof.
  intros H0. induction rest as [| y rest IH] using rev_ind.
  - exists [], []. cbn. repeat split; [exact H0 | intros t [] | intros t []].
  - rewrite fold_left_app. cbn [fold_left].
    destruct IH as (before & after & Heq & Hm & Hb & Ha).
    set (m := fold_left Hetzner.cheaper rest t0) in *.
    rewrite cheaper_eq. unfold Hetzner.value.
    destruct (Num.lt (parseFloat (HetznerPrice.gross y))
                     (parseFloat (HetznerPrice.gross m))) eqn:E.
    + exists (before ++ m :: after), []. rewrite app_comm_cons, Heq. repeat split.
      * eapply Num_lt_numeric. exact E.
      * intros t Ht Hr. apply in_app_or in Ht as [Ht | [<- | Ht]].
        -- eapply Num_lt_trans; eauto.
        -- exact E.
        -- eapply Num_lt_le_trans; eauto.
      * intros t [].
    + exists before, (after ++ [y]). rewrite app_comm_cons, Heq, <- app_assoc.
      repeat split; auto.
      intros t Ht Hr. apply in_app_or in Ht as [Ht | [<- | []]]; auto.
      now apply Num_not_lt_le.
Qed.

Lemma map_result_In {A B} (f : A -> Result B) l ys y :
  map_result f l = inr ys -> In y ys -> exists x, In x l /\ f x = inr y.
Proof.
  revert ys. induction l as [| x l IH]; intros ys; cbn.
  - intros [= <-] [].
  - destruct (f x) as [e | y0] eqn:Ex; [discriminate |].
    destruct (map_result f l) as [e | ys0]; [discriminate |].
    intros [= <-] [<- | Hy]; [eauto |].
    destruct (IH _ eq_refl Hy) as (x' & Hx' & Hf). eauto.
Qed.

(** A Hetzner plan comes from a listed server type, through [transform]. *)
Lemma Hetzner_emitted env up plans p :
  outcome (fetchHetznerPlans env up) = inr plans -> In p plans ->
  exists d2 serverType,
    decoded (HetznerUpstream.locations up) = Some d2
    /\ In serverType (hetzner_listed up)
    /\ Hetzner.transform (default [] (HetznerLocationsResponse.locations d2)) serverType
       = inr p.
Proof.
  intros Ho Hp.
  destruct (Hetzner_outcome env up) as [H | (d1 & d2 & ps & H1 & H2 & Hps & H)];
    rewrite H in Ho; injection Ho as <-; [destruct Hp |].
  unfold Hetzner.plans_of in Hps.
  destruct (map_result_In _ _ _ _ Hps Hp) as (x & Hx & Hf).
  exists d2, x. repeat split; auto.
  unfold hetzner_listed. rewrite H1.
  unfold Hetzner.selected in Hx.
  apply filter_In in Hx as [Hx _]. apply filter_In in Hx as [Hx _]. exact Hx.
Qed.

(** C5. Every plan the Hetzner adapter emits comes from a listed server
    type with at least one tier.  When the text of the first tier reads
    as a number, [price.monthly] is the value of the cheapest of the
    tiers that read as numbers, and of the earliest of the cheapest in
    the listed order; tiers that do not read as numbers are passed
    over.  When the text of the first tier does not read as a number,
    [price.monthly] is [NaN], whatever the other tiers are.  On the
    tiers "5.00", "4.15", "4.50" the price is 4.15. *)
Theorem hetzner_monthly_price_is_cheapest_tier :
  (forall env up plans p,
      outcome (fetchHetznerPlans env up) = inr plans -> In p plans ->
      exists serverType first rest,
        In serverType (hetzner_listed up)
        /\ id p = "hetzner-" +:+ Str.toLowerCase (HetznerServerType.name serverType)
        /\ HetznerServerType.prices serverType = first :: rest
        /\ (readable first ->
            exists m,
              first_cheapest m (first :: rest)
              /\ monthly (price p) = parseFloat (HetznerPrice.gross m))
        /\ (parseFloat (HetznerPrice.gross first) = NaN -> monthly (price p) = NaN))
  /\ (exists p,
        outcome (fetchHetznerPlans full_env three_tiers_upstream) = inr [p]
        /\ monthly (price p) = parseFloat "4.15"
        /\ Num.equiv (monthly (price p)) (Fin 4.15)).
Proof.
  split.
  - intros env up plans p Ho Hp.
    destruct (Hetzner_emitted env up plans p Ho Hp) as (d2 & st & _ & Hst & Ht).
    unfold Hetzner.transform, Hetzner.cheapestPrice, reduce in Ht.
    destruct (HetznerServerType.prices st) as [| first rest] eqn:Hprices; [discriminate |].
    injection Ht as <-. cbn [id price monthly].
    exists st, first, rest. repeat split; auto.
    + intros Hr. eexists. split; [now apply fold_cheaper_first_cheapest | reflexivity].
    + intros Hnan. rewrite (fold_cheaper_unreadable rest first Hnan). exact Hnan.
  - eexists. split; [vm_compute; reflexivity |]. split; vm_compute; reflexivity.
Qed.

(** ** Where an emitted plan comes from *)

Lemma DO_emitted env up plans p :
  outcome (fetchDigitalOceanPlans env up) = inr plans -> In p plans ->
  exists regions size,
    In size (do_listed up) /\ DigitalOcean.keep size = true
    /\ p = DigitalOcean.transform regions size.
Proof.
  intros Ho Hp.
  destruct (DO_outcome env up) as [H | (d1 & d2 & H1 & H2 & H)];
    rewrite H in Ho; injection Ho as <-; [destruct Hp |].
  unfold DigitalOcean.plans_of in Hp. apply in_map_iff in Hp as (x & <- & Hx).
  apply filter_In in Hx as [Hx Hk].
  eexists _, x. unfold do_listed. rewrite H1. eauto.
Qed.

Lemma Linode_emitted up plans p :
  outcome (fetchLinodePlans up) = inr plans -> In p plans ->
  exists regions type,
    In type (linode_listed up) /\ Linode.keep type = true
    /\ p = Linode.transform regions type.
Proof.
  intros Ho Hp.
  destruct (Linode_outcome up) as [H | (d1 & d2 & H1 & H2 & H)];
    rewrite H in Ho; injection Ho as <-; [destruct Hp |].
  unfold Linode.plans_of in Hp. apply in_map_iff in Hp as (x & <- & Hx).
  apply filter_In in Hx as [Hx Hk].
  eexists _, x. unfold linode_listed. rewrite H1. eauto.
Qed.

Lemma Vultr_emitted env up plans p :
  outcome (fetchVultrPlans env up) = inr plans -> In p plans ->
  exists m plan,
    In plan (vultr_listed up) /\ Vultr.keep plan = true
    /\ p = Vultr.transform m plan.
Proof.
  intros Ho Hp.
  destruct (Vultr_outcome env up) as [H | (d1 & d2 & H1 & H2 & H)];
    rewrite H in Ho; injection Ho as <-; [destruct Hp |].
  unfold Vultr.plans_of in Hp. apply in_map_iff in Hp as (x & <- & Hx).
  apply filter_In in Hx as [Hx Hk].
  eexists _, x. unfold vultr_listed. rewrite H1. eauto.
Qed.

Lemma UpCloud_emitted env up plans p :
  outcome (fetchUpCloudPlans env up) = inr plans -> In p plans ->
  exists pricingData zones plan,
    In plan (upcloud_listed up) /\ p = UpCloud.transform pricingData zones plan.
Proof.
  intros Ho Hp.
  destruct (UpCloud_outcome env up) as [H | (d1 & d2 & d3 & H1 & H2 & H3 & H)];
    rewrite H in Ho; injection Ho as <-; [destruct Hp |].
  unfold UpCloud.plans_of in Hp. apply in_map_iff in Hp as (x & <- & Hx).
  eexists _, _, x. unfold upcloud_listed. rewrite H1. eauto.
Qed.

Lemma Scaleway_emitted env up plans p :
  outcome (fetchScalewayPlans env up) = inr plans -> In p plans ->
  exists entry,
    In entry (scaleway_listed up) /\ Scaleway.keep entry = true
    /\ p = Scaleway.transform entry.
Proof.
  intros Ho Hp.
  destruct (Scaleway_outcome env up) as [H | (d1 & H1 & H)];
    rewrite H in Ho; injection Ho as <-; [destruct Hp |].
  unfold Scaleway.plans_of in Hp. apply in_map_iff in Hp as (x & <- & Hx).
  apply filter_In in Hx as [Hx Hk].
  exists x. unfold scaleway_listed. rewrite H1. eauto.
Qed.

(** ** Memory reporting *)

Lemma Num_ge_Fin x y : Num.ge (Fin x) (Fin y) = true <-> (y <= x)%Q.
Proof. cbn. apply Qle_bool_iff. Qed.

(** The threshold rule, as DigitalOcean and Linode apply it. *)
Lemma threshold_rule (raw : Q) (p : Plan) :
  ram (specs p)
  = {| ram_amount := if Num.ge (Fin raw) (Fin 1024)
                     then Num.div (Fin raw) (Fin 1024) else Fin raw;
       ram_unit := if Num.ge (Fin raw) (Fin 1024) then "GB" else "MB" |} ->
  ram_rule raw p.
Proof.
  intros E. unfold ram_rule. rewrite E. cbn [ram_unit ram_amount].
  destruct (Num.ge (Fin raw) (Fin 1024)) eqn:G.
  - apply Num_ge_Fin in G. repeat split; auto; discriminate.
  - assert (~ (1024 <= raw)%Q) by (intros H%Num_ge_Fin; congruence).
    repeat split; auto; try discriminate; tauto.
Qed.

(** C2, as the code has it.  Every emitted plan reports its memory in MB
    or GB.  DigitalOcean and Linode follow the threshold rule on the raw
    value in MB.  Vultr and UpCloud always report GB, the raw MB value
    divided by 1024, below 1024 MB too; Hetzner reports the provider's
    GB value unchanged and Scaleway the byte count divided by 1024^3. *)
Theorem ram_reporting_by_provider (env : Env) (net : Network) (plans : list Plan) (p : Plan) :
  In p plans ->
  (outcome (fetchDigitalOceanPlans env (digitalocean net)) = inr plans ->
   exists size, In size (do_listed (digitalocean net))
     /\ id p = "digitalocean-" +:+ DOSize.slug size
     /\ ram_rule (DOSize.memory size) p)
  /\ (outcome (fetchLinodePlans (linode net)) = inr plans ->
      exists type, In type (linode_listed (linode net))
        /\ id p = "linode-" +:+ LinodeType.id type
        /\ ram_rule (LinodeType.memory type) p)
  /\ (outcome (fetchVultrPlans env (vultr net)) = inr plans ->
      exists plan, In plan (vultr_listed (vultr net))
        /\ id p = "vultr-" +:+ VultrPlan.id plan
        /\ ram (specs p) = {| ram_amount := Fin (VultrPlan.ram plan / 1024);
                              ram_unit := "GB" |})
  /\ (outcome (fetchUpCloudPlans env (upcloud net)) = inr plans ->
      exists plan, In plan (upcloud_listed (upcloud net))
        /\ id p = "upcloud-" +:+ Str.toLowerCase (UpCloudPlan.name plan)
        /\ ram (specs p) = {| ram_amount := Fin (UpCloudPlan.memory_amount plan / 1024);
                              ram_unit := "GB" |})
  /\ (outcome (fetchHetznerPlans env (hetzner net)) = inr plans ->
      exists serverType, In serverType (hetzner_listed (hetzner net))
        /\ id p = "hetzner-" +:+ Str.toLowerCase (HetznerServerType.name serverType)
        /\ ram (specs p) = {| ram_amount := Fin (HetznerServerType.memory serverType);
                              ram_unit := "GB" |})
  /\ (outcome (fetchScalewayPlans env (scaleway net)) = inr plans ->
      exists name server, In (name, server) (scaleway_listed (scaleway net))
        /\ id p = "scaleway-" +:+ Str.toLowerCase name
        /\ ram (specs p) = {| ram_amount := Fin (ScalewayServerType.ram server / Scaleway.GiB);
                              ram_unit := "GB" |}).
Proof.
  intros Hp. repeat split; intros Ho.
  - destruct (DO_emitted _ _ _ _ Ho Hp) as (regions & size & Hin & _ & ->).
    exists size. split; [exact Hin |]. split; [reflexivity |].
    now apply threshold_rule.
  - destruct (Linode_emitted _ _ _ Ho Hp) as (regions & type & Hin & _ & ->).
    exists type. split; [exact Hin |]. split; [reflexivity |].
    now apply threshold_rule.
  - destruct (Vultr_emitted _ _ _ _ Ho Hp) as (m & plan & Hin & _ & ->).
    exists plan. repeat split; auto.
  - destruct (UpCloud_emitted _ _ _ _ Ho Hp) as (pr & zones & plan & Hin & ->).
    exists plan. repeat split; auto.
  - destruct (Hetzner_emitted _ _ _ _ Ho Hp) as (d2 & st & _ & Hin & Ht).
    unfold Hetzner.transform in Ht.
    destruct (Hetzner.cheapestPrice _); [discriminate |]. injection Ht as <-.
    exists st. repeat split; auto.
  - destruct (Scaleway_emitted _ _ _ _ Ho Hp) as ([name server] & Hin & _ & ->).
    exists name, server. repeat split; auto.
Qed.

(** ** Locations *)

(** The other five adapters keep at most ten locations. *)
Lemma sibling_adapters_cap_locations (env : Env) (net : Network) (plans : list Plan) (p : Plan) :
  In p plans ->
  outcome (fetchDigitalOceanPlans env (digitalocean net)) = inr plans
  \/ outcome (fetchLinodePlans (linode net)) = inr plans
  \/ outcome (fetchVultrPlans env (vultr net)) = inr plans
  \/ outcome (fetchUpCloudPlans env (upcloud net)) = inr plans
  \/ outcome (fetchScalewayPlans env (scaleway net)) = inr plans ->
  length (locations p) <= 10.
Proof.
  intros Hp [Ho | [Ho | [Ho | [Ho | Ho]]]].
  - destruct (DO_emitted _ _ _ _ Ho Hp) as (? & ? & _ & _ & ->).
    cbn [locations DigitalOcean.transform]. unfold slice0. rewrite length_take. lia.
  - destruct (Linode_emitted _ _ _ Ho Hp) as (? & ? & _ & _ & ->).
    cbn [locations Linode.transform]. unfold Linode.availableRegions, slice0.
    rewrite length_take. lia.
  - destruct (Vultr_emitted _ _ _ _ Ho Hp) as (? & ? & _ & _ & ->).
    cbn [locations Vultr.transform]. unfold slice0.
    rewrite length_map, length_take. lia.
  - destruct (UpCloud_emitted _ _ _ _ Ho Hp) as (? & ? & ? & _ & ->).
    cbn [locations UpCloud.transform UpCloud.record]. unfold slice0.
    rewrite length_take. lia.
  - destruct (Scaleway_emitted _ _ _ _ Ho Hp) as ([? ?] & _ & _ & ->).
    cbn. lia.
Qed.

(** ** The DigitalOcean scenario *)

(** C9, as the code has it: an available size with [memory: 1024] is
    kept and reported as 1 GB (1024 / 1024). *)
Theorem digitalocean_1024_is_1GB (regions : list DORegion.t) (size : DOSize.t) :
  DOSize.available size = true ->
  (DOSize.memory size == 1024)%Q ->
  DigitalOcean.keep size = true
  /\ ram_unit (ram (specs (DigitalOcean.transform regions size))) = "GB"
  /\ Num.equiv (ram_amount (ram (specs (DigitalOcean.transform regions size)))) (Fin 1).
Proof.
  intros Ha Hm. unfold DigitalOcean.keep, Num.equiv.
  cbn [DigitalOcean.transform specs ram ram_unit ram_amount].
  assert (G : Num.ge (Fin (DOSize.memory size)) (Fin 1024) = true)
    by (apply Num_ge_Fin; rewrite Hm; apply Qle_refl).
  assert (G' : Num.ge (Fin (DOSize.memory size)) (Fin 512) = true)
    by (apply Num_ge_Fin; rewrite Hm; discriminate).
  rewrite Ha, G, G'. repeat split.
  cbn. apply Qeq_bool_iff. rewrite Hm. reflexivity.
Qed.

(** ** UpCloud plans without a price entry *)

Lemma UpCloud_success env up d1 d2 d3 :
  unset env "UPCLOUD_USERNAME" = false -> unset env "UPCLOUD_PASSWORD" = false ->
  decoded (UpCloudUpstream.plan up) = Some d1 ->
  decoded (UpCloudUpstream.price up) = Some d2 ->
  decoded (UpCloudUpstream.zone up) = Some d3 ->
  outcome (fetchUpCloudPlans env up) = inr (UpCloud.plans_of d1 d2 d3).
Proof.
  intros Hu Hp H1 H2 H3. unfold fetchUpCloudPlans, UpCloud.body. rewrite Hu, Hp.
  destruct up as [? s r z].
  split_promise s; try discriminate H1.
  split_promise r; try discriminate H2.
  split_promise z; try discriminate H3.
  cbn in H1, H2, H3. injection H1 as ->. injection H2 as ->. injection H3 as ->.
  step_run. reflexivity.
Qed.

Lemma no_price_entry_planPricing pricingData plan :
  no_price_entry pricingData plan -> UpCloud.planPricing pricingData plan = None.
Proof.
  unfold no_price_entry, UpCloud.planPricing.
  destruct (UpCloudPricing.zone pricingData) as [| [z items] zs]; [reflexivity |].
  intros H. cbn. rewrite String.eqb_refl. eapply H. reflexivity.
Qed.

(** C10. With the UpCloud credentials set and the three responses
    successful and decoded, a listed plan for which the first pricing zone
    has no [server_plan_<name>] entry is still emitted, at the position
    of the plan in the listing.  Its [price.monthly] is 0, which is not
    positive.  Every other field is what the plan's data gives: the id
    and the name from the plan's name, the cores, the memory in GB, the
    disk, the storage type and the traffic in TB from the plan's
    figures, the features and the [featured] mark from its tier and
    name, the locations from the first ten zones; its tags are those of
    a plan that costs nothing. *)
Theorem upcloud_unpriced_plan_is_emitted_at_zero
  (env : Env) (up : UpCloudUpstream.t)
  (d1 : UpCloudPlansResponse.t) (d2 : UpCloudPricing.t) (d3 : UpCloudZonesResponse.t)
  (i : nat) (plan : UpCloudPlan.t) :
  unset env "UPCLOUD_USERNAME" = false -> unset env "UPCLOUD_PASSWORD" = false ->
  decoded (UpCloudUpstream.plan up) = Some d1 ->
  decoded (UpCloudUpstream.price up) = Some d2 ->
  decoded (UpCloudUpstream.zone up) = Some d3 ->
  nth_error (UpCloudPlansResponse.plan d1) i = Some plan ->
  no_price_entry d2 plan ->
  let maxiops := String.eqb (UpCloudPlan.storage_tier plan) "maxiops" in
  exists plans p,
    outcome (fetchUpCloudPlans env up) = inr plans
    /\ length plans = length (UpCloudPlansResponse.plan d1)
    /\ nth_error plans i = Some p
    /\ Num.equiv (monthly (price p)) (Fin 0)
    /\ Num.gt (monthly (price p)) (Fin 0) = false
    /\ currency (price p) = "USD"
    /\ id p = "upcloud-" +:+ Str.toLowerCase (UpCloudPlan.name plan)
    /\ provider p = "UpCloud"
    /\ name p = UpCloudPlan.name plan
    /\ description p = None
    /\ specs p
       = {| cpu := {| cores := Fin (UpCloudPlan.core_number plan); cpu_type := "vCPU" |};
            ram := {| ram_amount := Fin (UpCloudPlan.memory_amount plan / 1024);
                      ram_unit := "GB" |};
            storage := {| storage_amount := Fin (UpCloudPlan.storage_size plan);
                          storage_unit := "GB";
                          storage_type := if maxiops then "NVMe" else "SSD" |};
            bandwidth :=
              {| bandwidth_amount := Fin (UpCloudPlan.public_traffic_out plan / 1024);
                 bandwidth_unit := "TB";
                 unlimited := false |} |}
    /\ features p
       = ["MaxIOPS Storage"; "Full Root Access"; "DDoS Protection"; "100% Uptime SLA";
          "Private Networking"; "Firewall"; "IPv6 Support"]
         ++ (if maxiops then ["NVMe Storage"] else [])
    /\ locations p
       = take 10 (map UpCloudZone.description (UpCloudZonesResponse.zone d3))
    /\ uptime p = {| percentage := Fin 100; sla := true |}
    /\ support p = "24/7 Support"
    /\ website p = "https://upcloud.com"
    /\ featured p
       = existsb (String.eqb (UpCloudPlan.name plan)) ["1xCPU-2GB"; "2xCPU-4GB"; "4xCPU-8GB"]
    /\ tags p
       = ["europe"; "high-performance"; "budget"; "ultra-budget"]
         ++ (if Qle_bool 8 (UpCloudPlan.memory_amount plan / 1024)
             then ["high-memory"] else [])
         ++ (if Qle_bool 2048 (UpCloudPlan.public_traffic_out plan)
             then ["high-bandwidth"] else [])
         ++ (if maxiops then ["nvme-storage"] else []).
Proof.
  intros Hu Hp H1 H2 H3 Hi Hno maxiops.
  exists (UpCloud.plans_of d1 d2 d3),
         (UpCloud.transform d2 (map UpCloudZone.description (UpCloudZonesResponse.zone d3)) plan).
  split; [now apply UpCloud_success |].
  unfold UpCloud.plans_of. rewrite length_map. split; [reflexivity |].
  split; [now apply map_nth_error |].
  unfold UpCloud.transform, UpCloud.hourlyPrice.
  rewrite (no_price_entry_planPricing _ _ Hno).
  cbn [UpCloud.record id provider name description price monthly currency specs
         features locations uptime support website featured tags].
  repeat (split; [reflexivity |]).
  split; [| split; [reflexivity | split; [reflexivity | split; [reflexivity |
            split; [reflexivity | split; [reflexivity |]]]]]].
  - unfold UpCloud.features_of, push_if. fold maxiops. destruct maxiops; reflexivity.
  - unfold UpCloud.tags_of, push_if. fold maxiops.
    change (Num.le (UpCloud.monthlyPrice (Fin 0)) (Fin 6)) with true. cbn [Num.ge Num.le Num.div].
    change (Qeq_bool 1024 0) with false. cbn iota.
    destruct (Qle_bool 8 _), (Qle_bool 2048 _), maxiops; reflexivity.
Qed.

(** ** The aggregation *)



Lemma first_rejection_none order rs :
  (forall r, In r rs -> r = None) -> first_rejection order rs = None.
Proof.
  intros H. induction order as [| i order IH]; cbn; [reflexivity |].
  destruct (rs !! i) as [[e |] |] eqn:E; auto.
  apply list_elem_of_lookup_2, list_elem_of_In, H in E. discriminate E.
Qed.


Lemma Promise_all_resolved {A} arrival (l : list A) :
  Promise_all arrival (map inr l) = inr l.
Proof.
  unfold Promise_all. rewrite first_rejection_none.
  - f_equal. induction l as [| a l IH]; cbn; [reflexivity |]. now rewrite IH.
  - intros r Hr. rewrite map_map in Hr. apply in_map_iff in Hr as (a & <- & _). reflexivity.
Qed.


Lemma aggregate_resolved arrival (l1 l2 l3 l4 l5 l6 : list Plan) tr :
  (aggregate arrival [inr l1; inr l2; inr l3; inr l4; inr l5; inr l6] tr).2
  = inr (l1 ++ l2 ++ l3 ++ l4 ++ l5 ++ l6).
Proof.
  unfold aggregate, bind.
  change [inr l1; inr l2; inr l3; inr l4; inr l5; inr l6]
    with (map (@inr exn (list Plan)) [l1; l2; l3; l4; l5; l6]).
  rewrite Promise_all_resolved. reflexivity.
Qed.

(** The loader resolves to the concatenation, in registration order, of
    what the six adapters resolve to. *)
Lemma loader_concatenates (env : Env) (net : Network) :
  exists l1 l2 l3 l4 l5 l6,
    outcome (fetchDigitalOceanPlans env (digitalocean net)) = inr l1
    /\ outcome (fetchHetznerPlans env (hetzner net)) = inr l2
    /\ outcome (fetchLinodePlans (linode net)) = inr l3
    /\ outcome (fetchVultrPlans env (vultr net)) = inr l4
    /\ outcome (fetchUpCloudPlans env (upcloud net)) = inr l5
    /\ outcome (fetchScalewayPlans env (scaleway net)) = inr l6
    /\ outcome (vpsPlans_loader env net) = inr (l1 ++ l2 ++ l3 ++ l4 ++ l5 ++ l6).
Proof.
  assert (H1 : exists l, outcome (fetchDigitalOceanPlans env (digitalocean net)) = inr l)
    by (destruct (DO_outcome env (digitalocean net)) as [H | (? & ? & _ & _ & H)]; eauto).
  assert (H2 : exists l, outcome (fetchHetznerPlans env (hetzner net)) = inr l)
    by (destruct (Hetzner_outcome env (hetzner net)) as [H | (? & ? & ? & _ & _ & _ & H)];
        eauto).
  assert (H3 : exists l, outcome (fetchLinodePlans (linode net)) = inr l)
    by (destruct (Linode_outcome (linode net)) as [H | (? & ? & _ & _ & H)]; eauto).
  assert (H4 : exists l, outcome (fetchVultrPlans env (vultr net)) = inr l)
    by (destruct (Vultr_outcome env (vultr net)) as [H | (? & ? & _ & _ & H)]; eauto).
  assert (H5 : exists l, outcome (fetchUpCloudPlans env (upcloud net)) = inr l)
    by (destruct (UpCloud_outcome env (upcloud net)) as [H | (? & ? & ? & _ & _ & _ & H)];
        eauto).
  assert (H6 : exists l, outcome (fetchScalewayPlans env (scaleway net)) = inr l)
    by (destruct (Scaleway_outcome env (scaleway net)) as [H | (? & _ & H)]; eauto).
  destruct H1 as [l1 H1], H2 as [l2 H2], H3 as [l3 H3], H4 as [l4 H4],
    H5 as [l5 H5], H6 as [l6 H6].
  exists l1, l2, l3, l4, l5, l6. repeat (split; [assumption |]).
  unfold vpsPlans_loader. unfold outcome at 1. unfold run, bind, spawn, console_log, emit.
  rewrite DO_frame, H1. rewrite Hetzner_frame, H2. rewrite Linode_frame, H3.
  rewrite Vultr_frame, H4. rewrite UpCloud_frame, H5. rewrite Scaleway_frame, H6.
  apply aggregate_resolved.
Qed.


(** ** Plan identifiers *)

Lemma append_inj_r (pre x y : string) : pre +:+ x = pre +:+ y -> x = y.
Proof. induction pre as [| c pre IH]; cbn; [auto | intros [= H]; auto]. Qed.

Lemma NoDup_map_filter {A B} (f : A -> B) (keep : A -> bool) (l : list A) :
  NoDup (map f l) -> NoDup (map f (List.filter keep l)).
Proof.
  induction l as [| x l IH]; cbn; [auto |].
  intros H. apply NoDup_cons in H as [Hx Hl].
  destruct (keep x); cbn; auto.
  apply NoDup_cons. split; auto.
  intros Hin. apply Hx. apply list_elem_of_In. apply list_elem_of_In in Hin.
  apply in_map_iff in Hin as (y & Hy & Hin).
  apply filter_In in Hin as [Hin _]. apply in_map_iff. eauto.
Qed.

Lemma NoDup_map_prefix (pre : string) (l : list string) :
  NoDup l -> NoDup (map (String.append pre) l).
Proof.
  induction 1 as [| x l Hx Hl IH]; cbn; constructor; auto.
  intros Hin. apply list_elem_of_In in Hin. apply in_map_iff in Hin as (y & Hy & Hin).
  apply append_inj_r in Hy. subst y. apply Hx. now apply list_elem_of_In.
Qed.

(** The ids of the plans built from a listing, and from its kept entries. *)
Lemma NoDup_ids_map {A} (pre : string) (key : A -> string)
  (transform : A -> Plan) (l : list A) :
  (forall x, id (transform x) = pre +:+ key x) ->
  NoDup (map key l) ->
  NoDup (map id (map transform l)).
Proof.
  intros Hid Hl. rewrite map_map.
  rewrite (map_ext _ (fun x => pre +:+ key x) Hid).
  rewrite <- (map_map key (String.append pre)).
  now apply NoDup_map_prefix.
Qed.

Lemma NoDup_ids {A} (pre : string) (key : A -> string) (keep : A -> bool)
  (transform : A -> Plan) (l : list A) :
  (forall x, id (transform x) = pre +:+ key x) ->
  NoDup (map key l) ->
  NoDup (map id (map transform (List.filter keep l))).
Proof.
  intros Hid Hl. apply NoDup_ids_map with (pre := pre) (key := key); auto.
  now apply NoDup_map_filter.
Qed.

Lemma Hetzner_ids locations l plans :
  map_result (Hetzner.transform locations) l = inr plans ->
  map id plans
  = map (fun s => "hetzner-" +:+ Str.toLowerCase (HetznerServerType.name s)) l.
Proof.
  revert plans. induction l as [| x l IH]; intros plans; cbn [map_result].
  - now intros [= <-].
  - destruct (Hetzner.transform locations x) as [e | p] eqn:Ex; [discriminate |].
    destruct (map_result _ l) as [e | ps]; [discriminate |].
    intros [= <-]. cbn [map]. rewrite (IH _ eq_refl). f_equal.
    unfold Hetzner.transform in Ex.
    destruct (Hetzner.cheapestPrice _); [discriminate |]. now injection Ex as <-.
Qed.

Lemma tagged_nil cs : tagged cs [].
Proof. intros p []. Qed.

Lemma tagged_map {A} (c : ascii) (transform : A -> Plan) (l : list A) :
  (forall x, head_char (id (transform x)) = Some c) ->
  tagged [c] (map transform l).
Proof.
  intros H p Hp. apply in_map_iff in Hp as (x & <- & _). exists c. split; [now left | auto].
Qed.

Lemma tagged_app cs1 cs2 l k : tagged cs1 l -> tagged cs2 k -> tagged (cs1 ++ cs2) (l ++ k).
Proof.
  intros Hl Hk p Hp. apply in_app_or in Hp as [Hp | Hp].
  - destruct (Hl p Hp) as (c & Hc & E). exists c. split; [apply in_or_app |]; auto.
  - destruct (Hk p Hp) as (c & Hc & E). exists c. split; [apply in_or_app |]; auto.
Qed.

Lemma NoDup_ids_app (c : ascii) (cs : list ascii) (l k : list Plan) :
  ~ In c cs -> tagged [c] l -> tagged cs k ->
  NoDup (map id l) -> NoDup (map id k) -> NoDup (map id (l ++ k)).
Proof.
  intros Hc Hl Hk Dl Dk. rewrite map_app. apply NoDup_app. repeat split; auto.
  intros x Hx Hx'. apply list_elem_of_In in Hx, Hx'.
  apply in_map_iff in Hx as (p & <- & Hp). apply in_map_iff in Hx' as (q & E & Hq).
  destruct (Hl p Hp) as (c1 & [<- | []] & E1). destruct (Hk q Hq) as (c2 & Hc2 & E2).
  rewrite E in E2. rewrite E1 in E2. injection E2 as ->. contradiction.
Qed.

(** What each adapter contributes: plans whose ids carry its slug and are
    pairwise distinct. *)
Lemma DO_ids env up l :
  outcome (fetchDigitalOceanPlans env up) = inr l ->
  NoDup (map DOSize.slug (do_listed up)) ->
  tagged ["d"%char] l /\ NoDup (map id l).
Proof.
  intros Ho Hu.
  destruct (DO_outcome env up) as [H | (d1 & d2 & H1 & H2 & H)];
    rewrite H in Ho; injection Ho as <-; [split; [apply tagged_nil | constructor] |].
  unfold do_listed in Hu. rewrite H1 in Hu. unfold DigitalOcean.plans_of. split.
  - now apply tagged_map.
  - now apply NoDup_ids with (pre := "digitalocean-") (key := DOSize.slug).
Qed.

Lemma Linode_ids up l :
  outcome (fetchLinodePlans up) = inr l ->
  NoDup (map LinodeType.id (linode_listed up)) ->
  tagged ["l"%char] l /\ NoDup (map id l).
Proof.
  intros Ho Hu.
  destruct (Linode_outcome up) as [H | (d1 & d2 & H1 & H2 & H)];
    rewrite H in Ho; injection Ho as <-; [split; [apply tagged_nil | constructor] |].
  unfold linode_listed in Hu. rewrite H1 in Hu. unfold Linode.plans_of. split.
  - now apply tagged_map.
  - now apply NoDup_ids with (pre := "linode-") (key := LinodeType.id).
Qed.

Lemma Vultr_ids env up l :
  outcome (fetchVultrPlans env up) = inr l ->
  NoDup (map VultrPlan.id (vultr_listed up)) ->
  tagged ["v"%char] l /\ NoDup (map id l).
Proof.
  intros Ho Hu.
  destruct (Vultr_outcome env up) as [H | (d1 & d2 & H1 & H2 & H)];
    rewrite H in Ho; injection Ho as <-; [split; [apply tagged_nil | constructor] |].
  unfold vultr_listed in Hu. rewrite H1 in Hu. unfold Vultr.plans_of. split.
  - now apply tagged_map.
  - now apply NoDup_ids with (pre := "vultr-") (key := VultrPlan.id).
Qed.

Lemma UpCloud_ids env up l :
  outcome (fetchUpCloudPlans env up) = inr l ->
  NoDup (map (fun p => Str.toLowerCase (UpCloudPlan.name p)) (upcloud_listed up)) ->
  tagged ["u"%char] l /\ NoDup (map id l).
Proof.
  intros Ho Hu.
  destruct (UpCloud_outcome env up) as [H | (d1 & d2 & d3 & H1 & H2 & H3 & H)];
    rewrite H in Ho; injection Ho as <-; [split; [apply tagged_nil | constructor] |].
  unfold upcloud_listed in Hu. rewrite H1 in Hu. unfold UpCloud.plans_of. split.
  - now apply tagged_map.
  - apply NoDup_ids_map with (pre := "upcloud-")
                             (key := fun p => Str.toLowerCase (UpCloudPlan.name p)); auto.
Qed.

Lemma Scaleway_ids env up l :
  outcome (fetchScalewayPlans env up) = inr l ->
  NoDup (map (fun e => Str.toLowerCase (fst e)) (scaleway_listed up)) ->
  tagged ["s"%char] l /\ NoDup (map id l).
Proof.
  intros Ho Hu.
  destruct (Scaleway_outcome env up) as [H | (d1 & H1 & H)];
    rewrite H in Ho; injection Ho as <-; [split; [apply tagged_nil | constructor] |].
  unfold scaleway_listed in Hu. rewrite H1 in Hu. unfold Scaleway.plans_of. split.
  - apply tagged_map. now intros [n s].
  - apply NoDup_ids with (pre := "scaleway-") (key := fun e => Str.toLowerCase (fst e)); auto.
    now intros [n s].
Qed.

Lemma Hetzner_ids_unique env up l :
  outcome (fetchHetznerPlans env up) = inr l ->
  NoDup (map (fun s => Str.toLowerCase (HetznerServerType.name s)) (hetzner_listed up)) ->
  tagged ["h"%char] l /\ NoDup (map id l).
Proof.
  intros Ho Hu.
  destruct (Hetzner_outcome env up) as [H | (d1 & d2 & ps & H1 & H2 & Hps & H)];
    rewrite H in Ho; injection Ho as <-; [split; [apply tagged_nil | constructor] |].
  unfold hetzner_listed in Hu. rewrite H1 in Hu. unfold Hetzner.plans_of in Hps.
  pose proof (Hetzner_ids _ _ _ Hps) as Hids. split.
  - intros p Hp. exists "h"%char. split; [now left |].
    apply (in_map id) in Hp. rewrite Hids in Hp.
    apply in_map_iff in Hp as (s & <- & _). reflexivity.
  - rewrite Hids. rewrite <- (map_map (fun s => Str.toLowerCase (HetznerServerType.name s))
                               (String.append "hetzner-")).
    apply NoDup_map_prefix. unfold Hetzner.selected.
    now do 2 apply NoDup_map_filter.
Qed.

(** C8, as the code has it.  When each provider's plan identifiers are
    unique within the provider, and those of Hetzner, UpCloud and
    Scaleway (which the adapters lower-case) stay distinct once
    [toLowerCase] has been applied to them, the ids of the records the
    loader returns are pairwise distinct.  This holds whatever
    [toLowerCase] does to letters outside ASCII. *)
Theorem aggregated_ids_are_unique (env : Env) (net : Network) (plans : list Plan) :
  provider_ids_unique_up_to_case net ->
  outcome (vpsPlans_loader env net) = inr plans ->
  NoDup (map id plans).
Proof.
  intros (U1 & U2 & U3 & U4 & U5 & U6) Ho.
  destruct (loader_concatenates env net)
    as (l1 & l2 & l3 & l4 & l5 & l6 & H1 & H2 & H3 & H4 & H5 & H6 & H).
  rewrite H in Ho. injection Ho as <-.
  destruct (DO_ids _ _ _ H1 U1) as [T1 D1].
  destruct (Hetzner_ids_unique _ _ _ H2 U2) as [T2 D2].
  destruct (Linode_ids _ _ H3 U3) as [T3 D3].
  destruct (Vultr_ids _ _ _ H4 U4) as [T4 D4].
  destruct (UpCloud_ids _ _ _ H5 U5) as [T5 D5].
  destruct (Scaleway_ids _ _ _ H6 U6) as [T6 D6].
  pose proof (tagged_app _ _ _ _ T5 T6) as T56.
  pose proof (tagged_app _ _ _ _ T4 T56) as T456.
  pose proof (tagged_app _ _ _ _ T3 T456) as T3456.
  pose proof (tagged_app _ _ _ _ T2 T3456) as T23456.
  eapply NoDup_ids_app; [| exact T1 | exact T23456 | exact D1 |].
  { cbn. intuition discriminate. }
  eapply NoDup_ids_app; [| exact T2 | exact T3456 | exact D2 |].
  { cbn. intuition discriminate. }
  eapply NoDup_ids_app; [| exact T3 | exact T456 | exact D3 |].
  { cbn. intuition discriminate. }
  eapply NoDup_ids_app; [| exact T4 | exact T56 | exact D4 |].
  { cbn. intuition discriminate. }
  eapply NoDup_ids_app; [| exact T5 | exact T6 | exact D5 | exact D6].
  cbn. intuition discriminate.
Qed.

(** ** Validation of the candidate records *)

Lemma app_nil_iff {A} (l k : list A) : l ++ k = [] <-> l = [] /\ k = [].
Proof. destruct l; cbn; split; try tauto; intros; intuition discriminate. Qed.

Lemma check_nil b c p m : vpsSchema.check b c p m = [] <-> b = true.
Proof. unfold vpsSchema.check. destruct b; split; auto; discriminate. Qed.

Lemma Num_gt_number a b : Num.gt a b = true -> Num.isNaN a = false.
Proof. destruct a, b; cbn; auto; discriminate. Qed.

Lemma Num_ge_number a b : Num.ge a b = true -> Num.isNaN a = false.
Proof. destruct a, b; cbn; auto; discriminate. Qed.

Lemma positive_number_nil p m a :
  vpsSchema.a_number p [vpsSchema.positive p m] a = [] <-> Num.gt a (Fin 0) = true.
Proof.
  unfold vpsSchema.a_number, vpsSchema.positive. cbn [map concat]. rewrite app_nil_r.
  destruct (Num.isNaN a) eqn:E.
  - split; [discriminate |]. intros H%Num_gt_number. congruence.
  - apply check_nil.
Qed.

Lemma nonnegative_number_nil p m a :
  vpsSchema.a_number p [vpsSchema.nonnegative p m] a = [] <-> Num.ge a (Fin 0) = true.
Proof.
  unfold vpsSchema.a_number, vpsSchema.nonnegative. cbn [map concat]. rewrite app_nil_r.
  destruct (Num.isNaN a) eqn:E.
  - split; [discriminate |]. intros H%Num_ge_number. congruence.
  - apply check_nil.
Qed.

Lemma positive_integer_nil p m a :
  vpsSchema.a_number p [vpsSchema.int p; vpsSchema.positive p m] a = []
  <-> Num.isInteger a = true /\ Num.gt a (Fin 0) = true.
Proof.
  unfold vpsSchema.a_number, vpsSchema.positive, vpsSchema.int. cbn [map concat].
  rewrite app_nil_r.
  destruct (Num.isNaN a) eqn:E.
  - split; [discriminate |]. intros [_ H%Num_gt_number]. congruence.
  - rewrite app_nil_iff, !check_nil. reflexivity.
Qed.

Lemma percentage_nil p m a :
  vpsSchema.a_number p [vpsSchema.min0 p; vpsSchema.max100 p m] a = []
  <-> Num.ge a (Fin 0) = true /\ Num.le a (Fin 100) = true.
Proof.
  unfold vpsSchema.a_number, vpsSchema.min0, vpsSchema.max100. cbn [map concat].
  rewrite app_nil_r.
  destruct (Num.isNaN a) eqn:E.
  - split; [discriminate |]. intros [H%Num_ge_number _]. congruence.
  - rewrite app_nil_iff, !check_nil. reflexivity.
Qed.

(** A record validates exactly when its data fields and its fixed
    fields are acceptable. *)
Lemma validate_nil_iff (c : Plan) :
  vpsSchema.validate c = [] <-> data_fields_ok c = true /\ fixed_fields_ok c = true.
Proof.
  unfold vpsSchema.validate, data_fields_ok, fixed_fields_ok.
  unfold vpsSchema.string_min1, vpsSchema.enum, vpsSchema.array_min1, vpsSchema.url.
  rewrite !app_nil_iff, !positive_number_nil, nonnegative_number_nil,
    positive_integer_nil, percentage_nil, !check_nil, !andb_true_iff.
  tauto.
Qed.

Lemma DO_fixed regions size : fixed_fields_ok (DigitalOcean.transform regions size) = true.
Proof.
  unfold fixed_fields_ok. cbn -[Num.ge Num.le includes]. split_ifs; reflexivity.
Qed.

Lemma Linode_fixed regions type : fixed_fields_ok (Linode.transform regions type) = true.
Proof.
  unfold fixed_fields_ok. cbn -[Num.ge Num.le includes Linode.getClassFeatures].
  unfold Linode.getClassFeatures. split_ifs; reflexivity.
Qed.

Lemma Vultr_fixed m plan : fixed_fields_ok (Vultr.transform m plan) = true.
Proof.
  unfold fixed_fields_ok. cbn -[Num.ge Num.le includes Vultr.features_of].
  unfold Vultr.features_of. split_ifs; reflexivity.
Qed.

Lemma UpCloud_fixed pricing zones plan :
  fixed_fields_ok (UpCloud.transform pricing zones plan) = true.
Proof.
  unfold fixed_fields_ok, UpCloud.transform.
  cbn -[Num.ge Num.le includes UpCloud.features_of].
  unfold UpCloud.features_of, push_if. split_ifs; reflexivity.
Qed.

Lemma Scaleway_fixed entry : fixed_fields_ok (Scaleway.transform entry) = true.
Proof.
  destruct entry as [name server]. unfold fixed_fields_ok, push_if.
  cbn -[Num.ge Num.le includes Str.includes]. split_ifs; reflexivity.
Qed.

Lemma Hetzner_fixed locations serverType p :
  Hetzner.transform locations serverType = inr p -> fixed_fields_ok p = true.
Proof.
  unfold Hetzner.transform. destruct (Hetzner.cheapestPrice _); [discriminate |].
  intros [= <-]. unfold fixed_fields_ok.
  cbn -[Num.ge Num.le includes]. split_ifs; reflexivity.
Qed.

Lemma Num_gt_Fin x y : Num.gt (Fin x) (Fin y) = true <-> (y < x)%Q.
Proof. cbn. apply Qlt_bool_iff. Qed.

Lemma isInteger_iff q : Num.isInteger (Fin q) = true <-> exists n : Z, q == inject_Z n.
Proof.
  unfold Num.isInteger. rewrite Qeq_bool_iff. split.
  - intros H. exists (Qfloor q). symmetry. exact H.
  - intros [n Hn]. rewrite (Qfloor_comp _ _ Hn), Qfloor_Z. symmetry. exact Hn.
Qed.

Lemma whole_positive_iff q :
  Num.isInteger (Fin q) = true /\ Num.gt (Fin q) (Fin 0) = true <-> whole_positive q.
Proof. unfold whole_positive. rewrite isInteger_iff, Num_gt_Fin. tauto. Qed.

Lemma whole_positive_ge_1 q : whole_positive q -> (1 <= q)%Q.
Proof.
  intros [Hq [n Hn]].
  assert (H0 : (inject_Z 0 < inject_Z n)%Q) by (change (inject_Z 0) with 0%Q; lra).
  rewrite <- Zlt_Qlt in H0.
  assert (H1 : (inject_Z 1 <= inject_Z n)%Q) by (rewrite <- Zle_Qle; lia).
  change (inject_Z 1) with 1%Q in H1. lra.
Qed.

Lemma truthy_iff s : Str.truthy s = true <-> s <> "".
Proof. destruct s; cbn; split; congruence. Qed.

Lemma not_empty_iff {A} (l : list A) : negb (length l =? 0)%nat = true <-> l <> [].
Proof. destruct l; cbn; split; congruence. Qed.

Lemma take_not_empty {A} (l : list A) : slice0 10 l <> [] <-> l <> [].
Proof. destruct l; cbn; split; congruence. Qed.

Lemma map_not_empty {A B} (f : A -> B) (l : list A) : map f l <> [] <-> l <> [].
Proof. destruct l; cbn; split; congruence. Qed.

Lemma filter_not_empty {A} (f : A -> bool) (l : list A) :
  List.filter f l <> [] <-> exists x, In x l /\ f x = true.
Proof.
  split.
  - intros H. destruct (List.filter f l) as [| x k] eqn:E; [congruence |].
    exists x. apply List.filter_In. rewrite E. now left.
  - intros (x & Hx & Hf) E.
    assert (Hin : In x (List.filter f l)) by (apply List.filter_In; auto).
    rewrite E in Hin. destruct Hin.
Qed.

(** [Math.round(x) > 0] exactly when [x >= 1/2]. *)
Lemma round_positive (x : Q) :
  (0 < inject_Z (Qfloor (x + (1 # 2))))%Q <-> ((1 # 2) <= x)%Q.
Proof.
  pose proof (Qfloor_le (x + (1 # 2))) as Hle.
  pose proof (Qlt_floor (x + (1 # 2))) as Hlt.
  rewrite inject_Z_plus in Hlt. change (inject_Z 1) with 1%Q in Hlt.
  set (f := Qfloor (x + (1 # 2))) in *.
  split.
  - intros H. assert (H0 : (inject_Z 0 < inject_Z f)%Q) by exact H.
    rewrite <- Zlt_Qlt in H0.
    assert (H1 : (inject_Z 1 <= inject_Z f)%Q) by (rewrite <- Zle_Qle; lia).
    change (inject_Z 1) with 1%Q in H1. lra.
  - intros H. lra.
Qed.

Lemma divided_positive (x d : Q) : (0 < d)%Q -> (0 < x / d)%Q <-> (0 < x)%Q.
Proof.
  intros Hd. split; intros H.
  - assert (E : x == x / d * d) by (field; lra).
    rewrite E. apply Qmult_lt_0_compat; assumption.
  - apply Qlt_shift_div_l; [exact Hd | lra].
Qed.

Lemma divided_nonnegative (x d : Q) : (0 < d)%Q -> (0 <= x / d)%Q <-> (0 <= x)%Q.
Proof.
  intros Hd. split; intros H.
  - assert (E : x == x / d * d) by (field; lra).
    rewrite E. apply Qmult_le_0_compat; lra.
  - apply Qle_shift_div_l; [exact Hd | lra].
Qed.

Lemma prefixed_not_empty (c : ascii) (pre s : string) : String c pre +:+ s <> "".
Proof. unfold String.append. discriminate. Qed.

Lemma suffixed_not_empty (s t : string) : t <> "" -> s +:+ t <> "".
Proof. intros Ht. destruct s; [exact Ht |]. apply prefixed_not_empty. Qed.

Lemma data_fields_ok_iff (c : Plan) :
  data_fields_ok c = true
  <-> id c <> "" /\ name c <> ""
      /\ Num.gt (monthly (price c)) (Fin 0) = true
      /\ (Num.isInteger (cores (cpu (specs c))) = true
          /\ Num.gt (cores (cpu (specs c))) (Fin 0) = true)
      /\ Num.gt (ram_amount (ram (specs c))) (Fin 0) = true
      /\ Num.gt (storage_amount (storage (specs c))) (Fin 0) = true
      /\ includes ["GB"; "TB"] (storage_unit (storage (specs c))) = true
      /\ Num.ge (bandwidth_amount (bandwidth (specs c))) (Fin 0) = true
      /\ locations c <> [].
Proof.
  unfold data_fields_ok. rewrite !andb_true_iff, !truthy_iff, not_empty_iff. tauto.
Qed.

Lemma DO_name_not_empty regions size : name (DigitalOcean.transform regions size) <> "".
Proof.
  cbn [DigitalOcean.transform name].
  assert (H : DigitalOcean.fallback_name size <> "").
  { unfold DigitalOcean.fallback_name. apply suffixed_not_empty, prefixed_not_empty. }
  destruct (DOSize.description size) as [d |]; [| exact H].
  destruct (Str.truthy d) eqn:E; [now apply truthy_iff | exact H].
Qed.

Lemma threshold_positive (m : Q) :
  Num.gt (if Num.ge (Fin m) (Fin 1024) then Num.div (Fin m) (Fin 1024) else Fin m) (Fin 0)
  = true
  <-> (0 < m)%Q.
Proof.
  destruct (Num.ge (Fin m) (Fin 1024)) eqn:E.
  - apply Num_ge_Fin in E. change (Num.div (Fin m) (Fin 1024)) with (Fin (m / 1024)).
    rewrite Num_gt_Fin, divided_positive by reflexivity. reflexivity.
  - apply Num_gt_Fin.
Qed.

Lemma DO_locations regions size :
  locations (DigitalOcean.transform regions size) <> []
  <-> exists region,
        In region regions /\ DORegion.available region = true
        /\ In (DORegion.slug region) (DOSize.regions size).
Proof.
  cbn [DigitalOcean.transform locations]. unfold DigitalOcean.availableRegions.
  rewrite take_not_empty, map_not_empty, filter_not_empty.
  split; intros (region & Hr & H); exists region.
  - apply andb_true_iff in H as [Ha Hs]. apply includes_In in Hs. auto.
  - destruct H as [Ha Hs]. split; [exact Hr |]. apply andb_true_iff.
    split; [exact Ha | now apply includes_In].
Qed.

Lemma DO_valid_iff regions size least :
  vpsSchema.validate (DigitalOcean.transform regions size) = []
  <-> well_formed least (DigitalOceanOffer regions size).
Proof.
  rewrite validate_nil_iff, DO_fixed, data_fields_ok_iff, DO_locations.
  cbn [well_formed].
  cbn [DigitalOcean.transform id price monthly specs cpu cores ram ram_amount storage
         storage_amount storage_unit bandwidth bandwidth_amount].
  rewrite whole_positive_iff, threshold_positive, !Num_gt_Fin, Num_ge_Fin.
  pose proof (DO_name_not_empty regions size).
  pose proof (prefixed_not_empty "d" "igitalocean-" (DOSize.slug size)).
  change (includes ["GB"; "TB"] "GB") with true.
  tauto.
Qed.

Lemma Linode_locations regions type :
  locations (Linode.transform regions type) <> []
  <-> exists region, In region regions /\ LinodeRegion.status region = "ok".
Proof.
  cbn [Linode.transform locations]. unfold Linode.availableRegions.
  rewrite take_not_empty, map_not_empty, filter_not_empty.
  split; intros (region & Hr & H); exists region; split; auto; now apply String.eqb_eq.
Qed.

Lemma threshold_nonnegative (m : Q) :
  Num.ge (if Num.ge (Fin m) (Fin 1024) then Num.div (Fin m) (Fin 1024) else Fin m) (Fin 0)
  = true
  <-> (0 <= m)%Q.
Proof.
  destruct (Num.ge (Fin m) (Fin 1024)) eqn:E.
  - apply Num_ge_Fin in E. change (Num.div (Fin m) (Fin 1024)) with (Fin (m / 1024)).
    rewrite Num_ge_Fin, divided_nonnegative by reflexivity. reflexivity.
  - apply Num_ge_Fin.
Qed.

Lemma Linode_storage (disk : Q) :
  Num.gt (if Num.ge (Fin disk) (Fin 1024) then Num.div (Fin disk) (Fin 1024) else Fin disk)
         (Fin 0) = true
  /\ includes ["GB"; "TB"] (if Num.ge (Fin disk) (Fin 1024) then "GB" else "MB") = true
  <-> (1024 <= disk)%Q.
Proof.
  rewrite threshold_positive.
  destruct (Num.ge (Fin disk) (Fin 1024)) eqn:E.
  - apply Num_ge_Fin in E. split; [tauto |]. intros _. split; [lra | reflexivity].
  - split; [intros [_ H]; discriminate H |].
    intros H. apply Num_ge_Fin in H. congruence.
Qed.

Lemma Linode_valid_iff regions type least :
  vpsSchema.validate (Linode.transform regions type) = []
  <-> well_formed least (LinodeOffer regions type).
Proof.
  rewrite validate_nil_iff, Linode_fixed, data_fields_ok_iff, Linode_locations.
  cbn [well_formed].
  cbn [Linode.transform id name price monthly specs cpu cores ram ram_amount storage
         storage_amount storage_unit bandwidth bandwidth_amount].
  rewrite whole_positive_iff, threshold_positive, threshold_nonnegative, Num_gt_Fin.
  pose proof (Linode_storage (LinodeType.disk type)) as Hd.
  pose proof (prefixed_not_empty "l" "inode-" (LinodeType.id type)).
  assert (Linode.getTypeName (LinodeType.class type) +:+ " " +:+ LinodeType.label type <> "")
    by apply suffixed_not_empty, prefixed_not_empty.
  tauto.
Qed.

Lemma Vultr_valid_iff regions plan least :
  vpsSchema.validate (Vultr.transform (Vultr.regionMap regions) plan) = []
  <-> well_formed least (VultrOffer regions plan).
Proof.
  rewrite validate_nil_iff, Vultr_fixed, data_fields_ok_iff.
  cbn [well_formed].
  cbn [Vultr.transform id name price monthly specs cpu cores ram ram_amount storage
         storage_amount storage_unit bandwidth bandwidth_amount locations].
  change (Num.div (Fin (VultrPlan.ram plan)) (Fin 1024))
    with (Fin (VultrPlan.ram plan / 1024)).
  change (Num.div (Fin (VultrPlan.bandwidth plan)) (Fin 1024))
    with (Fin (VultrPlan.bandwidth plan / 1024)).
  rewrite whole_positive_iff, !Num_gt_Fin, Num_ge_Fin, map_not_empty, take_not_empty.
  rewrite divided_positive, divided_nonnegative by reflexivity.
  pose proof (prefixed_not_empty "v" "ultr-" (VultrPlan.id plan)).
  assert (Hn : Str.toUpperCase (VultrPlan.id plan) <> "" <-> VultrPlan.id plan <> "").
  { split; intros H' E; apply H'.
    - rewrite E. now rewrite Str.toUpperCase_ascii.
    - now apply Str.toUpperCase_empty. }
  change (includes ["GB"; "TB"] _) with true.
  tauto.
Qed.

Lemma GiB_positive : (0 < Scaleway.GiB)%Q.
Proof. reflexivity. Qed.

Lemma Scaleway_valid_iff entry_name server least :
  vpsSchema.validate (Scaleway.transform (entry_name, server)) = []
  <-> well_formed least (ScalewayOffer entry_name server).
Proof.
  rewrite validate_nil_iff, Scaleway_fixed, data_fields_ok_iff.
  cbn [well_formed].
  cbn [Scaleway.transform id name price monthly specs cpu cores ram ram_amount storage
         storage_amount storage_unit bandwidth bandwidth_amount locations].
  set (ncpus := ScalewayServerType.ncpus server).
  set (ram := ScalewayServerType.ram server).
  set (size := VolumesConstraint.max_size (ScalewayServerType.volumes_constraint server)).
  change (Num.div (Fin ram) (Fin Scaleway.GiB)) with (Fin (ram / Scaleway.GiB)).
  change (Num.div (Fin size) (Fin Scaleway.GiB)) with (Fin (size / Scaleway.GiB)).
  cbn [Num.mul Num.add Num.round].
  change (Num.div (Fin ?x) (Fin 100)) with (Fin (x / 100)).
  rewrite whole_positive_iff, !Num_gt_Fin.
  rewrite (divided_positive ram) by apply GiB_positive.
  rewrite divided_positive by reflexivity.
  rewrite !round_positive.
  pose proof (prefixed_not_empty "s" "caleway-" (Str.toLowerCase entry_name)).
  pose proof GiB_positive as HG.
  change (includes ["GB"; "TB"] "GB") with true.
  change (Num.ge (Fin 100) (Fin 0)) with true.
  assert (Hl : slice0 10 Scaleway.zones <> []) by discriminate.
  assert (Hs : ((1 # 2) <= size / Scaleway.GiB)%Q <-> (Scaleway.GiB / 2 <= size)%Q).
  { unfold Qdiv, Scaleway.GiB.
    change (/ (1024 * 1024 * 1024))%Q with (1 # 1073741824)%Q.
    change (/ 2)%Q with (1 # 2)%Q. lra. }
  assert (Hp : whole_positive ncpus -> (0 < ram)%Q ->
               ((1 # 2) <= (ncpus * 3.5 + ram / Scaleway.GiB * 2.5) * 100)%Q).
  { intros Hc%whole_positive_ge_1 Hr.
    assert (0 < ram / Scaleway.GiB)%Q by (apply divided_positive; assumption).
    lra. }
  tauto.
Qed.

Lemma cheapest_positive (first : HetznerPrice.t) (rest : list HetznerPrice.t) :
  Num.gt (Hetzner.value (fold_left Hetzner.cheaper rest first)) (Fin 0) = true
  <-> readable first
      /\ forall t, In t (first :: rest) -> readable t ->
                   Num.gt (parseFloat (HetznerPrice.gross t)) (Fin 0) = true.
Proof.
  split.
  - intros Hpos.
    assert (Hfirst : readable first).
    { unfold readable. destruct (parseFloat (HetznerPrice.gross first)) eqn:E; try reflexivity.
      rewrite (fold_cheaper_unreadable rest first E) in Hpos.
      unfold Hetzner.value in Hpos. rewrite E in Hpos. discriminate Hpos. }
    split; [exact Hfirst |].
    destruct (fold_cheaper_numeric rest first Hfirst) as (_ & Hle & Hall).
    intros t [<- | Ht] Hr; unfold Num.gt in *.
    + eapply Num_lt_le_trans; [exact Hpos | exact Hle].
    + eapply Num_lt_le_trans; [exact Hpos | now apply Hall].
  - intros [Hfirst Hall].
    destruct (fold_cheaper_first_cheapest rest first Hfirst)
      as (before & after & Heq & Hm & _ & _).
    apply Hall; [| exact Hm]. rewrite Heq. apply in_elt.
Qed.

Lemma Hetzner_valid_iff locs serverType p least :
  Hetzner.transform locs serverType = inr p ->
  vpsSchema.validate p = [] <-> well_formed least (HetznerOffer locs serverType).
Proof.
  intros Ht. rewrite validate_nil_iff, (Hetzner_fixed _ _ _ Ht), data_fields_ok_iff.
  unfold Hetzner.transform, Hetzner.cheapestPrice, reduce in Ht.
  cbn [well_formed].
  destruct (HetznerServerType.prices serverType) as [| first rest] eqn:Hprices;
    [discriminate |].
  injection Ht as <-.
  cbn [id name price monthly specs cpu cores ram ram_amount storage
         storage_amount storage_unit bandwidth bandwidth_amount locations].
  rewrite cheapest_positive, whole_positive_iff, !Num_gt_Fin, map_not_empty.
  pose proof (prefixed_not_empty "h" "etzner-"
                (Str.toLowerCase (HetznerServerType.name serverType))).
  change (includes ["GB"; "TB"] "GB") with true.
  change (Num.ge (Fin 20) (Fin 0)) with true.
  split.
  - intros ((_ & Hn & (Hf & Hall) & Hc & Hm & Hd & _ & _ & Hl) & _).
    split; [exact Hn |]. split; [exists first, rest; auto |]. tauto.
  - intros (Hn & (f & r & [= <- <-] & Hf & Hall) & Hc & Hm & Hd & Hl). tauto.
Qed.

Lemma planPricing_iff pricing plan text :
  UpCloud.planPricing pricing plan = Some text
  <-> exists zone items others,
        UpCloudPricing.zone pricing = (zone, items) :: others
        /\ property items ("server_plan_" +:+ UpCloudPlan.name plan) = Some text.
Proof.
  unfold UpCloud.planPricing.
  destruct (UpCloudPricing.zone pricing) as [| [zone items] others].
  - split; [discriminate | intros (? & ? & ? & [=] & _)].
  - cbn. rewrite String.eqb_refl. split.
    + intros H. exists zone, items, others. auto.
    + intros (? & ? & ? & [= <- <- <-] & H). exact H.
Qed.

Lemma monthlyPrice_positive (h : Q) :
  Num.gt (UpCloud.monthlyPrice (Fin h)) (Fin 0) = true <-> ((1 # 2) <= h * 730 * 100)%Q.
Proof.
  unfold UpCloud.monthlyPrice. cbn [Num.mul Num.round].
  change (Num.div (Fin ?x) (Fin 100)) with (Fin (x / 100)).
  rewrite Num_gt_Fin, divided_positive by reflexivity. apply round_positive.
Qed.

Lemma UpCloud_price_sufficient text :
  priced_from (1 # 100000) text ->
  Num.gt (UpCloud.monthlyPrice (parseFloat text)) (Fin 0) = true.
Proof.
  intros [-> | (h & -> & Hh)]; [reflexivity |].
  apply monthlyPrice_positive. lra.
Qed.

Lemma UpCloud_price_necessary pricing plan :
  Num.gt (UpCloud.monthlyPrice (UpCloud.hourlyPrice pricing plan)) (Fin 0) = true ->
  exists text least,
    UpCloud.planPricing pricing plan = Some text
    /\ (0 < least)%Q /\ priced_from least text.
Proof.
  unfold UpCloud.hourlyPrice.
  destruct (UpCloud.planPricing pricing plan) as [text |]; [| discriminate].
  intros H. exists text.
  destruct (parseFloat text) as [| | h |] eqn:E; try discriminate H.
  - apply monthlyPrice_positive in H. exists h. split; [reflexivity |].
    split; [lra |]. right. exists h. rewrite E. split; [reflexivity | lra].
  - exists 1%Q. split; [reflexivity |]. split; [reflexivity |]. left. exact E.
Qed.

Lemma UpCloud_valid_iff pricing zones plan :
  vpsSchema.validate (UpCloud.transform pricing (map UpCloudZone.description zones) plan)
  = []
  <-> UpCloudPlan.name plan <> ""
      /\ Num.gt (UpCloud.monthlyPrice (UpCloud.hourlyPrice pricing plan)) (Fin 0) = true
      /\ whole_positive (UpCloudPlan.core_number plan)
      /\ (0 < UpCloudPlan.memory_amount plan)%Q
      /\ (0 < UpCloudPlan.storage_size plan)%Q
      /\ (0 <= UpCloudPlan.public_traffic_out plan)%Q
      /\ zones <> [].
Proof.
  rewrite validate_nil_iff, UpCloud_fixed, data_fields_ok_iff.
  unfold UpCloud.transform.
  cbn [UpCloud.record id name price monthly specs cpu cores ram ram_amount storage
         storage_amount storage_unit bandwidth bandwidth_amount locations].
  change (Num.div (Fin (UpCloudPlan.memory_amount plan)) (Fin 1024))
    with (Fin (UpCloudPlan.memory_amount plan / 1024)).
  change (Num.div (Fin (UpCloudPlan.public_traffic_out plan)) (Fin 1024))
    with (Fin (UpCloudPlan.public_traffic_out plan / 1024)).
  rewrite whole_positive_iff, !Num_gt_Fin, Num_ge_Fin, take_not_empty, map_not_empty.
  rewrite divided_positive, divided_nonnegative by reflexivity.
  pose proof (prefixed_not_empty "u" "pcloud-" (Str.toLowerCase (UpCloudPlan.name plan))).
  change (includes ["GB"; "TB"] "GB") with true.
  tauto.
Qed.

Lemma UpCloud_valid_when_well_formed pricing zones plan :
  well_formed (1 # 100000) (UpCloudOffer pricing zones plan) ->
  vpsSchema.validate (UpCloud.transform pricing (map UpCloudZone.description zones) plan)
  = [].
Proof.
  intros (Hn & (zone & items & others & text & Hz & Hp & Ht) & Hrest).
  apply UpCloud_valid_iff. split; [exact Hn |]. split; [| exact Hrest].
  unfold UpCloud.hourlyPrice.
  rewrite (proj2 (planPricing_iff pricing plan text)) by eauto.
  now apply UpCloud_price_sufficient.
Qed.

Lemma UpCloud_well_formed_when_valid pricing zones plan :
  vpsSchema.validate (UpCloud.transform pricing (map UpCloudZone.description zones) plan)
  = [] ->
  exists least, (0 < least)%Q /\ well_formed least (UpCloudOffer pricing zones plan).
Proof.
  intros (Hn & Hp & Hrest)%UpCloud_valid_iff.
  destruct (UpCloud_price_necessary _ _ Hp) as (text & least & Ht & Hl & Hfrom).
  apply planPricing_iff in Ht as (zone & items & others & Hz & Hi).
  exists least. split; [exact Hl |]. split; [exact Hn |]. split; [| exact Hrest].
  exists zone, items, others, text. auto.
Qed.

Lemma emitted_is_offered (env : Env) (net : Network) (plans : list Plan) (p : Plan) :
  emitted_by_an_adapter env net plans -> In p plans ->
  exists o, offered net o /\ candidate o = inr p.
Proof.
  intros He Hp.
  destruct He as [Ho | [Ho | [Ho | [Ho | [Ho | Ho]]]]].
  - destruct (DO_outcome env (digitalocean net)) as [H | (d1 & d2 & H1 & H2 & H)];
      rewrite H in Ho; injection Ho as <-; [destruct Hp |].
    unfold DigitalOcean.plans_of in Hp. apply in_map_iff in Hp as (size & <- & Hs).
    apply List.filter_In in Hs as [Hs _].
    exists (DigitalOceanOffer (default [] (DORegionsResponse.regions d2)) size).
    split; [exists d1, d2; auto | reflexivity].
  - destruct (Hetzner_outcome env (hetzner net))
      as [H | (d1 & d2 & ps & H1 & H2 & Hps & H)];
      rewrite H in Ho; injection Ho as <-; [destruct Hp |].
    unfold Hetzner.plans_of in Hps.
    destruct (map_result_In _ _ _ _ Hps Hp) as (st & Hst & Ht).
    unfold Hetzner.selected in Hst.
    apply List.filter_In in Hst as [Hst _]. apply List.filter_In in Hst as [Hst _].
    exists (HetznerOffer (default [] (HetznerLocationsResponse.locations d2)) st).
    split; [exists d1, d2; auto | exact Ht].
  - destruct (Linode_outcome (linode net)) as [H | (d1 & d2 & H1 & H2 & H)];
      rewrite H in Ho; injection Ho as <-; [destruct Hp |].
    unfold Linode.plans_of in Hp. apply in_map_iff in Hp as (type & <- & Hs).
    apply List.filter_In in Hs as [Hs _].
    exists (LinodeOffer (default [] (LinodeRegionsResponse.data d2)) type).
    split; [exists d1, d2; auto | reflexivity].
  - destruct (Vultr_outcome env (vultr net)) as [H | (d1 & d2 & H1 & H2 & H)];
      rewrite H in Ho; injection Ho as <-; [destruct Hp |].
    unfold Vultr.plans_of in Hp. apply in_map_iff in Hp as (plan & <- & Hs).
    apply List.filter_In in Hs as [Hs _].
    exists (VultrOffer (VultrRegionsResponse.regions d2) plan).
    split; [exists d1, d2; auto | reflexivity].
  - destruct (UpCloud_outcome env (upcloud net))
      as [H | (d1 & d2 & d3 & H1 & H2 & H3 & H)];
      rewrite H in Ho; injection Ho as <-; [destruct Hp |].
    unfold UpCloud.plans_of in Hp. apply in_map_iff in Hp as (plan & <- & Hs).
    exists (UpCloudOffer d2 (UpCloudZonesResponse.zone d3) plan).
    split; [exists d1, d3; auto | reflexivity].
  - destruct (Scaleway_outcome env (scaleway net)) as [H | (d1 & H1 & H)];
      rewrite H in Ho; injection Ho as <-; [destruct Hp |].
    unfold Scaleway.plans_of in Hp. apply in_map_iff in Hp as ([n server] & <- & Hs).
    apply List.filter_In in Hs as [Hs _].
    exists (ScalewayOffer n server).
    split; [exists d1; auto | reflexivity].
Qed.

(** C4, as the code has it.  Every record an adapter emits is built from
    an offer read from the provider's answers.  For every offer and the
    record built from it: the fields the adapter fills with its own
    constants satisfy the schema; the record validates with zero errors
    whenever the provider's data is well-formed, that is with a positive
    price (for Hetzner: a first tier that reads as a number and no
    readable tier at or below zero; for UpCloud: an entry in the first
    pricing zone that reads as an hourly price of at least 0.00001; for
    Scaleway the price is estimated from the cores and the memory), a
    positive whole number of cores, positive memory and disk (for Linode
    a disk of at least 1024 MB, for Scaleway a volume limit of at least
    half a GiB), non-negative traffic, a name where the record's name is
    the provider's, and at least one location; and only then: a record
    that validates comes from well-formed data, for UpCloud with some
    positive hourly price. *)
Theorem candidates_validate_when_data_is_acceptable :
  (forall (env : Env) (net : Network) (plans : list Plan) (p : Plan),
      emitted_by_an_adapter env net plans -> In p plans ->
      exists o, offered net o /\ candidate o = inr p)
  /\ (forall (o : Offer) (p : Plan),
        candidate o = inr p ->
        fixed_fields_ok p = true
        /\ (well_formed (1 # 100000) o -> vpsSchema.validate p = [])
        /\ (vpsSchema.validate p = [] ->
            exists least, (0 < least)%Q /\ well_formed least o)).
Proof.
  split; [exact emitted_is_offered |].
  intros [regions size | locs st | regions type | regions plan | pricing zones plan
         | n server] p Hc; unfold candidate in Hc;
    try (apply (f_equal (fun r => match r with inr x => x | inl _ => p end)) in Hc;
         cbv beta iota in Hc; subst p).
  - split; [apply DO_fixed |].
    split; [apply DO_valid_iff |]. intros Hv. exists 1%Q. split; [reflexivity |].
    now apply DO_valid_iff.
  - split; [eapply Hetzner_fixed; exact Hc |].
    split; [now apply Hetzner_valid_iff |]. intros Hv. exists 1%Q. split; [reflexivity |].
    now apply (Hetzner_valid_iff _ _ _ 1 Hc).
  - split; [apply Linode_fixed |].
    split; [apply Linode_valid_iff |]. intros Hv. exists 1%Q. split; [reflexivity |].
    now apply Linode_valid_iff.
  - split; [apply Vultr_fixed |].
    split; [apply Vultr_valid_iff |]. intros Hv. exists 1%Q. split; [reflexivity |].
    now apply Vultr_valid_iff.
  - split; [apply UpCloud_fixed |].
    split; [apply UpCloud_valid_when_well_formed | apply UpCloud_well_formed_when_valid].
  - split; [apply Scaleway_fixed |].
    split; [apply Scaleway_valid_iff |]. intros Hv. exists 1%Q. split; [reflexivity |].
    now apply Scaleway_valid_iff.
Qed.

(** * Further properties of the loaders *)

(** ** What a run with decoded responses resolves to *)

Lemma DO_success env up d1 d2 :
  unset env "DIGITALOCEAN_API_KEY" = false ->
  decoded (DOUpstream.sizes up) = Some d1 ->
  decoded (DOUpstream.regions up) = Some d2 ->
  run (fetchDigitalOceanPlans env up)
  = ([Request "https://api.digitalocean.com/v2/sizes";
      Request "https://api.digitalocean.com/v2/regions"],
     inr (DigitalOcean.plans_of d1 d2)).
Proof.
  intros Hk H1 H2. unfold fetchDigitalOceanPlans, DigitalOcean.body. rewrite Hk.
  destruct up as [? ? s r].
  split_promise s; try discriminate H1. split_promise r; try discriminate H2.
  cbn in H1, H2. injection H1 as ->. injection H2 as ->. step_run. reflexivity.
Qed.

Lemma Linode_success up d1 d2 :
  decoded (LinodeUpstream.types up) = Some d1 ->
  decoded (LinodeUpstream.regions up) = Some d2 ->
  run (fetchLinodePlans up)
  = ([Request "https://api.linode.com/v4/linode/types";
      Request "https://api.linode.com/v4/regions"],
     inr (Linode.plans_of d1 d2)).
Proof.
  intros H1 H2. unfold fetchLinodePlans, Linode.body.
  destruct up as [? ? s r].
  split_promise s; try discriminate H1. split_promise r; try discriminate H2.
  cbn in H1, H2. injection H1 as ->. injection H2 as ->. step_run. reflexivity.
Qed.

Lemma Vultr_success env up d1 d2 :
  unset env "VULTR_API_KEY" = false ->
  decoded (VultrUpstream.plans up) = Some d1 ->
  decoded (VultrUpstream.regions up) = Some d2 ->
  outcome (fetchVultrPlans env up) = inr (Vultr.plans_of d1 d2).
Proof.
  intros Hk H1 H2. unfold fetchVultrPlans, Vultr.body. rewrite Hk.
  destruct up as [? s r].
  split_promise s; try discriminate H1. split_promise r; try discriminate H2.
  cbn in H1, H2. injection H1 as ->. injection H2 as ->. step_run. reflexivity.
Qed.

Lemma Scaleway_success env up d1 :
  unset env "SCALEWAY_API_KEY" = false ->
  decoded (ScalewayUpstream.servers up) = Some d1 ->
  outcome (fetchScalewayPlans env up) = inr (Scaleway.plans_of d1).
Proof.
  intros Hk H1. unfold fetchScalewayPlans, Scaleway.body. rewrite Hk.
  destruct up as [s].
  split_promise s; try discriminate H1.
  cbn in H1. injection H1 as ->. step_run. reflexivity.
Qed.

Lemma Hetzner_success env up d1 d2 :
  unset env "HETZNER_API_KEY" = false ->
  decoded (HetznerUpstream.server_types up) = Some d1 ->
  decoded (HetznerUpstream.locations up) = Some d2 ->
  run (fetchHetznerPlans env up)
  = match Hetzner.plans_of env d1 d2 with
    | inr plans =>
        ([Request "https://api.hetzner.cloud/v1/server_types";
          Request "https://api.hetzner.cloud/v1/locations"], inr plans)
    | inl e =>
        ([Request "https://api.hetzner.cloud/v1/server_types";
          Request "https://api.hetzner.cloud/v1/locations";
          ConsoleError "Failed to fetch Hetzner plans:" e], inr [])
    end.
Proof.
  intros Hk H1 H2. unfold fetchHetznerPlans, Hetzner.body. rewrite Hk.
  destruct up as [? ? s r].
  split_promise s; try discriminate H1. split_promise r; try discriminate H2.
  cbn in H1, H2. injection H1 as ->. injection H2 as ->. step_run.
  destruct (Hetzner.plans_of env d1 d2); reflexivity.
Qed.

(** ** Which listed plans an adapter emits *)

Lemma DO_keep_iff size :
  DigitalOcean.keep size = true
  <-> DOSize.available size = true /\ (512 <= DOSize.memory size)%Q.
Proof. unfold DigitalOcean.keep. rewrite andb_true_iff, Num_ge_Fin. reflexivity. Qed.

(** X1. With the key set and both responses decoded, the DigitalOcean
    adapter issues its two requests, logs nothing, and resolves to
    exactly one record for each entry of the listing that is available
    and has at least 512 MB, in the order of the listing: an entry
    listed twice gives two records, and no other size is emitted. *)
Theorem digitalocean_emits_the_available_sizes
  (env : Env) (up : DOUpstream.t) (d1 : DOSizesResponse.t) (d2 : DORegionsResponse.t) :
  unset env "DIGITALOCEAN_API_KEY" = false ->
  decoded (DOUpstream.sizes up) = Some d1 ->
  decoded (DOUpstream.regions up) = Some d2 ->
  let kept :=
    List.filter (fun size => DOSize.available size && Qle_bool 512 (DOSize.memory size))
      (default [] (DOSizesResponse.sizes d1)) in
  exists plans,
    run (fetchDigitalOceanPlans env up)
    = ([Request "https://api.digitalocean.com/v2/sizes";
        Request "https://api.digitalocean.com/v2/regions"], inr plans)
    /\ plans = map (DigitalOcean.transform (default [] (DORegionsResponse.regions d2))) kept
    /\ map id plans = map (fun size => "digitalocean-" +:+ DOSize.slug size) kept.
Proof.
  intros Hk H1 H2 kept. eexists. split; [eapply DO_success; eassumption |].
  split; [reflexivity |]. unfold DigitalOcean.plans_of. rewrite map_map. reflexivity.
Qed.

Lemma Linode_keep_iff type :
  Linode.keep type = true
  <-> LinodeType.class type <> "gpu" /\ LinodeType.class type <> "accelerated".
Proof.
  unfold Linode.keep. rewrite andb_true_iff, !negb_true_iff, !String.eqb_neq. reflexivity.
Qed.

(** X2. With both responses decoded, the Linode adapter (which needs no
    credentials) issues its two requests, logs nothing, and resolves to
    exactly one record for each entry of the listing whose class is
    neither [gpu] nor [accelerated], in the order of the listing. *)
Theorem linode_emits_the_non_gpu_types
  (up : LinodeUpstream.t) (d1 : LinodeTypesResponse.t) (d2 : LinodeRegionsResponse.t) :
  decoded (LinodeUpstream.types up) = Some d1 ->
  decoded (LinodeUpstream.regions up) = Some d2 ->
  let kept :=
    List.filter (fun type => negb (String.eqb (LinodeType.class type) "gpu")
                             && negb (String.eqb (LinodeType.class type) "accelerated"))
      (default [] (LinodeTypesResponse.data d1)) in
  exists plans,
    run (fetchLinodePlans up)
    = ([Request "https://api.linode.com/v4/linode/types";
        Request "https://api.linode.com/v4/regions"], inr plans)
    /\ plans = map (Linode.transform (default [] (LinodeRegionsResponse.data d2))) kept
    /\ map id plans = map (fun type => "linode-" +:+ LinodeType.id type) kept.
Proof.
  intros H1 H2 kept. eexists. split; [eapply Linode_success; eassumption |].
  split; [reflexivity |]. unfold Linode.plans_of. rewrite map_map. reflexivity.
Qed.

(** X3. With the key set and both responses decoded, the Vultr adapter
    resolves to exactly one record for each entry of the listing whose
    type is [vc2], [vhf], [vhp] or [vdc], in the order of the listing;
    plans of any other type (bare metal and the like) are never
    emitted. *)
Theorem vultr_emits_the_compute_plans
  (env : Env) (up : VultrUpstream.t) (d1 : VultrPlansResponse.t) (d2 : VultrRegionsResponse.t) :
  unset env "VULTR_API_KEY" = false ->
  decoded (VultrUpstream.plans up) = Some d1 ->
  decoded (VultrUpstream.regions up) = Some d2 ->
  let kept :=
    List.filter (fun plan => existsb (String.eqb (VultrPlan.type plan))
                               ["vc2"; "vhf"; "vhp"; "vdc"])
      (VultrPlansResponse.plans d1) in
  exists plans,
    outcome (fetchVultrPlans env up) = inr plans
    /\ plans
       = map (Vultr.transform (Vultr.regionMap (VultrRegionsResponse.regions d2))) kept
    /\ map id plans = map (fun plan => "vultr-" +:+ VultrPlan.id plan) kept.
Proof.
  intros Hk H1 H2 kept. eexists. split; [eapply Vultr_success; eassumption |].
  split; [reflexivity |]. unfold Vultr.plans_of. rewrite map_map. reflexivity.
Qed.

Lemma Scaleway_keep_iff entry :
  Scaleway.keep entry = true
  <-> ScalewayServerType.baremetal (snd entry) <> Some true
      /\ (forall g, ScalewayServerType.gpu (snd entry) = Some g -> (g == 0)%Q).
Proof.
  unfold Scaleway.keep. destruct entry as [name server]. cbn [snd].
  rewrite andb_true_iff, negb_true_iff.
  assert (Hb : default false (ScalewayServerType.baremetal server) = false
               <-> ScalewayServerType.baremetal server <> Some true).
  { destruct (ScalewayServerType.baremetal server) as [[|] |]; cbn;
      split; congruence. }
  assert (Hg : match ScalewayServerType.gpu server with
               | Some g => Qeq_bool g 0 || Num.eqb (Fin g) (Fin 0)
               | None => true
               end = true
               <-> forall g, ScalewayServerType.gpu server = Some g -> (g == 0)%Q).
  { destruct (ScalewayServerType.gpu server) as [g |]; cbn.
    - rewrite orb_diag, Qeq_bool_iff. split.
      + intros H g' [= <-]. exact H.
      + intros H. now apply H.
    - split; [intros _ g; discriminate | reflexivity]. }
  rewrite Hb, Hg. reflexivity.
Qed.

(** X4. With the key set and the response decoded, the Scaleway adapter
    resolves to exactly one record for each entry of [servers] that is
    not bare metal and has no GPU ([gpu] absent or 0), in the order of
    the entries. *)
Theorem scaleway_emits_the_virtual_servers
  (env : Env) (up : ScalewayUpstream.t) (d1 : ScalewayServersResponse.t) :
  unset env "SCALEWAY_API_KEY" = false ->
  decoded (ScalewayUpstream.servers up) = Some d1 ->
  let kept :=
    List.filter
      (fun entry =>
         match ScalewayServerType.baremetal (snd entry) with
         | Some true => false
         | _ => true
         end
         && match ScalewayServerType.gpu (snd entry) with
            | Some g => Qeq_bool g 0
            | None => true
            end)
      (ScalewayServersResponse.servers d1) in
  exists plans,
    outcome (fetchScalewayPlans env up) = inr plans
    /\ plans = map Scaleway.transform kept
    /\ map id plans = map (fun entry => "scaleway-" +:+ Str.toLowerCase (fst entry)) kept.
Proof.
  intros Hk H1 kept. eexists. split; [eapply Scaleway_success; eassumption |].
  assert (E : List.filter Scaleway.keep (ScalewayServersResponse.servers d1) = kept).
  { apply List.filter_ext. intros [n server]. unfold Scaleway.keep. cbn [snd].
    destruct (ScalewayServerType.baremetal server) as [[|] |],
             (ScalewayServerType.gpu server) as [g |]; cbn; try reflexivity;
      apply orb_diag. }
  unfold Scaleway.plans_of. rewrite E. split; [reflexivity |].
  rewrite map_map. apply map_ext. now intros [n server].
Qed.

(** ** Hetzner: selection, and a server type without prices *)

Lemma Hetzner_selected_iff env l serverType :
  In serverType (Hetzner.selected env l)
  <-> In serverType l
      /\ HetznerServerType.deprecated serverType = false
      /\ (HetznerServerType.architecture serverType = "x86"
          \/ env !! "HETZNER_INCLUDE_ARM" = Some "true").
Proof.
  unfold Hetzner.selected, Hetzner.wanted_arch, Hetzner.not_deprecated, Hetzner.include_arm.
  rewrite !filter_In, orb_true_iff, negb_true_iff, String.eqb_eq.
  destruct (env !! "HETZNER_INCLUDE_ARM") as [v |] eqn:E.
  - rewrite String.eqb_eq. intuition congruence.
  - intuition congruence.
Qed.

Lemma transform_fails_iff locations serverType :
  (exists e, Hetzner.transform locations serverType = inl e)
  <-> HetznerServerType.prices serverType = [].
Proof.
  unfold Hetzner.transform, Hetzner.cheapestPrice, reduce.
  destruct (HetznerServerType.prices serverType); split; eauto;
    try discriminate; intros [e H]; discriminate.
Qed.

Lemma map_result_fails {A B} (f : A -> Result B) (l : list A) (x : A) :
  In x l -> (exists e, f x = inl e) -> exists e, map_result f l = inl e.
Proof.
  induction l as [| y l IH]; [intros [] |].
  intros [-> | Hx] Hf; cbn.
  - destruct Hf as [e ->]. eauto.
  - destruct (f y); [eauto |]. destruct (IH Hx Hf) as [e ->]. eauto.
Qed.

Lemma map_result_succeeds {A B} (f : A -> Result B) (l : list A) :
  (forall x, In x l -> exists y, f x = inr y) ->
  exists ys, map_result f l = inr ys /\ length ys = length l.
Proof.
  induction l as [| x l IH]; intros H; cbn; [eauto |].
  destruct (H x (or_introl eq_refl)) as [y ->].
  destruct IH as (ys & -> & Hl); [intros; apply H; now right |].
  exists (y :: ys). cbn. auto.
Qed.

(** X5. The Hetzner adapter only ever emits listed server types that
    are not deprecated and whose architecture is [x86], unless
    [HETZNER_INCLUDE_ARM] is exactly ["true"]. *)
Theorem hetzner_emits_only_selected_types
  (env : Env) (up : HetznerUpstream.t) (plans : list Plan) (p : Plan) :
  outcome (fetchHetznerPlans env up) = inr plans -> In p plans ->
  exists serverType,
    In serverType (hetzner_listed up)
    /\ Hetzner.transform (hetzner_locations up) serverType = inr p
    /\ HetznerServerType.deprecated serverType = false
    /\ (HetznerServerType.architecture serverType = "x86"
        \/ env !! "HETZNER_INCLUDE_ARM" = Some "true").
Proof.
  intros Ho Hp.
  destruct (Hetzner_outcome env up) as [H | (d1 & d2 & ps & H1 & H2 & Hps & H)];
    rewrite H in Ho; injection Ho as <-; [destruct Hp |].
  unfold Hetzner.plans_of in Hps.
  destruct (map_result_In _ _ _ _ Hps Hp) as (x & Hx & Hf).
  apply Hetzner_selected_iff in Hx as (Hx & Hd & Ha).
  exists x. unfold hetzner_listed, hetzner_locations. rewrite H1, H2. auto.
Qed.

(** X6. The Hetzner adapter is all or nothing.  With the key set and
    both responses decoded: if every selected server type has at least
    one price tier, one record per selected type is emitted and nothing
    is logged; if a single selected server type has an empty [prices]
    array, [reduce] throws, and the run resolves to the empty sequence
    with one error logged, whatever the other server types are. *)
Theorem hetzner_is_all_or_nothing
  (env : Env) (up : HetznerUpstream.t)
  (d1 : HetznerServerTypesResponse.t) (d2 : HetznerLocationsResponse.t) :
  unset env "HETZNER_API_KEY" = false ->
  decoded (HetznerUpstream.server_types up) = Some d1 ->
  decoded (HetznerUpstream.locations up) = Some d2 ->
  let selected :=
    Hetzner.selected env (default [] (HetznerServerTypesResponse.server_types d1)) in
  ((forall serverType, In serverType selected ->
      HetznerServerType.prices serverType <> []) ->
   exists plans,
     outcome (fetchHetznerPlans env up) = inr plans
     /\ map id plans
        = map (fun s => "hetzner-" +:+ Str.toLowerCase (HetznerServerType.name s)) selected
     /\ errors (trace (fetchHetznerPlans env up)) = 0%nat)
  /\ ((exists serverType, In serverType selected
         /\ HetznerServerType.prices serverType = []) ->
      outcome (fetchHetznerPlans env up) = inr []
      /\ errors (trace (fetchHetznerPlans env up)) = 1%nat).
Proof.
  intros Hk H1 H2 selected.
  pose proof (Hetzner_success env up d1 d2 Hk H1 H2) as Hrun.
  unfold outcome, trace. rewrite Hrun. unfold Hetzner.plans_of. fold selected. split.
  - intros Hall.
    destruct (map_result_succeeds
                (Hetzner.transform (default [] (HetznerLocationsResponse.locations d2)))
                selected) as (ps & Hps & _).
    { intros x Hx. destruct (Hetzner.transform _ x) as [e | y] eqn:E; [| eauto].
      exfalso. apply (Hall x Hx). eapply transform_fails_iff; eauto. }
    rewrite Hps. exists ps. cbn. repeat split. now apply Hetzner_ids in Hps.
  - intros (st & Hst & Hnil).
    destruct (map_result_fails
                (Hetzner.transform (default [] (HetznerLocationsResponse.locations d2)))
                selected st Hst) as [e He].
    { apply transform_fails_iff; exact Hnil. }
    rewrite He. cbn. split; reflexivity.
Qed.

(** ** Every emitted record is built by a transformation *)

Lemma emitted_is_built env net plans p :
  emitted_by_an_adapter env net plans -> In p plans -> built_by_an_adapter p.
Proof.
  intros He Hp. unfold built_by_an_adapter.
  destruct He as [Ho | [Ho | [Ho | [Ho | [Ho | Ho]]]]].
  - destruct (DO_emitted _ _ _ _ Ho Hp) as (? & ? & _ & ? & ->). eauto 8.
  - destruct (Hetzner_emitted _ _ _ _ Ho Hp) as (? & ? & _ & _ & Ht). eauto 8.
  - destruct (Linode_emitted _ _ _ Ho Hp) as (? & ? & _ & ? & ->). eauto 8.
  - destruct (Vultr_emitted _ _ _ _ Ho Hp) as (? & ? & _ & ? & ->). eauto 10.
  - destruct (UpCloud_emitted _ _ _ _ Ho Hp) as (? & ? & ? & _ & ->). eauto 12.
  - destruct (Scaleway_emitted _ _ _ _ Ho Hp) as (? & _ & ? & ->). eauto 12.
Qed.

Lemma loader_plan_is_emitted env net plans p :
  outcome (vpsPlans_loader env net) = inr plans -> In p plans ->
  exists plans', emitted_by_an_adapter env net plans' /\ In p plans'.
Proof.
  intros Ho Hp.
  destruct (loader_concatenates env net)
    as (l1 & l2 & l3 & l4 & l5 & l6 & H1 & H2 & H3 & H4 & H5 & H6 & H).
  rewrite H in Ho. injection Ho as <-. unfold emitted_by_an_adapter.
  repeat (apply in_app_or in Hp as [Hp | Hp]); eauto 12.
Qed.

Lemma loader_plan_is_built env net plans p :
  outcome (vpsPlans_loader env net) = inr plans -> In p plans -> built_by_an_adapter p.
Proof.
  intros Ho Hp. destruct (loader_plan_is_emitted _ _ _ _ Ho Hp) as (ps & He & Hps).
  eapply emitted_is_built; eauto.
Qed.

(** ** Vultr: the names of the locations *)

Lemma Vultr_regionMap_snoc regions r :
  Vultr.regionMap (regions ++ [r])
  = <[ VultrRegion.id r := VultrRegion.city r +:+ ", " +:+ VultrRegion.country r ]>
      (Vultr.regionMap regions).
Proof. unfold Vultr.regionMap. rewrite fold_left_app. reflexivity. Qed.

Lemma last_snoc {A} (l : list A) (x : A) : last (l ++ [x]) = Some x.
Proof. induction l as [| y [| z l] IH]; cbn in *; auto. Qed.

(** The map built by [forEach] holds, for each id, the name of the last
    region with that id. *)
Lemma Vultr_regionMap_lookup regions locId :
  Vultr.regionMap regions !! locId
  = (fun r => VultrRegion.city r +:+ ", " +:+ VultrRegion.country r)
      <$> last (List.filter (fun r => String.eqb (VultrRegion.id r) locId) regions).
Proof.
  induction regions as [| r regions IH] using rev_ind; [reflexivity |].
  rewrite Vultr_regionMap_snoc, List.filter_app. cbn [List.filter].
  destruct (String.eqb_spec (VultrRegion.id r) locId) as [-> | Hne].
  - rewrite lookup_insert_eq, last_snoc. reflexivity.
  - rewrite lookup_insert_ne by exact Hne. rewrite app_nil_r. exact IH.
Qed.

Lemma truthy_append_r (s t : string) : Str.truthy t = true -> Str.truthy (s +:+ t) = true.
Proof. destruct s; cbn; auto. Qed.

(** X7. The locations of a Vultr record are the first ten location ids
    of the plan, in order, each replaced by the ["city, country"] of the
    region with that id (the last one, should the id be listed twice)
    and left as it is when no region has that id. *)
Theorem vultr_locations_are_region_names (regions : list VultrRegion.t) (plan : VultrPlan.t) :
  locations (Vultr.transform (Vultr.regionMap regions) plan)
  = map (vultr_region_name regions) (take 10 (VultrPlan.locations plan)).
Proof.
  cbn [locations Vultr.transform]. unfold slice0. apply map_ext. intros locId.
  unfold Vultr.location_name, vultr_region_name. rewrite Vultr_regionMap_lookup.
  destruct (last _) as [r |]; cbn; [| reflexivity].
  rewrite truthy_append_r; [reflexivity |]. reflexivity.
Qed.

(** ** Labels derived from the plan type *)

(** X8. On a Vultr record of a kept plan, the labels derived from the
    plan type agree: the CPU is a dedicated one ([CPU]) exactly for the
    records that list "Dedicated CPU" and carry the tag "dedicated", and
    the storage type is NVMe exactly for those that list "NVMe
    Storage", SSD exactly for those that list "100% SSD Storage". *)
Theorem vultr_type_labels_agree (m : gmap string string) (plan : VultrPlan.t) :
  Vultr.keep plan = true ->
  let p := Vultr.transform m plan in
  (cpu_type (cpu (specs p)) = "CPU" <-> In "Dedicated CPU" (features p))
  /\ (cpu_type (cpu (specs p)) = "CPU" <-> In "dedicated" (tags p))
  /\ (storage_type (storage (specs p)) = "NVMe" <-> In "NVMe Storage" (features p))
  /\ (storage_type (storage (specs p)) = "SSD" <-> In "100% SSD Storage" (features p)).
Proof.
  intros Hk. apply includes_In in Hk.
  cbn [Vultr.transform specs cpu cpu_type storage storage_type features tags].
  unfold Vultr.features_of, Vultr.tags_of, push_if.
  destruct Hk as [E | [E | [E | [E | []]]]]; rewrite <- E; cbn [String.eqb Ascii.eqb Bool.eqb andb orb];
    split_ifs; decide_labels.
Qed.

(** X9. The labels derived from one signal agree on every record.
    Linode: the CPU type is [CPU] exactly when the class is [dedicated],
    exactly when "Dedicated CPU" is listed and the tag "dedicated" is
    set.  UpCloud: the storage type is NVMe exactly when the tier is
    [maxiops], exactly when "NVMe Storage" is listed and the tag
    "nvme-storage" is set.  Scaleway: the storage type is NVMe exactly
    when "NVMe Storage" is listed and the tag "high-performance" is
    set. *)
Theorem derived_labels_agree :
  (forall regions type,
      let p := Linode.transform regions type in
      (cpu_type (cpu (specs p)) = "CPU" <-> LinodeType.class type = "dedicated")
      /\ (cpu_type (cpu (specs p)) = "CPU" <-> In "Dedicated CPU" (features p))
      /\ (cpu_type (cpu (specs p)) = "CPU" <-> In "dedicated" (tags p)))
  /\ (forall pricingData zones plan,
        let p := UpCloud.transform pricingData zones plan in
        (storage_type (storage (specs p)) = "NVMe"
         <-> UpCloudPlan.storage_tier plan = "maxiops")
        /\ (storage_type (storage (specs p)) = "NVMe" <-> In "NVMe Storage" (features p))
        /\ (storage_type (storage (specs p)) = "NVMe" <-> In "nvme-storage" (tags p)))
  /\ (forall entry,
        let p := Scaleway.transform entry in
        (storage_type (storage (specs p)) = "NVMe" <-> In "NVMe Storage" (features p))
        /\ (storage_type (storage (specs p)) = "NVMe" <-> In "high-performance" (tags p))).
Proof.
  split; [| split].
  - intros regions type.
    cbn [Linode.transform specs cpu cpu_type features tags].
    unfold Linode.getClassFeatures, Linode.tags_of, Linode.baseFeatures, push_if.
    case_eqb (LinodeType.class type) "dedicated".
    + split_ifs; decide_labels.
    + repeat match goal with
             | |- context [String.eqb ?s ?t] =>
                 destruct (String.eqb_spec s t); try congruence
             end; split_ifs; decide_labels.
  - intros pricingData zones plan. unfold UpCloud.transform.
    cbn [UpCloud.record specs storage storage_type features tags].
    unfold UpCloud.features_of, UpCloud.tags_of, push_if.
    destruct (String.eqb_spec (UpCloudPlan.storage_tier plan) "maxiops");
      split_ifs; decide_labels.
  - intros [name server].
    cbn [Scaleway.transform specs storage storage_type features tags].
    unfold Scaleway.tags_of, push_if.
    destruct (Str.includes name "GP1" || Str.includes name "PRO");
      cbn [String.eqb Ascii.eqb Bool.eqb andb orb]; split_ifs; decide_labels.
Qed.

(** ** Tags and features *)

Lemma DO_labels_NoDup regions size :
  NoDup (tags (DigitalOcean.transform regions size))
  /\ NoDup (features (DigitalOcean.transform regions size)).
Proof.
  cbn [DigitalOcean.transform tags features]. unfold DigitalOcean.tags_of, push_if.
  split; split_ifs; decide_NoDup.
Qed.

Lemma Linode_labels_NoDup regions type :
  NoDup (tags (Linode.transform regions type))
  /\ NoDup (features (Linode.transform regions type)).
Proof.
  cbn [Linode.transform tags features].
  unfold Linode.tags_of, Linode.getClassFeatures, Linode.baseFeatures, push_if.
  split.
  - repeat match goal with
           | |- context [String.eqb ?s ?t] => case_eqb s t
           end; split_ifs; decide_NoDup.
  - split_ifs; decide_NoDup.
Qed.

Lemma Hetzner_labels_NoDup locations serverType p :
  Hetzner.transform locations serverType = inr p -> NoDup (tags p) /\ NoDup (features p).
Proof.
  unfold Hetzner.transform. destruct (Hetzner.cheapestPrice _); [discriminate |].
  intros [= <-]. cbn [tags features]. unfold Hetzner.tags_of, push_if.
  split; split_ifs; decide_NoDup.
Qed.

Lemma Vultr_labels_NoDup m plan :
  NoDup (tags (Vultr.transform m plan)) /\ NoDup (features (Vultr.transform m plan)).
Proof.
  cbn [Vultr.transform tags features]. unfold Vultr.tags_of, Vultr.features_of, push_if.
  split.
  - case_eqb (VultrPlan.type plan) "vdc"; [split_ifs; decide_NoDup |].
    case_eqb (VultrPlan.type plan) "vhf"; [split_ifs; decide_NoDup |].
    case_eqb (VultrPlan.type plan) "vhp"; split_ifs; decide_NoDup.
  - split_ifs; decide_NoDup.
Qed.

Lemma UpCloud_labels_NoDup pricingData zones plan :
  NoDup (tags (UpCloud.transform pricingData zones plan))
  /\ NoDup (features (UpCloud.transform pricingData zones plan)).
Proof.
  unfold UpCloud.transform. cbn [UpCloud.record tags features].
  unfold UpCloud.tags_of, UpCloud.features_of, push_if.
  split; split_ifs; decide_NoDup.
Qed.

Lemma Scaleway_labels_NoDup entry :
  NoDup (tags (Scaleway.transform entry)) /\ NoDup (features (Scaleway.transform entry)).
Proof.
  destruct entry as [name server]. cbn [Scaleway.transform tags features].
  unfold Scaleway.tags_of, push_if.
  split; [split_ifs; decide_NoDup |].
  destruct (Str.includes name "GP1" || Str.includes name "PRO");
    cbn [String.eqb Ascii.eqb Bool.eqb andb orb]; decide_NoDup.
Qed.

(** X10. No record in the output of the loader lists a feature or a tag
    twice. *)
Theorem labels_are_never_repeated (env : Env) (net : Network) (plans : list Plan) (p : Plan) :
  outcome (vpsPlans_loader env net) = inr plans -> In p plans ->
  NoDup (tags p) /\ NoDup (features p).
Proof.
  intros Ho Hp.
  destruct (loader_plan_is_built _ _ _ _ Ho Hp)
    as [(? & ? & _ & ->) | [(? & ? & Ht) | [(? & ? & _ & ->) | [(? & ? & _ & ->)
        | [(? & ? & ? & ->) | (? & _ & ->)]]]]].
  - apply DO_labels_NoDup.
  - eapply Hetzner_labels_NoDup; eauto.
  - apply Linode_labels_NoDup.
  - apply Vultr_labels_NoDup.
  - apply UpCloud_labels_NoDup.
  - apply Scaleway_labels_NoDup.
Qed.

(** X11. In the output of the loader, a record tagged "ultra-budget" is
    always tagged "budget" as well. *)
Theorem ultra_budget_implies_budget (env : Env) (net : Network) (plans : list Plan) (p : Plan) :
  outcome (vpsPlans_loader env net) = inr plans -> In p plans ->
  In "ultra-budget" (tags p) -> In "budget" (tags p).
Proof.
  intros Ho Hp.
  destruct (loader_plan_is_built _ _ _ _ Ho Hp)
    as [(? & ? & _ & ->) | [(? & st & Ht) | [(? & ? & _ & ->) | [(? & ? & _ & ->)
        | [(? & ? & ? & ->) | ([? ?] & _ & ->)]]]]].
  - cbn [DigitalOcean.transform tags]. unfold DigitalOcean.tags_of, push_if.
    decide_tag_implication.
  - unfold Hetzner.transform in Ht. destruct (Hetzner.cheapestPrice _); [discriminate |].
    injection Ht as <-. cbn [tags]. unfold Hetzner.tags_of, push_if.
    decide_tag_implication.
  - cbn [Linode.transform tags]. unfold Linode.tags_of, push_if.
    decide_tag_implication.
  - cbn [Vultr.transform tags]. unfold Vultr.tags_of, push_if.
    decide_tag_implication.
  - unfold UpCloud.transform. cbn [UpCloud.record tags]. unfold UpCloud.tags_of, push_if.
    decide_tag_implication.
  - cbn [Scaleway.transform tags]. unfold Scaleway.tags_of, push_if.
    decide_tag_implication.
Qed.

(** ** Featured plans *)

(** X12. In the output of the loader, only records with one of
    seventeen fixed ids are ever marked as featured. *)
Theorem featured_plans_are_on_the_allow_list
  (env : Env) (net : Network) (plans : list Plan) (p : Plan) :
  outcome (vpsPlans_loader env net) = inr plans -> In p plans ->
  featured p = true -> In (id p) featured_ids.
Proof.
  intros Ho Hp.
  destruct (loader_plan_is_built _ _ _ _ Ho Hp)
    as [(? & ? & _ & ->) | [(? & st & Ht) | [(? & ? & _ & ->) | [(? & ? & _ & ->)
        | [(? & ? & ? & ->) | ([? ?] & _ & ->)]]]]].
  - cbn [DigitalOcean.transform featured id]. intros H. pick_featured H.
  - unfold Hetzner.transform in Ht. destruct (Hetzner.cheapestPrice _); [discriminate |].
    injection Ht as <-. cbn [featured id]. intros H. pick_featured H.
  - cbn [Linode.transform featured id]. intros H. pick_featured H.
  - cbn [Vultr.transform featured id]. intros H. pick_featured H.
  - unfold UpCloud.transform. cbn [UpCloud.record featured id]. intros H. pick_featured H.
  - cbn [Scaleway.transform featured id]. intros H. pick_featured H.
Qed.

(** ** Prices computed by the adapters *)

Lemma round_to_cents (y : Q) :
  let m := (inject_Z (Qfloor (y * 100 + (1 # 2))) / 100)%Q in
  (y - (1 # 200) < m)%Q /\ (m <= y + (1 # 200))%Q.
Proof.
  cbn zeta.
  pose proof (Qfloor_le (y * 100 + (1 # 2))) as Hle.
  pose proof (Qlt_floor (y * 100 + (1 # 2))) as Hlt.
  rewrite inject_Z_plus in Hlt.
  set (f := inject_Z (Qfloor (y * 100 + (1 # 2)))) in *.
  change (inject_Z 1) with 1%Q in Hlt.
  split.
  - apply Qlt_shift_div_l; [reflexivity |]. lra.
  - apply Qle_shift_div_r; [reflexivity |]. lra.
Qed.

(** X14. The monthly price of a Scaleway record is an estimate from the
    core count and the memory alone: a whole number of cents within half
    a cent of 3.5 per core plus 2.5 per GiB of memory.  The
    [monthly_price] and [hourly_price] of the provider's answer play no
    part in it.  With at least one core and no negative memory it is
    positive. *)
Theorem scaleway_price_is_an_estimate
  (name arch : string) (ncpus ram : Q) (vc : VolumesConstraint.t)
  (monthly_price hourly_price : option Q) (baremetal : option bool) (gpu : option Q) :
  let server :=
    ScalewayServerType.mk name arch ncpus ram vc monthly_price hourly_price baremetal gpu in
  let estimate := ((35 # 10) * ncpus + (25 # 10) * (ram / Scaleway.GiB))%Q in
  exists (cents : Z),
    monthly (price (Scaleway.transform (name, server))) = Fin (inject_Z cents / 100)
    /\ (estimate - (1 # 200) < inject_Z cents / 100)%Q
    /\ (inject_Z cents / 100 <= estimate + (1 # 200))%Q
    /\ (forall monthly_price' hourly_price',
          price (Scaleway.transform
                   (name, ScalewayServerType.mk name arch ncpus ram vc
                            monthly_price' hourly_price' baremetal gpu))
          = price (Scaleway.transform (name, server)))
    /\ ((1 <= ncpus)%Q -> (0 <= ram)%Q -> (0 < inject_Z cents / 100)%Q).
Proof.
  intros server estimate.
  exists (Qfloor ((ncpus * (35 # 10) + ram / Scaleway.GiB * (25 # 10)) * 100 + (1 # 2))).
  split; [reflexivity |].
  destruct (round_to_cents (ncpus * (35 # 10) + ram / Scaleway.GiB * (25 # 10)))
    as [H1 H2].
  unfold estimate. split; [lra |]. split; [lra |]. split; [reflexivity |].
  intros Hn Hr.
  assert (0 <= ram / Scaleway.GiB)%Q.
  { apply Qle_shift_div_l; [reflexivity | lra]. }
  lra.
Qed.

(** ** Linode: a disk below 1024 MB *)

(** X15. A Linode type whose disk is below 1024 (MB) gets the storage
    unit "MB", which is not one of the units of [vpsSchema]: the record
    is reported with an issue at [specs.storage.unit].  From 1024 on the
    unit is "GB" and the amount the disk divided by 1024. *)
Theorem linode_small_disk_is_rejected (regions : list LinodeRegion.t) (type : LinodeType.t) :
  let p := Linode.transform regions type in
  ((LinodeType.disk type < 1024)%Q ->
   storage (specs p)
   = {| storage_amount := Fin (LinodeType.disk type);
        storage_unit := "MB"; storage_type := "SSD" |}
   /\ In (vpsSchema.mkIssue vpsSchema.invalid_enum_value ["specs"; "storage"; "unit"] None)
         (vpsSchema.validate p))
  /\ ((1024 <= LinodeType.disk type)%Q ->
      storage (specs p)
      = {| storage_amount := Fin (LinodeType.disk type / 1024);
           storage_unit := "GB"; storage_type := "SSD" |}).
Proof.
  cbn zeta. split; intros Hd.
  - assert (G : Num.ge (Fin (LinodeType.disk type)) (Fin 1024) = false).
    { destruct (Num.ge _ _) eqn:E; [| reflexivity].
      apply Num_ge_Fin in E. lra. }
    assert (S : storage (specs (Linode.transform regions type))
                = {| storage_amount := Fin (LinodeType.disk type);
                     storage_unit := "MB"; storage_type := "SSD" |}).
    { cbn [Linode.transform specs storage]. rewrite G. reflexivity. }
    split; [exact S |].
    unfold vpsSchema.validate. rewrite S. cbn [storage_unit].
    rewrite !in_app_iff. do 10 right. left. left. reflexivity.
  - assert (G : Num.ge (Fin (LinodeType.disk type)) (Fin 1024) = true)
      by now apply Num_ge_Fin.
    cbn [Linode.transform specs storage]. rewrite G. reflexivity.
Qed.

(** ** The events of a run of the loader *)

Lemma errors_app tr1 tr2 : errors (tr1 ++ tr2) = (errors tr1 + errors tr2)%nat.
Proof. unfold errors. now rewrite List.filter_app, length_app. Qed.

Lemma warnings_app tr1 tr2 : warnings (tr1 ++ tr2) = (warnings tr1 + warnings tr2)%nat.
Proof. unfold warnings. now rewrite List.filter_app, length_app. Qed.

Lemma urls_app tr1 tr2 : urls (tr1 ++ tr2) = urls tr1 ++ urls tr2.
Proof. unfold urls. apply flat_map_app. Qed.

Lemma logs_are_silent summary :
  forallb is_log summary = true ->
  errors summary = 0%nat /\ warnings summary = 0%nat /\ urls summary = [].
Proof.
  induction summary as [| e s IH]; [auto |]. cbn [forallb].
  intros [He Hs]%andb_true_iff. destruct e; try discriminate.
  destruct (IH Hs) as (? & ? & ?). auto.
Qed.

(** The trace of the loader: its opening line, the events of the six
    adapters in registration order, and its summary lines. *)
Lemma loader_trace (env : Env) (net : Network) :
  exists opening summary,
    forallb is_log (opening ++ summary) = true
    /\ trace (vpsPlans_loader env net)
       = opening
         ++ trace (fetchDigitalOceanPlans env (digitalocean net))
         ++ trace (fetchHetznerPlans env (hetzner net))
         ++ trace (fetchLinodePlans (linode net))
         ++ trace (fetchVultrPlans env (vultr net))
         ++ trace (fetchUpCloudPlans env (upcloud net))
         ++ trace (fetchScalewayPlans env (scaleway net))
         ++ summary.
Proof.
  destruct (loader_concatenates env net)
    as (l1 & l2 & l3 & l4 & l5 & l6 & H1 & H2 & H3 & H4 & H5 & H6 & _).
  eexists [ConsoleLog _], _. split; cycle 1.
  - unfold vpsPlans_loader. unfold trace at 1.
    unfold run, bind, spawn, console_log, emit.
    rewrite DO_frame, H1. rewrite Hetzner_frame, H2. rewrite Linode_frame, H3.
    rewrite Vultr_frame, H4. rewrite UpCloud_frame, H5. rewrite Scaleway_frame, H6.
    unfold aggregate, bind.
    change [inr l1; inr l2; inr l3; inr l4; inr l5; inr l6]
      with (map (@inr exn (list Plan)) [l1; l2; l3; l4; l5; l6]).
    rewrite Promise_all_resolved.
    cbn. rewrite <- !app_assoc. cbn. reflexivity.
  - reflexivity.
Qed.

Lemma loader_counts (env : Env) (net : Network) :
  errors (trace (vpsPlans_loader env net))
  = (errors (trace (fetchDigitalOceanPlans env (digitalocean net)))
     + errors (trace (fetchHetznerPlans env (hetzner net)))
     + errors (trace (fetchLinodePlans (linode net)))
     + errors (trace (fetchVultrPlans env (vultr net)))
     + errors (trace (fetchUpCloudPlans env (upcloud net)))
     + errors (trace (fetchScalewayPlans env (scaleway net))))%nat
  /\ warnings (trace (vpsPlans_loader env net))
     = (warnings (trace (fetchDigitalOceanPlans env (digitalocean net)))
        + warnings (trace (fetchHetznerPlans env (hetzner net)))
        + warnings (trace (fetchLinodePlans (linode net)))
        + warnings (trace (fetchVultrPlans env (vultr net)))
        + warnings (trace (fetchUpCloudPlans env (upcloud net)))
        + warnings (trace (fetchScalewayPlans env (scaleway net))))%nat
  /\ urls (trace (vpsPlans_loader env net))
     = urls (trace (fetchDigitalOceanPlans env (digitalocean net)))
       ++ urls (trace (fetchHetznerPlans env (hetzner net)))
       ++ urls (trace (fetchLinodePlans (linode net)))
       ++ urls (trace (fetchVultrPlans env (vultr net)))
       ++ urls (trace (fetchUpCloudPlans env (upcloud net)))
       ++ urls (trace (fetchScalewayPlans env (scaleway net))).
Proof.
  destruct (loader_trace env net) as (opening & summary & Hlog & ->).
  rewrite forallb_app in Hlog. apply andb_true_iff in Hlog as [Ho Hs].
  destruct (logs_are_silent _ Ho) as (Eo & Wo & Uo).
  destruct (logs_are_silent _ Hs) as (Es & Ws & Us).
  rewrite !errors_app, !warnings_app, !urls_app, Eo, Wo, Uo, Es, Ws, Us, !app_nil_r.
  cbn [app]. repeat split; lia.
Qed.

(** ** The requests of an adapter do not depend on the answers *)

Lemma DO_urls env up :
  unset env "DIGITALOCEAN_API_KEY" = false ->
  urls (trace (fetchDigitalOceanPlans env up))
  = ["https://api.digitalocean.com/v2/sizes"; "https://api.digitalocean.com/v2/regions"].
Proof.
  intros Hk. unfold fetchDigitalOceanPlans, DigitalOcean.body. rewrite Hk.
  destruct up as [? ? s r]. split_promise s; split_promise r; all_cases.
Qed.

Lemma Hetzner_urls env up :
  unset env "HETZNER_API_KEY" = false ->
  urls (trace (fetchHetznerPlans env up))
  = ["https://api.hetzner.cloud/v1/server_types"; "https://api.hetzner.cloud/v1/locations"].
Proof.
  intros Hk. unfold fetchHetznerPlans, Hetzner.body. rewrite Hk.
  destruct up as [? ? s r]. split_promise s; split_promise r; all_cases.
  destruct (Hetzner.plans_of env body body0); reflexivity.
Qed.

Lemma Linode_urls up :
  urls (trace (fetchLinodePlans up))
  = ["https://api.linode.com/v4/linode/types"; "https://api.linode.com/v4/regions"]
  /\ warnings (trace (fetchLinodePlans up)) = 0%nat.
Proof.
  unfold fetchLinodePlans, Linode.body.
  destruct up as [? ? s r]. split_promise s; split_promise r; step_run; split; reflexivity.
Qed.

Lemma Vultr_urls env up :
  unset env "VULTR_API_KEY" = false ->
  urls (trace (fetchVultrPlans env up))
  = ["https://api.vultr.com/v2/plans"; "https://api.vultr.com/v2/regions"].
Proof.
  intros Hk. unfold fetchVultrPlans, Vultr.body. rewrite Hk.
  destruct up as [? s r]. split_promise s; split_promise r; all_cases.
Qed.

Lemma UpCloud_urls env up :
  unset env "UPCLOUD_USERNAME" = false -> unset env "UPCLOUD_PASSWORD" = false ->
  urls (trace (fetchUpCloudPlans env up))
  = ["https://api.upcloud.com/1.3/plan"; "https://api.upcloud.com/1.3/price";
     "https://api.upcloud.com/1.3/zone"].
Proof.
  intros Hu Hp. unfold fetchUpCloudPlans, UpCloud.body. rewrite Hu, Hp.
  destruct up as [? s r z]. split_promise s; split_promise r; split_promise z; all_cases.
Qed.

Lemma Scaleway_urls env up :
  unset env "SCALEWAY_API_KEY" = false ->
  urls (trace (fetchScalewayPlans env up))
  = ["https://api.scaleway.com/instance/v1/zones/fr-par-1/products/servers"].
Proof.
  intros Hk. unfold fetchScalewayPlans, Scaleway.body. rewrite Hk.
  destruct up as [s]. split_promise s; all_cases.
Qed.

(** X16. With every credential set, a run of the loader issues the same
    twelve requests, in the same order, whatever the providers answer:
    each adapter issues all its requests before it looks at any
    response. *)
Theorem loader_always_issues_twelve_requests (env : Env) (net : Network) :
  unset env "DIGITALOCEAN_API_KEY" = false ->
  unset env "HETZNER_API_KEY" = false ->
  unset env "VULTR_API_KEY" = false ->
  unset env "UPCLOUD_USERNAME" = false ->
  unset env "UPCLOUD_PASSWORD" = false ->
  unset env "SCALEWAY_API_KEY" = false ->
  urls (trace (vpsPlans_loader env net)) = all_urls.
Proof.
  intros K1 K2 K3 K4 K5 K6.
  destruct (loader_counts env net) as (_ & _ & ->).
  rewrite DO_urls, Hetzner_urls, (proj1 (Linode_urls _)), Vultr_urls, UpCloud_urls,
    Scaleway_urls by assumption.
  reflexivity.
Qed.

(** X17. With none of the credentials set, the loader still resolves:
    it issues only the two requests of Linode (which needs no key),
    warns once for each of the five other providers, and returns
    exactly what the Linode adapter returns. *)
Theorem loader_without_credentials_serves_linode (env : Env) (net : Network) :
  unset env "DIGITALOCEAN_API_KEY" = true ->
  unset env "HETZNER_API_KEY" = true ->
  unset env "VULTR_API_KEY" = true ->
  unset env "UPCLOUD_USERNAME" = true \/ unset env "UPCLOUD_PASSWORD" = true ->
  unset env "SCALEWAY_API_KEY" = true ->
  outcome (vpsPlans_loader env net) = outcome (fetchLinodePlans (linode net))
  /\ urls (trace (vpsPlans_loader env net))
     = ["https://api.linode.com/v4/linode/types"; "https://api.linode.com/v4/regions"]
  /\ warnings (trace (vpsPlans_loader env net)) = 5%nat.
Proof.
  intros K1 K2 K3 K4 K5.
  assert (K4' : unset env "UPCLOUD_USERNAME" || unset env "UPCLOUD_PASSWORD" = true)
    by (destruct K4 as [-> | ->]; [reflexivity | apply orb_true_r]).
  destruct (loader_concatenates env net)
    as (l1 & l2 & l3 & l4 & l5 & l6 & H1 & H2 & H3 & H4 & H5 & H6 & ->).
  destruct (loader_counts env net) as (_ & -> & ->).
  destruct (Linode_urls (linode net)) as [-> ->].
  rewrite H3.
  unfold fetchDigitalOceanPlans, fetchHetznerPlans, fetchVultrPlans, fetchUpCloudPlans,
    fetchScalewayPlans in *.
  rewrite ?K1, ?K2, ?K3, ?K4', ?K5 in *.
  cbn in H1, H2, H4, H5, H6.
  injection H1 as <-. injection H2 as <-. injection H4 as <-. injection H5 as <-.
  injection H6 as <-.
  cbn. rewrite app_nil_r. repeat split.
Qed.

(** X18. A total outage degrades to an empty collection: when every
    adapter has its credentials and fails (an unsuccessful response, or
    an exception anywhere in its [try] block), the loader resolves to
    the empty sequence, with exactly six errors logged. *)
Theorem total_outage_gives_an_empty_collection (env : Env) (net : Network) :
  (forall r, In r (adapter_runs env net) -> configured env r = true /\ failing r) ->
  outcome (vpsPlans_loader env net) = inr []
  /\ errors (trace (vpsPlans_loader env net)) = 6%nat.
Proof.
  intros Hall.
  assert (H1 : contained (fetchDigitalOceanPlans env (digitalocean net))).
  { destruct (Hall _ (or_introl eq_refl)) as [Hc Hf].
    apply unset_configured in Hc. now apply DO_contained. }
  assert (H2 : contained (fetchHetznerPlans env (hetzner net))).
  { destruct (Hall _ (or_intror (or_introl eq_refl))) as [Hc Hf].
    apply unset_configured in Hc. now apply Hetzner_contained. }
  assert (H3 : contained (fetchLinodePlans (linode net))).
  { destruct (Hall _ (or_intror (or_intror (or_introl eq_refl)))) as [Hc Hf].
    now apply Linode_contained. }
  assert (H4 : contained (fetchVultrPlans env (vultr net))).
  { destruct (Hall _ (or_intror (or_intror (or_intror (or_introl eq_refl))))) as [Hc Hf].
    apply unset_configured in Hc. now apply Vultr_contained. }
  assert (H5 : contained (fetchUpCloudPlans env (upcloud net))).
  { destruct (Hall _ (or_intror (or_intror (or_intror (or_intror (or_introl eq_refl))))))
      as [Hc Hf].
    apply UpCloud_contained; [| exact Hf]. unfold configured in Hc. cbn in Hc.
    destruct (unset env "UPCLOUD_USERNAME"), (unset env "UPCLOUD_PASSWORD");
      try discriminate; reflexivity. }
  assert (H6 : contained (fetchScalewayPlans env (scaleway net))).
  { destruct (Hall _ (or_intror (or_intror (or_intror (or_intror
                        (or_intror (or_introl eq_refl))))))) as [Hc Hf].
    apply unset_configured in Hc. now apply Scaleway_contained. }
  destruct H1 as [O1 E1], H2 as [O2 E2], H3 as [O3 E3], H4 as [O4 E4],
    H5 as [O5 E5], H6 as [O6 E6].
  destruct (loader_concatenates env net)
    as (l1 & l2 & l3 & l4 & l5 & l6 & H1 & H2 & H3 & H4 & H5 & H6 & ->).
  destruct (loader_counts env net) as (-> & _ & _).
  rewrite O1 in H1. rewrite O2 in H2. rewrite O3 in H3. rewrite O4 in H4.
  rewrite O5 in H5. rewrite O6 in H6.
  injection H1 as <-. injection H2 as <-. injection H3 as <-. injection H4 as <-.
  injection H5 as <-. injection H6 as <-.
  rewrite E1, E2, E3, E4, E5, E6. split; reflexivity.
Qed.

(** ** DigitalOcean: the locations of a size *)

(** X19. Every location of a DigitalOcean record is the name of a
    region of the regions response that is available and whose slug the
    size lists.  A size for which there is no such region is still
    emitted, with no location, and the schema reports it ("At least one
    location is required"). *)
Theorem digitalocean_locations_are_available_regions
  (regions : list DORegion.t) (size : DOSize.t) :
  let p := DigitalOcean.transform regions size in
  (forall loc, In loc (locations p) ->
     exists region,
       In region regions /\ DORegion.name region = loc
       /\ DORegion.available region = true
       /\ In (DORegion.slug region) (DOSize.regions size))
  /\ ((forall region, In region regions -> DORegion.available region = true ->
         ~ In (DORegion.slug region) (DOSize.regions size)) ->
      locations p = []
      /\ In (vpsSchema.mkIssue vpsSchema.too_small ["locations"]
               (Some "At least one location is required"))
            (vpsSchema.validate p)).
Proof.
  cbn zeta. cbn [DigitalOcean.transform locations]. unfold slice0, DigitalOcean.availableRegions.
  split.
  - intros loc Hloc. apply list_elem_of_In in Hloc. apply elem_of_take in Hloc as (i & Hloc & _).
    apply list_elem_of_lookup_2 in Hloc. apply list_elem_of_In in Hloc.
    apply in_map_iff in Hloc as (region & <- & Hr).
    apply filter_In in Hr as [Hr Hc]. apply andb_true_iff in Hc as [Ha Hs].
    apply includes_In in Hs. eauto.
  - intros Hnone.
    assert (E : List.filter
                  (fun region => DORegion.available region
                                 && includes (DOSize.regions size) (DORegion.slug region))
                  regions = []).
    { induction regions as [| r rs IH]; [reflexivity |]. cbn.
      destruct (DORegion.available r) eqn:Ha; cbn.
      - destruct (includes _ _) eqn:Hs.
        + exfalso. apply (Hnone r (or_introl eq_refl) Ha). now apply includes_In.
        + apply IH. intros; apply Hnone; auto. now right.
      - apply IH. intros; apply Hnone; auto. now right. }
    assert (L : locations (DigitalOcean.transform regions size) = []).
    { cbn [DigitalOcean.transform locations].
      unfold slice0, DigitalOcean.availableRegions. rewrite E. reflexivity. }
    split; [rewrite E; reflexivity |].
    unfold vpsSchema.validate. rewrite L.
    rewrite !in_app_iff. do 15 right. left. left. reflexivity.
Qed.

(** ** Hetzner: price texts that are not numbers *)

(** X20. Price texts that do not read as numbers.  When the first tier
    of a server type reads as a number, unreadable later tiers are
    skipped: the monthly price is a number, no greater than any readable
    tier.  When the first tier does not read as a number it stays
    selected whatever follows: the monthly price is [NaN], and the
    schema reports the record at [price.monthly]. *)
Theorem hetzner_unreadable_price_texts
  (locations : list HetznerLocation.t) (serverType : HetznerServerType.t)
  (first : HetznerPrice.t) (rest : list HetznerPrice.t) :
  HetznerServerType.prices serverType = first :: rest ->
  exists p,
    Hetzner.transform locations serverType = inr p
    /\ (numeric first ->
        Num.isNaN (monthly (price p)) = false
        /\ forall t, In t (first :: rest) -> numeric t ->
                     Num.le (monthly (price p)) (Hetzner.value t) = true)
    /\ (Hetzner.value first = NaN ->
        monthly (price p) = NaN
        /\ In (vpsSchema.mkIssue vpsSchema.invalid_type ["price"; "monthly"] None)
              (vpsSchema.validate p)).
Proof.
  intros Hp. unfold Hetzner.transform, Hetzner.cheapestPrice, reduce. rewrite Hp.
  eexists. split; [reflexivity |]. cbn [price monthly]. split.
  - intros Hn. destruct (fold_cheaper_numeric rest first Hn) as (Hm & Hle & Hall).
    split; [exact Hm |]. intros t [<- | Ht] Ht'; auto.
  - intros Hnan. rewrite (fold_cheaper_unreadable rest first Hnan). split; [exact Hnan |].
    unfold vpsSchema.validate. cbn [price monthly]. rewrite Hnan.
    rewrite !in_app_iff. do 3 right. left. left. reflexivity.
Qed.

(** ** UpCloud: the zone the prices are read from *)

(** X21. The UpCloud adapter reads prices from the first zone of the
    pricing response only: the zones after it never change a record, and
    a plan priced only in a later zone is emitted with the price 0. *)
Theorem upcloud_prices_come_from_the_first_zone
  (zone : string) (items : list (string * string))
  (others : list (string * list (string * string)))
  (zones : list string) (plan : UpCloudPlan.t) :
  UpCloud.transform (UpCloudPricing.mk ((zone, items) :: others)) zones plan
  = UpCloud.transform (UpCloudPricing.mk [(zone, items)]) zones plan
  /\ (property items ("server_plan_" +:+ UpCloudPlan.name plan) = None ->
      Num.equiv
        (monthly (price (UpCloud.transform (UpCloudPricing.mk ((zone, items) :: others))
                           zones plan)))
        (Fin 0)).
Proof.
  unfold UpCloud.transform, UpCloud.hourlyPrice, UpCloud.planPricing.
  cbn [UpCloudPricing.zone map fst head property]. rewrite String.eqb_refl.
  split; [reflexivity |]. intros ->. reflexivity.
Qed.

(** ** The custom loader *)



Lemma mapi_result_nth {A B} (f : A -> nat -> Result B) (l : list A) :
  forall index ys,
    mapi_result f index l = inr ys ->
    forall k x y, nth_error l k = Some x -> nth_error ys k = Some y ->
                  f x (index + k)%nat = inr y.
Proof.
  induction l as [| x l IH]; intros index ys; cbn.
  - intros _ [| k]; discriminate.
  - destruct (f x index) eqn:Ex; [discriminate |].
    destruct (mapi_result f (S index) l) eqn:El; [discriminate |].
    intros [= <-] [| k] x' y'; cbn.
    + intros [= <-] [= <-]. now rewrite Nat.add_0_r.
    + intros H1 H2. rewrite <- Nat.add_succ_comm. eapply IH; eauto.
Qed.

Lemma load_id item index p :
  VPSLoader.load item index = inr p ->
  Loaded.id p
  = if Js.truthy (Js.get_opt item "id") then Js.get_opt item "id"
    else VStr ("vps-" +:+ pretty index).
Proof.
  unfold VPSLoader.load, Js.get_opt.
  destruct (Js.get item "id") as [e | item_id]; [discriminate |].
  intros [= <-]. reflexivity.
Qed.



Lemma custom_loader_run config upstream data :
  decoded upstream = Some data ->
  run (createVPSLoader config upstream)
  = match VPSLoader.load_all data with
    | inr plans => ([Request (VPSLoaderConfig.apiUrl config)], inr plans)
    | inl e =>
        ([Request (VPSLoaderConfig.apiUrl config); ConsoleError "VPS Loader Error:" e],
         inr [])
    end.
Proof.
  unfold createVPSLoader, VPSLoader.body. intros H.
  split_promise upstream; try discriminate H. cbn in H. injection H as ->.
  step_run. destruct (VPSLoader.load_all data); reflexivity.
Qed.



(** X23. In a run of the custom loader on a decoded array, the record at
    position [i] keeps the [id] of its item when that is truthy and gets
    the id ["vps-<i>"] otherwise; so two items without an id of their
    own never get the same id. *)
Theorem custom_loader_default_ids
  (config : VPSLoaderConfig.t) (upstream : Promise (Response value))
  (items : list value) (plans : list Loaded.t) :
  decoded upstream = Some (VArr items) ->
  outcome (createVPSLoader config upstream) = inr plans ->
  (forall i item p,
      nth_error items i = Some item -> nth_error plans i = Some p ->
      Loaded.id p
      = if Js.truthy (Js.get_opt item "id") then Js.get_opt item "id"
        else VStr ("vps-" +:+ pretty i))
  /\ (forall i j item1 item2 p1 p2,
        i <> j ->
        nth_error items i = Some item1 -> nth_error plans i = Some p1 ->
        nth_error items j = Some item2 -> nth_error plans j = Some p2 ->
        Js.truthy (Js.get_opt item1 "id") = false ->
        Js.truthy (Js.get_opt item2 "id") = false ->
        Loaded.id p1 <> Loaded.id p2).
Proof.
  intros Hd Ho.
  assert (Hid : forall i item p,
             nth_error items i = Some item -> nth_error plans i = Some p ->
             Loaded.id p
             = if Js.truthy (Js.get_opt item "id") then Js.get_opt item "id"
               else VStr ("vps-" +:+ pretty i)).
  { unfold outcome in Ho. rewrite (custom_loader_run _ _ _ Hd) in Ho.
    cbn [VPSLoader.load_all] in Ho.
    destruct (mapi_result VPSLoader.load 0 items) as [e | ys] eqn:E; cbn in Ho;
      injection Ho as <-.
    - intros [| i] item p _; discriminate.
    - intros i item p Hi Hp. apply load_id.
      exact (mapi_result_nth _ _ _ _ E _ _ _ Hi Hp). }
  split; [exact Hid |].
  intros i j item1 item2 p1 p2 Hij Hi1 Hp1 Hi2 Hp2 H1 H2.
  rewrite (Hid _ _ _ Hi1 Hp1), (Hid _ _ _ Hi2 Hp2), H1, H2.
  cbn. intros [= H]. apply Hij. exact (pretty_nat_inj _ _ H).
Qed.

End Properties.

(** * The properties on concrete runs *)

Lemma adapter_failures_are_contained_witness :
  contained (fetchVultrPlans full_env (vultr vultr_unauthorized)).
Proof.
  refine (proj2 (adapter_failures_are_contained full_env vultr_unauthorized
                   (mkRun ["VULTR_API_KEY"] _ _ _) _) _ _).
  - simpl. do 3 right. left. reflexivity.
  - vm_compute. reflexivity.
  - left. vm_compute. reflexivity.
Defined.

Lemma missing_credentials_skip_provider_witness :
  outcome (fetchUpCloudPlans (delete "UPCLOUD_PASSWORD" full_env) (upcloud quiet_network))
  = inr [].
Proof.
  refine (proj1 (missing_credentials_skip_provider
                   (delete "UPCLOUD_PASSWORD" full_env) quiet_network
                   (mkRun ["UPCLOUD_USERNAME"; "UPCLOUD_PASSWORD"] _ _ _)
                   "UPCLOUD_PASSWORD" _ _ _)).
  - simpl. do 4 right. left. reflexivity.
  - simpl. right. left. reflexivity.
  - vm_compute. reflexivity.
Defined.

(** C5 as stated fails: the first tier reads "n/a", the second "4.15";
    the minimum numeric value among the tiers is 4.15, and the adapter
    emits the plan with the price [NaN]. *)
Lemma hetzner_unreadable_first_tier_hides_the_minimum :
  exists p,
    outcome (fetchHetznerPlans full_env unreadable_first_upstream) = inr [p]
    /\ HetznerServerType.prices unreadable_first
       = [HetznerPrice.mk "n/a"; HetznerPrice.mk "4.15"]
    /\ parseFloat "n/a" = NaN
    /\ Num.equiv (parseFloat "4.15") (Fin 4.15)
    /\ monthly (price p) = NaN.
Proof.
  eexists. split; [vm_compute; reflexivity |]. repeat split.
Qed.

Lemma hetzner_monthly_price_is_cheapest_tier_witness :
  exists p m,
    outcome (fetchHetznerPlans full_env three_tiers_upstream) = inr [p]
    /\ first_cheapest m (HetznerServerType.prices three_tiers)
    /\ monthly (price p) = parseFloat (HetznerPrice.gross m)
    /\ HetznerPrice.gross m = "4.15".
Proof.
  destruct (proj1 hetzner_monthly_price_is_cheapest_tier full_env three_tiers_upstream
              [three_tiers_plan] three_tiers_plan)
    as (st & first & rest & Hst & _ & Hprices & Hnum & _).
  - vm_compute. reflexivity.
  - left. reflexivity.
  - destruct Hst as [<- | []]. injection Hprices as <- <-.
    destruct Hnum as (m & Hfirst & Hm); [vm_compute; reflexivity |].
    exists three_tiers_plan, m. split; [vm_compute; reflexivity |].
    split; [exact Hfirst |]. split; [exact Hm |].
    destruct Hfirst as (before & after & Heq & Hr & Hb & Ha).
    destruct before as [| b0 [| b1 [| b2 before]]]; cbn in Heq.
    + injection Heq as <- <-. exfalso.
      assert (H : Num.le (parseFloat "5.00") (parseFloat "4.15") = true)
        by (apply (Ha (HetznerPrice.mk "4.15")); [left; reflexivity | reflexivity]).
      vm_compute in H. discriminate H.
    + injection Heq as <- <- <-. reflexivity.
    + injection Heq as <- <- <- <-. exfalso.
      assert (H : Num.lt (parseFloat "4.50") (parseFloat "4.15") = true)
        by (apply (Hb (HetznerPrice.mk "4.15")); [right; left; reflexivity | reflexivity]).
      vm_compute in H. discriminate H.
    + exfalso. apply (f_equal (@length _)) in Heq. cbn in Heq.
      rewrite length_app in Heq. cbn in Heq. lia.
Defined.

Lemma ram_reporting_by_provider_witness :
  ram (specs half_gigabyte_plan)
  = {| ram_amount := Fin (512 / 1024); ram_unit := "GB" |}.
Proof.
  destruct (ram_reporting_by_provider full_env half_gigabyte_network
              [half_gigabyte_plan] half_gigabyte_plan)
    as (_ & _ & Hvultr & _).
  - left. reflexivity.
  - destruct Hvultr as (plan & Hin & _ & Hram).
    + vm_compute. reflexivity.
    + destruct Hin as [<- | []]. exact Hram.
Defined.

(** C2 as stated fails: the Vultr adapter reports a plan of 512 MB in
    GB. *)
Lemma vultr_reports_small_memory_in_GB :
  exists p,
    outcome (fetchVultrPlans full_env half_gigabyte_upstream) = inr [p]
    /\ ~ ram_rule (VultrPlan.ram half_gigabyte) p.
Proof.
  eexists. split; [vm_compute; reflexivity |].
  intros (_ & Hiff & _). cbn in Hiff.
  assert (H : (1024 <= 512)%Q) by (apply Hiff; reflexivity).
  revert H. apply Qlt_not_le. reflexivity.
Qed.

(** C3 at the failing input: with eleven locations in the answer of the
    Hetzner API, the plan emitted carries all eleven. *)
Theorem hetzner_locations_are_not_capped :
  exists p,
    outcome (fetchHetznerPlans full_env eleven_locations_upstream) = inr [p]
    /\ length (locations p) = 11%nat.
Proof. eexists. split; vm_compute; reflexivity. Qed.

(** C9 as stated fails: on [memory: 1024] the amount is not 2. *)
Lemma digitalocean_1024_is_not_2GB :
  exists p,
    outcome (fetchDigitalOceanPlans full_env one_gigabyte_upstream) = inr [p]
    /\ ram_unit (ram (specs p)) = "GB"
    /\ ~ Num.equiv (ram_amount (ram (specs p))) (Fin 2).
Proof.
  eexists. split; [vm_compute; reflexivity |]. split; [reflexivity |].
  vm_compute. discriminate.
Qed.

Lemma digitalocean_1024_is_1GB_witness :
  ram_unit (ram (specs (DigitalOcean.transform [] one_gigabyte))) = "GB"
  /\ Num.equiv (ram_amount (ram (specs (DigitalOcean.transform [] one_gigabyte)))) (Fin 1).
Proof.
  refine (proj2 (digitalocean_1024_is_1GB [] one_gigabyte _ _)).
  - reflexivity.
  - reflexivity.
Defined.

Lemma upcloud_unpriced_plan_is_emitted_at_zero_witness :
  exists plans p,
    outcome (fetchUpCloudPlans full_env unpriced_upstream) = inr plans
    /\ nth_error plans 0 = Some p
    /\ Num.equiv (monthly (price p)) (Fin 0)
    /\ id p = "upcloud-1xcpu-2gb"
    /\ ram_amount (ram (specs p)) = Fin (2048 / 1024)
    /\ tags p = ["europe"; "high-performance"; "budget"; "ultra-budget";
                 "high-bandwidth"; "nvme-storage"].
Proof.
  destruct (upcloud_unpriced_plan_is_emitted_at_zero full_env unpriced_upstream
              (UpCloudPlansResponse.mk [unpriced]) unpriced_pricing
              (UpCloudZonesResponse.mk [UpCloudZone.mk "us-nyc1" "New York, USA"])
              0 unpriced)
    as (plans & p & Ho & _ & Hn & Hm & _ & _ & Hid & _ & _ & _ & Hspecs & _ & _ & _ & _ & _
        & _ & Htags).
  - vm_compute. reflexivity.
  - vm_compute. reflexivity.
  - reflexivity.
  - reflexivity.
  - reflexivity.
  - reflexivity.
  - intros zone items [= <- <-]. vm_compute. reflexivity.
  - exists plans, p.
    split; [exact Ho |]. split; [exact Hn |]. split; [exact Hm |].
    split; [rewrite Hid; reflexivity |].
    split; [rewrite Hspecs; reflexivity |].
    rewrite Htags. reflexivity.
Defined.



(** C8 as stated fails: two Hetzner server types with distinct names get
    the same id. *)
Lemma ids_collide_on_letter_case :
  provider_ids_unique mixed_case_network
  /\ exists plans,
       outcome (vpsPlans_loader full_env mixed_case_network) = inr plans
       /\ ~ NoDup (map id plans).
Proof.
  split.
  - repeat split; apply (bool_decide_unpack _); vm_compute; reflexivity.
  - eexists. split; [vm_compute; reflexivity |].
    apply (bool_decide_eq_false_1 _). vm_compute. reflexivity.
Qed.

Lemma aggregated_ids_are_unique_witness :
  exists plans,
    outcome (vpsPlans_loader full_env busy_network) = inr plans
    /\ map id plans
       = ["digitalocean-s-1vcpu-1gb"; "hetzner-cx11"; "linode-g6-standard-1";
          "vultr-vc2-1c-0.5gb"; "upcloud-1xcpu-2gb"; "scaleway-dev1-s"; "scaleway-gp1-s"]
    /\ NoDup (map id plans).
Proof.
  eexists. split; [vm_compute; reflexivity |]. split; [vm_compute; reflexivity |].
  apply (aggregated_ids_are_unique full_env busy_network).
  - repeat split; apply (bool_decide_unpack _); vm_compute; reflexivity.
  - vm_compute. reflexivity.
Defined.

(** C4 as stated fails: the record UpCloud emits for a plan without a
    price entry is rejected by the schema. *)
Lemma unpriced_plan_fails_validation :
  exists p,
    outcome (fetchUpCloudPlans full_env unpriced_upstream) = inr [p]
    /\ vpsSchema.validate p
       = [vpsSchema.mkIssue vpsSchema.too_small ["price"; "monthly"]
            (Some "Monthly price must be positive")].
Proof. eexists. split; vm_compute; reflexivity. Qed.

Lemma candidates_validate_when_data_is_acceptable_witness :
  vpsSchema.validate three_tiers_plan = []
  /\ exists p,
       candidate (UpCloudOffer
                    (UpCloudPricing.mk [("us-nyc1", [("server_plan_1xCPU-2GB", "0.0068")])])
                    [UpCloudZone.mk "us-nyc1" "New York, USA"] unpriced)
       = inr p
       /\ vpsSchema.validate p = [].
Proof.
  split.
  - apply (proj2 candidates_validate_when_data_is_acceptable
             (HetznerOffer [HetznerLocation.mk "Falkenstein" "Germany"] three_tiers)
             three_tiers_plan).
    + vm_compute. reflexivity.
    + cbn [well_formed]. split; [discriminate |]. split.
      * eexists _, _. split; [reflexivity |]. split; [reflexivity |].
        intros t [<- | [<- | [<- | []]]] _; vm_compute; reflexivity.
      * split; [split; [reflexivity | exists 1%Z; reflexivity] |].
        split; [reflexivity |]. split; [reflexivity | discriminate].
  - eexists. split; [reflexivity |].
    apply (proj2 candidates_validate_when_data_is_acceptable
             (UpCloudOffer
                (UpCloudPricing.mk [("us-nyc1", [("server_plan_1xCPU-2GB", "0.0068")])])
                [UpCloudZone.mk "us-nyc1" "New York, USA"] unpriced)).
    + reflexivity.
    + cbn [well_formed]. split; [discriminate |]. split.
      * eexists _, _, _, _. split; [reflexivity |]. split; [reflexivity |].
        right. eexists. split; [vm_compute; reflexivity |]. vm_compute. discriminate.
      * split; [split; [reflexivity | exists 1%Z; reflexivity] |].
        split; [reflexivity |]. split; [reflexivity |].
        split; [vm_compute; discriminate | discriminate].
Defined.

Lemma digitalocean_emits_the_available_sizes_witness :
  exists plans,
    outcome (fetchDigitalOceanPlans full_env crowded_sizes_upstream) = inr plans
    /\ map id plans = ["digitalocean-s-1vcpu-1gb"; "digitalocean-s-1vcpu-1gb"].
Proof.
  destruct (digitalocean_emits_the_available_sizes full_env crowded_sizes_upstream
              (DOSizesResponse.mk (Some crowded_sizes))
              (DORegionsResponse.mk (Some [DORegion.mk "nyc1" "New York 1" true])))
    as (plans & Hrun & _ & Hids).
  - vm_compute. reflexivity.
  - reflexivity.
  - reflexivity.
  - exists plans. split; [unfold outcome; rewrite Hrun; reflexivity |].
    rewrite Hids. reflexivity.
Defined.

Lemma linode_emits_the_non_gpu_types_witness :
  exists plans,
    outcome (fetchLinodePlans crowded_types_upstream) = inr plans
    /\ map id plans
       = ["linode-g6-standard-1"; "linode-g6-standard-1"; "linode-g6-dedicated-2"].
Proof.
  destruct (linode_emits_the_non_gpu_types crowded_types_upstream
              (LinodeTypesResponse.mk (Some crowded_types))
              (LinodeRegionsResponse.mk (Some [LinodeRegion.mk "ok" "Newark, NJ"])))
    as (plans & Hrun & _ & Hids).
  - reflexivity.
  - reflexivity.
  - exists plans. split; [unfold outcome; rewrite Hrun; reflexivity |].
    rewrite Hids. reflexivity.
Defined.

Lemma vultr_emits_the_compute_plans_witness :
  exists plans,
    outcome (fetchVultrPlans full_env crowded_plans_upstream) = inr plans
    /\ map id plans = ["vultr-vc2-1c-0.5gb"; "vultr-vc2-1c-0.5gb"; "vultr-vhf-1c-1gb"].
Proof.
  destruct (vultr_emits_the_compute_plans full_env crowded_plans_upstream
              (VultrPlansResponse.mk crowded_plans None)
              (VultrRegionsResponse.mk
                 [VultrRegion.mk "ewr" "New Jersey" "US" "North America" []]))
    as (plans & Hrun & _ & Hids).
  - vm_compute. reflexivity.
  - reflexivity.
  - reflexivity.
  - exists plans. split; [exact Hrun |]. rewrite Hids. reflexivity.
Defined.

Lemma scaleway_emits_the_virtual_servers_witness :
  exists plans,
    outcome (fetchScalewayPlans full_env crowded_servers_upstream) = inr plans
    /\ map id plans = ["scaleway-dev1-s"; "scaleway-gp1-s"].
Proof.
  destruct (scaleway_emits_the_virtual_servers full_env crowded_servers_upstream
              (ScalewayServersResponse.mk crowded_servers))
    as (plans & Hrun & _ & Hids).
  - vm_compute. reflexivity.
  - reflexivity.
  - exists plans. split; [exact Hrun |]. rewrite Hids. reflexivity.
Defined.

Lemma hetzner_emits_only_selected_types_witness :
  exists serverType,
    Hetzner.transform (hetzner_locations three_tiers_upstream) serverType
    = inr three_tiers_plan
    /\ HetznerServerType.deprecated serverType = false.
Proof.
  destruct (hetzner_emits_only_selected_types full_env three_tiers_upstream
              [three_tiers_plan] three_tiers_plan)
    as (st & _ & Ht & Hd & _).
  - vm_compute. reflexivity.
  - left. reflexivity.
  - exists st. split; assumption.
Defined.

Lemma hetzner_is_all_or_nothing_witness :
  outcome (fetchHetznerPlans full_env unpriced_type_upstream) = inr []
  /\ errors (trace (fetchHetznerPlans full_env unpriced_type_upstream)) = 1%nat.
Proof.
  refine (proj2 (hetzner_is_all_or_nothing full_env unpriced_type_upstream
                   (HetznerServerTypesResponse.mk
                      (Some [three_tiers;
                             HetznerServerType.mk "cx21" None 2 4 40 false "x86" "shared"
                               "local" []]))
                   (HetznerLocationsResponse.mk
                      (Some [HetznerLocation.mk "Falkenstein" "Germany"])) _ _ _) _).
  - vm_compute. reflexivity.
  - reflexivity.
  - reflexivity.
  - eexists. split; [right; left; reflexivity | reflexivity].
Defined.

Lemma vultr_type_labels_agree_witness :
  storage_type (storage (specs half_gigabyte_plan)) = "SSD"
  <-> In "100% SSD Storage" (features half_gigabyte_plan).
Proof.
  refine (proj2 (proj2 (proj2 (vultr_type_labels_agree
                                  (Vultr.regionMap
                                     [VultrRegion.mk "ewr" "New Jersey" "US" "North America" []])
                                  half_gigabyte _)))).
  reflexivity.
Defined.

Lemma ultra_budget_implies_budget_witness : In "budget" (tags half_gigabyte_plan).
Proof.
  apply (ultra_budget_implies_budget full_env half_gigabyte_network
           [half_gigabyte_plan] half_gigabyte_plan).
  - vm_compute. reflexivity.
  - left. reflexivity.
  - vm_compute. right. right. left. reflexivity.
Defined.

Lemma featured_plans_are_on_the_allow_list_witness : In (id three_tiers_plan) featured_ids.
Proof.
  apply (featured_plans_are_on_the_allow_list full_env three_tiers_network
           [three_tiers_plan] three_tiers_plan).
  - vm_compute. reflexivity.
  - left. reflexivity.
  - reflexivity.
Defined.

Lemma labels_are_never_repeated_witness :
  NoDup (tags three_tiers_plan) /\ NoDup (features three_tiers_plan).
Proof.
  apply (labels_are_never_repeated full_env three_tiers_network
           [three_tiers_plan] three_tiers_plan).
  - vm_compute. reflexivity.
  - left. reflexivity.
Defined.

Lemma scaleway_price_is_an_estimate_witness :
  exists (cents : Z),
    (0 < inject_Z cents / 100)%Q
    /\ monthly (price (Scaleway.transform
                         ("DEV1-S",
                          ScalewayServerType.mk "DEV1-S" "x86_64" 2 2147483648
                            (VolumesConstraint.mk 20000000000 100000000000)
                            None None (Some false) (Some 0%Q))))
       = Fin (inject_Z cents / 100).
Proof.
  destruct (scaleway_price_is_an_estimate "DEV1-S" "x86_64" 2 2147483648
              (VolumesConstraint.mk 20000000000 100000000000)
              None None (Some false) (Some 0%Q))
    as (cents & Hm & _ & _ & _ & Hpos).
  exists cents. split; [| exact Hm].
  apply Hpos; vm_compute; discriminate.
Defined.

Lemma linode_small_disk_is_rejected_witness :
  In (vpsSchema.mkIssue vpsSchema.invalid_enum_value ["specs"; "storage"; "unit"] None)
     (vpsSchema.validate (Linode.transform [] small_disk)).
Proof.
  refine (proj2 (proj1 (linode_small_disk_is_rejected [] small_disk) _)).
  reflexivity.
Defined.

Lemma loader_always_issues_twelve_requests_witness :
  urls (trace (vpsPlans_loader full_env dead_network)) = all_urls.
Proof.
  apply loader_always_issues_twelve_requests; vm_compute; reflexivity.
Defined.

Lemma loader_without_credentials_serves_linode_witness :
  outcome (vpsPlans_loader ∅ quiet_network) = outcome (fetchLinodePlans (linode quiet_network)).
Proof.
  refine (proj1 (loader_without_credentials_serves_linode ∅ quiet_network _ _ _ _ _)).
  - reflexivity.
  - reflexivity.
  - reflexivity.
  - left. reflexivity.
  - reflexivity.
Defined.

Lemma total_outage_gives_an_empty_collection_witness :
  outcome (vpsPlans_loader full_env dead_network) = inr []
  /\ errors (trace (vpsPlans_loader full_env dead_network)) = 6%nat.
Proof.
  apply total_outage_gives_an_empty_collection.
  intros r Hr. cbn in Hr.
  repeat match goal with
         | H : _ \/ _ |- _ => destruct H as [H | H]
         | H : False |- _ => destruct H
         end; subst r;
    (split; [vm_compute; reflexivity | right; eexists; vm_compute; reflexivity]).
Defined.

Lemma digitalocean_locations_are_available_regions_witness :
  locations (DigitalOcean.transform [DORegion.mk "nyc1" "New York 1" true] stranded_size) = [].
Proof.
  refine (proj1 (proj2 (digitalocean_locations_are_available_regions
                          [DORegion.mk "nyc1" "New York 1" true] stranded_size) _)).
  intros region [<- | []] _ [H | []]. discriminate H.
Defined.

Lemma hetzner_unreadable_price_texts_witness :
  (exists p,
     Hetzner.transform [] three_tiers = inr p
     /\ Num.isNaN (monthly (price p)) = false)
  /\ (exists p,
        Hetzner.transform [] unreadable_first = inr p
        /\ monthly (price p) = NaN).
Proof.
  split.
  - destruct (hetzner_unreadable_price_texts [] three_tiers (HetznerPrice.mk "5.00")
                [HetznerPrice.mk "4.15"; HetznerPrice.mk "4.50"])
      as (p & Ht & Hnum & _).
    + reflexivity.
    + exists p. split; [exact Ht |]. apply Hnum. vm_compute. reflexivity.
  - destruct (hetzner_unreadable_price_texts [] unreadable_first (HetznerPrice.mk "n/a")
                [HetznerPrice.mk "4.15"])
      as (p & Ht & _ & Hnan).
    + reflexivity.
    + exists p. split; [exact Ht |]. apply Hnan. vm_compute. reflexivity.
Defined.

Lemma upcloud_prices_come_from_the_first_zone_witness :
  Num.equiv
    (monthly (price (UpCloud.transform
                       (UpCloudPricing.mk
                          [("us-nyc1", []);
                           ("fi-hel1", [("server_plan_1xCPU-2GB", "0.0068")])])
                       [] unpriced)))
    (Fin 0).
Proof.
  refine (proj2 (upcloud_prices_come_from_the_first_zone "us-nyc1" []
                   [("fi-hel1", [("server_plan_1xCPU-2GB", "0.0068")])] [] unpriced) _).
  reflexivity.
Defined.


Lemma custom_loader_default_ids_witness :
  exists p1 p2,
    outcome (createVPSLoader example_config (ok_response (VArr two_items)))
    = inr [p1; p2]
    /\ Loaded.id p1 = VStr "vps-0"
    /\ Loaded.id p2 = VStr "vps-1"
    /\ Loaded.id p1 <> Loaded.id p2.
Proof.
  eexists _, _. split; [vm_compute; reflexivity |].
  match goal with
  | |- Loaded.id ?p1 = _ /\ Loaded.id ?p2 = _ /\ _ =>
      destruct (custom_loader_default_ids example_config
                  (ok_response (VArr two_items)) two_items [p1; p2]
                  eq_refl eq_refl)
        as [Hid Hdistinct]
  end.
  split; [| split].
  - exact (Hid 0%nat (VObj [("provider", VStr "Acme"); ("name", VStr "Small")]) _
             eq_refl eq_refl).
  - exact (Hid 1%nat
             (VObj [("id", VStr ""); ("provider", VStr "Acme"); ("name", VStr "Large")]) _
             eq_refl eq_refl).
  - apply (Hdistinct 0%nat 1%nat
             (VObj [("provider", VStr "Acme"); ("name", VStr "Small")])
             (VObj [("id", VStr ""); ("provider", VStr "Acme"); ("name", VStr "Large")]));
      try reflexivity. lia.
Defined.
